(** * classify_nuImages.py: the hour classifier and the bucketed sampler

    A shallow embedding of [src/classify_nuImages.py].

    - Python [int] values are [Z]; [len] is [Z.of_nat (length _)].
    - File names are ASCII [string]s, as the names of the nuImages data set
      are.
    - A Python [dict] keeps its keys in insertion order and the script
      iterates over [counts.items()], so dicts are association lists with
      unique keys ([PyDict]).
    - Every computation yields an [outcome]: a value, a raised exception, or
      [OutOfFuel] when the [while] loop of [distribute_files] was cut off
      after the given number of iterations.
    - [random.choice] reads the global generator, modelled as a stream
      [nat -> nat] of draws that is threaded through the state.
    - [hours] is the caller's list object, which [distribute_files] mutates
      with [hours.remove]: the final content of that object is part of the
      state the function returns. *)

From Stdlib Require Import ZArith List String Ascii Bool Lia Permutation Arith.
Import ListNotations.
Open Scope Z_scope.

(** ** Outcomes *)

Inductive exn : Type :=
| ZeroDivisionError
| KeyError (k : Z)
| ValueError
| IndexError.

Inductive outcome (A : Type) : Type :=
| Ret (a : A)
| Raise (e : exn)
| OutOfFuel.

Arguments Ret {A} a.
Arguments Raise {A} e.
Arguments OutOfFuel {A}.

Definition bind {A B : Type} (m : outcome A) (k : A -> outcome B) : outcome B :=
  match m with
  | Ret a => k a
  | Raise e => Raise e
  | OutOfFuel => OutOfFuel
  end.

Notation "x <- m ;; k" := (bind m (fun x => k))
  (at level 61, m at next level, right associativity).

(** ** Insertion-ordered dictionaries with integer keys *)

Module PyDict.

Definition t (V : Type) : Type := list (Z * V).

(** [d.get(k)] *)
Fixpoint get {V : Type} (d : t V) (k : Z) : option V :=
  match d with
  | [] => None
  | (k', v) :: d' => if k' =? k then Some v else get d' k
  end.

(** [d.get(k, dflt)] *)
Definition get_default {V : Type} (d : t V) (k : Z) (dflt : V) : V :=
  match get d k with
  | Some v => v
  | None => dflt
  end.

(** [d[k] = v]: an existing key keeps its position, a new key goes last. *)
Fixpoint set {V : Type} (d : t V) (k : Z) (v : V) : t V :=
  match d with
  | [] => [(k, v)]
  | (k', v') :: d' => if k' =? k then (k', v) :: d' else (k', v') :: set d' k v
  end.

Definition keys {V : Type} (d : t V) : list Z := map fst d.
Definition values {V : Type} (d : t V) : list V := map snd d.
Definition items {V : Type} (d : t V) : list (Z * V) := d.

End PyDict.

(** [sum(xs)] on a list of integers. *)
Definition sum (xs : list Z) : Z := fold_right Z.add 0 xs.

(** [len(xs)] *)
Definition len {A : Type} (xs : list A) : Z := Z.of_nat (List.length xs).

(** [f in xs] on a list of strings. *)
Definition mem (f : string) (xs : list string) : bool :=
  existsb (String.eqb f) xs.

(** [h in hs] on a list of integers. *)
Definition memZ (h : Z) (hs : list Z) : bool := existsb (Z.eqb h) hs.

(** [xs.remove(x)]: deletes the first occurrence, [None] stands for the
    [ValueError] Python raises when there is none. *)
Fixpoint list_remove (x : Z) (xs : list Z) : option (list Z) :=
  match xs with
  | [] => None
  | y :: ys =>
      if y =? x then Some ys
      else match list_remove x ys with
           | Some ys' => Some (y :: ys')
           | None => None
           end
  end.

(** [list(range(lo, hi))] *)
Definition range (lo hi : Z) : list Z :=
  map (fun i => lo + Z.of_nat i) (seq 0 (Z.to_nat (hi - lo))).

(** ** The bucket classifier: [int(file_name.split('-')[4][:2])] *)

Definition dash : ascii := "-"%char.

(** [s.split('-')]: never empty, one field more than there are dashes. *)
Fixpoint split_dash (s : string) : list string :=
  match s with
  | EmptyString => [EmptyString]
  | String c s' =>
      if Ascii.eqb c dash then EmptyString :: split_dash s'
      else match split_dash s' with
           | [] => [String c EmptyString]
           | f :: fs => String c f :: fs
           end
  end.

(** [s[:n]] *)
Fixpoint slice_to (n : nat) (s : string) : string :=
  match n, s with
  | S n', String c s' => String c (slice_to n' s')
  | _, _ => EmptyString
  end.

(** [fields[i]], raising [IndexError] out of range. *)
Definition index (fields : list string) (i : nat) : outcome string :=
  match nth_error fields i with
  | Some f => Ret f
  | None => Raise IndexError
  end.

(** The ASCII white space [int] skips: tab, line feed, vertical tab, form
    feed, carriage return and space. *)
Definition is_space (c : ascii) : bool :=
  let n := nat_of_ascii c in
  ((9 <=? n) && (n <=? 13))%nat || (n =? 32)%nat.

Definition digit_val (c : ascii) : option Z :=
  let n := nat_of_ascii c in
  if ((48 <=? n) && (n <=? 57))%nat then Some (Z.of_nat (n - 48)) else None.

Fixpoint lstrip (s : string) : string :=
  match s with
  | String c s' => if is_space c then lstrip s' else s
  | EmptyString => EmptyString
  end.

Fixpoint all_space (s : string) : bool :=
  match s with
  | EmptyString => true
  | String c s' => is_space c && all_space s'
  end.

(** The digits of a decimal literal after its first digit: digits, single
    underscores that a digit follows, then only white space. [acc] is the
    value read so far. *)
Fixpoint int_digits (acc : Z) (s : string) : option Z :=
  match s with
  | EmptyString => Some acc
  | String c s' =>
      match digit_val c with
      | Some d => int_digits (10 * acc + d) s'
      | None =>
          if Ascii.eqb c "_"%char then
            match s' with
            | String c' s'' =>
                match digit_val c' with
                | Some d => int_digits (10 * acc + d) s''
                | None => None
                end
            | EmptyString => None
            end
          else if all_space s then Some acc else None
      end
  end.

(** An unsigned decimal literal: it starts with a digit. *)
Definition int_unsigned (s : string) : option Z :=
  match s with
  | String c s' =>
      match digit_val c with
      | Some d => int_digits d s'
      | None => None
      end
  | EmptyString => None
  end.

(** [int(s)] in base 10 on an ASCII string: white space, an optional sign,
    the literal, white space. [None] stands for [ValueError]. *)
Definition py_int (s : string) : option Z :=
  match lstrip s with
  | String c s' =>
      if Ascii.eqb c "+"%char then int_unsigned s'
      else if Ascii.eqb c "-"%char then option_map Z.opp (int_unsigned s')
      else int_unsigned (String c s')
  | EmptyString => None
  end.

Definition int (s : string) : outcome Z :=
  match py_int s with
  | Some z => Ret z
  | None => Raise ValueError
  end.

(** [int(file_name.split('-')[4][:2])] *)
Definition classify (file_name : string) : outcome Z :=
  field <- index (split_dash file_name) 4 ;;
  int (slice_to 2 field).

(** ** The sampler: [distribute_files] *)

Definition files_dict_t : Type := PyDict.t (list string).

(** [files_dict.get(hour, [])] *)
Definition bucket (files_dict : files_dict_t) (hour : Z) : list string :=
  PyDict.get_default files_dict hour [].

(** [{hour: len(files_dict.get(hour, [])) for hour in hours}] *)
Definition mk_counts (files_dict : files_dict_t) (hours : list Z) : PyDict.t Z :=
  fold_left (fun d hour => PyDict.set d hour (len (bucket files_dict hour)))
            hours [].

(** The variables of [distribute_files] that change while it runs, and the
    global random generator. [hours] is the list object of the caller. *)
Record dstate : Type := mk_dstate {
  hours : list Z;
  total_files_required : Z;
  selected_files : list string;
  selection_count_per_hour : PyDict.t Z;
  rng : nat -> nat
}.

(** Lines 90-94: the clamp of [total_files_required]. *)
Definition clamp (total_available_files total_files_required : Z) : Z :=
  if total_files_required >? total_available_files
  then total_available_files
  else total_files_required.

Definition total_available_files (files_dict : files_dict_t) (hs : list Z) : Z :=
  sum (PyDict.values (mk_counts files_dict hs)).

(** Line 97: [total_files_required // len(hours)], for a non-empty [hours];
    [Z.div] rounds down as [//] does. *)
Definition average_files (files_dict : files_dict_t) (hs : list Z)
    (requested : Z) : Z :=
  clamp (total_available_files files_dict hs) requested / len hs.

(** Lines 106-111: the body of the fairness loop when the test succeeds. *)
Definition take_bucket (files_dict : files_dict_t) (hour count : Z)
    (st : dstate) : outcome dstate :=
  match list_remove hour (hours st) with
  | None => Raise ValueError
  | Some hs' =>
      Ret {| hours := hs';
             total_files_required := total_files_required st - count;
             selected_files := selected_files st ++ bucket files_dict hour;
             selection_count_per_hour :=
               PyDict.set (selection_count_per_hour st) hour count;
             rng := rng st |}
  end.

(** Lines 105-111: [for hour, count in counts.items()]. *)
Fixpoint fairness_pass (files_dict : files_dict_t) (average : Z)
    (items : list (Z * Z)) (st : dstate) : outcome dstate :=
  match items with
  | [] => Ret st
  | (hour, count) :: items' =>
      if count <=? average then
        st' <- take_bucket files_dict hour count st ;;
        fairness_pass files_dict average items' st'
      else fairness_pass files_dict average items' st
  end.

(** Line 118: [[f for f in files if f not in selected_files]]. *)
Definition available_files (files selected : list string) : list string :=
  filter (fun f => negb (mem f selected)) files.

(** [random.choice(xs)] on a non-empty list, with the next draw [r]. *)
Definition choice (r : nat) (xs : list string) : string :=
  nth (r mod List.length xs) xs EmptyString.

(** Lines 120-122: one file of [hour] is selected. *)
Definition pick (hour : Z) (available : list string) (st : dstate) : dstate :=
  {| hours := hours st;
     total_files_required := total_files_required st - 1;
     selected_files := selected_files st ++ [choice (rng st 0%nat) available];
     selection_count_per_hour :=
       PyDict.set (selection_count_per_hour st) hour
         (PyDict.get_default (selection_count_per_hour st) hour 0 + 1);
     rng := fun k => rng st (S k) |}.

(** Lines 115-123: [for hour in hours], with its [break]. The loop does not
    change [hours], so [hs] is the part of it that is still to visit. *)
Fixpoint greedy_round (files_dict : files_dict_t) (hs : list Z)
    (st : dstate) : outcome dstate :=
  match hs with
  | [] => Ret st
  | hour :: hs' =>
      if total_files_required st <=? 0 then Ret st
      else
        match PyDict.get files_dict hour with
        | None => Raise (KeyError hour)
        | Some files =>
            match available_files files (selected_files st) with
            | [] => greedy_round files_dict hs' st
            | f :: fs => greedy_round files_dict hs' (pick hour (f :: fs) st)
            end
        end
  end.

(** Line 114: [while total_files_required > 0 and hours]. *)
Definition fill_needed (st : dstate) : bool :=
  (total_files_required st >? 0) &&
  match hours st with [] => false | _ :: _ => true end.

Fixpoint greedy_fill (files_dict : files_dict_t) (fuel : nat)
    (st : dstate) : outcome dstate :=
  if fill_needed st then
    match fuel with
    | O => OutOfFuel
    | S fuel' =>
        st' <- greedy_round files_dict (hours st) st ;;
        greedy_fill files_dict fuel' st'
    end
  else Ret st.

(** Lines 88-111: up to the end of the fairness loop. *)
Definition fairness_phase (files_dict : files_dict_t) (g : nat -> nat)
    (hs : list Z) (requested : Z) : outcome dstate :=
  let counts := mk_counts files_dict hs in
  let total := clamp (sum (PyDict.values counts)) requested in
  match hs with
  | [] => Raise ZeroDivisionError
  | _ :: _ =>
      let average := total / len hs in
      fairness_pass files_dict average (PyDict.items counts)
        {| hours := hs;
           total_files_required := total;
           selected_files := [];
           selection_count_per_hour := [];
           rng := g |}
  end.

(** [distribute_files(hours, total_files_required)]. The returned pair is
    [(selected_files st, selection_count_per_hour st)] of the final state
    [st]; [hours st] is what the caller's list holds afterwards and [rng st]
    the generator. *)
Definition distribute_files (files_dict : files_dict_t) (g : nat -> nat)
    (fuel : nat) (hs : list Z) (requested : Z) : outcome dstate :=
  st <- fairness_phase files_dict g hs requested ;;
  greedy_fill files_dict fuel st.

(** ** The script *)

(** Lines 31-37. *)
Definition IMAGE_SELECTION_COUNT_DAY : Z := 50.
Definition IMAGE_SELECTION_COUNT_NIGHT : Z := 50.

Inductive copy_mode : Type := Timeslots | Daynight | NoCopy.

Definition COPY_TO_FULL : copy_mode := Daynight.

Definition DAY_HOURS : list Z := range 6 18.
Definition NIGHT_HOURS : list Z :=
  filter (fun i => negb (memZ i DAY_HOURS)) (range 0 24).

(** Lines 80-83: the categorisation loop. *)
Fixpoint categorize (all_files : list string) (files_dict : files_dict_t)
    : outcome files_dict_t :=
  match all_files with
  | [] => Ret files_dict
  | file_name :: rest =>
      hour <- classify file_name ;;
      categorize rest
        (PyDict.set files_dict hour (bucket files_dict hour ++ [file_name]))
  end.

(** What the script leaves behind: the copies made into each directory, in
    order, and the numbers of the report. *)
Record run_result : Type := mk_run_result {
  r_files_dict : files_dict_t;
  r_DAY_HOURS : list Z;
  r_NIGHT_HOURS : list Z;
  day_files : list string;
  day_counts : PyDict.t Z;
  night_files : list string;
  night_counts : PyDict.t Z;
  subset_daytime : list string;
  subset_nighttime : list string;
  full_timeslots : list (Z * string);
  full_daytime : list string;
  full_nighttime : list string;
  total_daytime_selected : Z;
  total_daytime_images : Z;
  total_nighttime_selected : Z;
  total_nighttime_images : Z
}.

(** Lines 149-154: the "daynight" copy loop; it parses every name again and
    tests the hour against the current content of [DAY_HOURS]. *)
Fixpoint copy_daynight (day_hours : list Z) (all_files : list string)
    : outcome (list string * list string) :=
  match all_files with
  | [] => Ret ([], [])
  | file_name :: rest =>
      hour <- classify file_name ;;
      dn <- copy_daynight day_hours rest ;;
      if memZ hour day_hours
      then Ret (file_name :: fst dn, snd dn)
      else Ret (fst dn, file_name :: snd dn)
  end.

(** Lines 142-146: the "timeslots" copy loop. *)
Definition copy_timeslots (files_dict : files_dict_t) : list (Z * string) :=
  flat_map (fun hour => map (fun f => (hour, f)) (bucket files_dict hour))
           (PyDict.keys files_dict).

(** Lines 162-165 and 175-178: the selected total of a group. The script
    visits the keys in sorted order, which does not change the sum. *)
Definition total_selected (counts : PyDict.t Z) : Z :=
  sum (map (fun hour => PyDict.get_default counts hour 0) (PyDict.keys counts)).

(** Lines 77-193 for a directory listing [all_files]; argument parsing, the
    directory checks and the rendering of the report are left out. *)
Definition run (mode : copy_mode) (count_day count_night : Z)
    (all_files : list string) (g : nat -> nat) (fuel : nat)
    : outcome run_result :=
  files_dict <- categorize all_files [] ;;
  day <- distribute_files files_dict g fuel DAY_HOURS count_day ;;
  night <- distribute_files files_dict (rng day) fuel NIGHT_HOURS count_night ;;
  let day_hours := hours day in
  let night_hours := hours night in
  full <- match mode with
          | Daynight => copy_daynight day_hours all_files
          | _ => Ret ([], [])
          end ;;
  Ret {| r_files_dict := files_dict;
         r_DAY_HOURS := day_hours;
         r_NIGHT_HOURS := night_hours;
         day_files := selected_files day;
         day_counts := selection_count_per_hour day;
         night_files := selected_files night;
         night_counts := selection_count_per_hour night;
         subset_daytime := selected_files day;
         subset_nighttime := selected_files night;
         full_timeslots :=
           match mode with
           | Timeslots => copy_timeslots files_dict
           | _ => []
           end;
         full_daytime := fst full;
         full_nighttime := snd full;
         total_daytime_selected := total_selected (selection_count_per_hour day);
         total_daytime_images :=
           sum (map (fun hour => len (bucket files_dict hour)) day_hours);
         total_nighttime_selected :=
           total_selected (selection_count_per_hour night);
         total_nighttime_images :=
           sum (map (fun hour => len (bucket files_dict hour)) night_hours) |}.

(** The script as configured. *)
Definition main (all_files : list string) (g : nat -> nat) (fuel : nat)
    : outcome run_result :=
  run COPY_TO_FULL IMAGE_SELECTION_COUNT_DAY IMAGE_SELECTION_COUNT_NIGHT
      all_files g fuel.

(** ** Vocabulary of the statements *)

(** The keys of [counts]: the hours of the group, each once, in the order
    of their first occurrence in [hours]. *)
Definition count_keys (files_dict : files_dict_t) (hs : list Z) : list Z :=
  PyDict.keys (mk_counts files_dict hs).

(** The hours among [ks] whose bucket holds at most [average] files. *)
Definition consumed (files_dict : files_dict_t) (average : Z) (ks : list Z)
    : list Z :=
  filter (fun h => len (bucket files_dict h) <=? average) ks.

(** [hs] after [hs.remove(k)] for each [k] of [ks] in turn (an absent [k]
    is passed over). *)
Definition remove1 (k : Z) (hs : list Z) : list Z :=
  match list_remove k hs with
  | Some hs' => hs'
  | None => hs
  end.

Definition remove_each (ks hs : list Z) : list Z :=
  fold_left (fun hs k => remove1 k hs) ks hs.

(** No bucket of the group lists a file twice. *)
Definition duplicate_free (files_dict : files_dict_t) (hs : list Z) : Prop :=
  forall h, In h hs -> NoDup (bucket files_dict h).

(** No file is in two buckets of the group. *)
Definition pairwise_disjoint (files_dict : files_dict_t) (hs : list Z) : Prop :=
  forall h1 h2 f, In h1 hs -> In h2 hs -> h1 <> h2 ->
    In f (bucket files_dict h1) -> ~ In f (bucket files_dict h2).

(** The fairness pass as the specification describes it: every bucket of
    the group is compared with one value of [average], computed before the
    pass from the clamped request and the length of [hours] at entry; the
    buckets at or below it are taken whole. *)
Definition fairness_with_fixed_average (files_dict : files_dict_t)
    (g : nat -> nat) (hs : list Z) (requested : Z) : dstate :=
  let average := average_files files_dict hs requested in
  let taken := consumed files_dict average (count_keys files_dict hs) in
  {| hours := remove_each taken hs;
     total_files_required :=
       clamp (total_available_files files_dict hs) requested
       - len (flat_map (bucket files_dict) taken);
     selected_files := flat_map (bucket files_dict) taken;
     selection_count_per_hour :=
       map (fun h => (h, len (bucket files_dict h))) taken;
     rng := g |}.

(** One selection of the greedy pass, as a transition between states: a
    file [f] of the bucket of some [hour] still in [hours], not selected
    before, is appended while the request is positive. *)
Inductive pick_step (files_dict : files_dict_t) : dstate -> dstate -> Prop :=
| pick_step_intro (st : dstate) (hour : Z) (files : list string) (f : string)
    (g' : nat -> nat) :
    In hour (hours st) ->
    PyDict.get files_dict hour = Some files ->
    In f files ->
    ~ In f (selected_files st) ->
    0 < total_files_required st ->
    pick_step files_dict st
      {| hours := hours st;
         total_files_required := total_files_required st - 1;
         selected_files := selected_files st ++ [f];
         selection_count_per_hour :=
           PyDict.set (selection_count_per_hour st) hour
             (PyDict.get_default (selection_count_per_hour st) hour 0 + 1);
         rng := g' |}.

Inductive picks (files_dict : files_dict_t) : dstate -> dstate -> Prop :=
| picks_refl (st : dstate) : picks files_dict st st
| picks_step (st st1 st2 : dstate) :
    pick_step files_dict st st1 -> picks files_dict st1 st2 ->
    picks files_dict st st2.

(** ** Invariants of the two passes *)

(** The bookkeeping agrees: the counts add up to the selection, and the
    selection and the open request add up to the clamped request. *)
Definition accounted (clamped : Z) (st : dstate) : Prop :=
  sum (PyDict.values (selection_count_per_hour st)) = len (selected_files st)
  /\ len (selected_files st) + total_files_required st = clamped.

(** Every selected file is in a bucket of the group [hs0], and [hours] has
    only lost elements. *)
Definition from_group (files_dict : files_dict_t) (hs0 : list Z)
    (st : dstate) : Prop :=
  (forall f, In f (selected_files st) ->
             exists h, In h hs0 /\ In f (bucket files_dict h))
  /\ incl (hours st) hs0.

(** A bucket of the group is still in [hours] or wholly selected. *)
Definition reachable (files_dict : files_dict_t) (hs0 : list Z)
    (st : dstate) : Prop :=
  forall h, In h hs0 ->
    In h (hours st) \/ incl (bucket files_dict h) (selected_files st).

(** The count of an hour is the number of selected files of its bucket. *)
Definition tallied (files_dict : files_dict_t) (hs0 : list Z)
    (st : dstate) : Prop :=
  forall h, In h hs0 ->
    PyDict.get_default (selection_count_per_hour st) h 0
    = len (filter (fun f => mem f (bucket files_dict h)) (selected_files st)).

(** ** Decision procedures and sample inputs *)

Fixpoint nodupb (xs : list string) : bool :=
  match xs with
  | [] => true
  | x :: xs' => negb (mem x xs') && nodupb xs'
  end.

Definition duplicate_freeb (files_dict : files_dict_t) (hs : list Z) : bool :=
  forallb (fun h => nodupb (bucket files_dict h)) hs.

Definition pairwise_disjointb (files_dict : files_dict_t) (hs : list Z) : bool :=
  forallb (fun h1 =>
    forallb (fun h2 =>
      (h1 =? h2)
      || forallb (fun f => negb (mem f (bucket files_dict h2)))
                 (bucket files_dict h1)) hs) hs.

(** Every name of the listing is accepted by the classifier. *)
Definition well_formedb (all_files : list string) : bool :=
  forallb (fun f => match classify f with Ret _ => true | _ => false end)
          all_files.

(** A generator whose every draw is 0: [random.choice] takes the first
    element. *)
Definition first_choice : nat -> nat := fun _ => 0%nat.

(** Three files at 6 o'clock and one at 7 o'clock. *)
Definition sample_dict : files_dict_t :=
  [(6, ["s-2018-08-27-06-01-00.jpg"; "s-2018-08-27-06-02-00.jpg";
        "s-2018-08-27-06-03-00.jpg"]%string);
   (7, ["s-2018-08-27-07-01-00.jpg"]%string)].

(** Two files in each of two hours. *)
Definition balanced_dict : files_dict_t :=
  [(6, ["s-2018-08-27-06-01-00.jpg"; "s-2018-08-27-06-02-00.jpg"]%string);
   (7, ["s-2018-08-27-07-01-00.jpg"; "s-2018-08-27-07-02-00.jpg"]%string)].

(** One bucket that lists the same file three times. *)
Definition repeated_dict : files_dict_t :=
  [(6, ["s-2018-08-27-06-01-00.jpg"; "s-2018-08-27-06-01-00.jpg";
        "s-2018-08-27-06-01-00.jpg"]%string)].

(** Three files at 6 o'clock and nothing else. *)
Definition morning_dict : files_dict_t :=
  [(6, ["s-2018-08-27-06-01-00.jpg"; "s-2018-08-27-06-02-00.jpg";
        "s-2018-08-27-06-03-00.jpg"]%string)].

(** No file before 7 o'clock, one at 7 and two at 8. *)
Definition late_dict : files_dict_t :=
  [(7, ["s-2018-08-27-07-01-00.jpg"]%string);
   (8, ["s-2018-08-27-08-01-00.jpg"; "s-2018-08-27-08-02-00.jpg"]%string)].

(** A fairness pass the script does not have: the average is computed
    again, from the open request and the hours left, before every test. It
    serves only to show that the pass of the script differs from it. *)
Fixpoint fairness_pass_recomputing (files_dict : files_dict_t)
    (items : list (Z * Z)) (st : dstate) : outcome dstate :=
  match items with
  | [] => Ret st
  | (hour, count) :: items' =>
      if count <=? total_files_required st / len (hours st) then
        st' <- take_bucket files_dict hour count st ;;
        fairness_pass_recomputing files_dict items' st'
      else fairness_pass_recomputing files_dict items' st
  end.

(** [s] contains a dash. *)
Fixpoint has_dash (s : string) : bool :=
  match s with
  | EmptyString => false
  | String c s' => Ascii.eqb c dash || has_dash s'
  end.

(** A directory listing: twelve images taken at 14 o'clock, one at 7, one
    at 22, and one whose hour field reads 99. *)
Definition sample_listing : list string :=
  ["n013-2018-08-27-14-00-26+0800__CAM_FRONT__1535352274870100.jpg";
   "n013-2018-08-27-14-01-26+0800__CAM_FRONT__1535352274870101.jpg";
   "n013-2018-08-27-14-02-26+0800__CAM_FRONT__1535352274870102.jpg";
   "n013-2018-08-27-14-03-26+0800__CAM_FRONT__1535352274870103.jpg";
   "n013-2018-08-27-14-04-26+0800__CAM_FRONT__1535352274870104.jpg";
   "n013-2018-08-27-14-05-26+0800__CAM_FRONT__1535352274870105.jpg";
   "n013-2018-08-27-14-06-26+0800__CAM_FRONT__1535352274870106.jpg";
   "n013-2018-08-27-14-07-26+0800__CAM_FRONT__1535352274870107.jpg";
   "n013-2018-08-27-14-08-26+0800__CAM_FRONT__1535352274870108.jpg";
   "n013-2018-08-27-14-09-26+0800__CAM_FRONT__1535352274870109.jpg";
   "n013-2018-08-27-14-10-26+0800__CAM_FRONT__1535352274870110.jpg";
   "n013-2018-08-27-14-11-26+0800__CAM_FRONT__1535352274870111.jpg";
   "n013-2018-08-27-07-41-26+0800__CAM_FRONT__1535327274870176.jpg";
   "n013-2018-08-27-22-41-26+0800__CAM_FRONT__1535381274870176.jpg";
   "n013-2018-08-27-99-41-26+0800__CAM_FRONT__1535352274870176.jpg"]%string.

(** ** Vocabulary of the further properties *)

(** The classifier accepts [f] and gives the hour [h]. *)
Definition hour_is (h : Z) (f : string) : bool :=
  match classify f with
  | Ret h' => h' =? h
  | _ => false
  end.

(** The number of dashes in [s]. *)
Fixpoint count_dash (s : string) : nat :=
  match s with
  | EmptyString => O
  | String c s' => if Ascii.eqb c dash then S (count_dash s') else count_dash s'
  end.

(** The number of selected files that the bucket of [h] lists. *)
Definition selected_from (files_dict : files_dict_t) (h : Z)
    (selected : list string) : Z :=
  len (filter (fun f => mem f (bucket files_dict h)) selected).

(** Line 151 for a name the classifier accepts: [hour in DAY_HOURS]. *)
Definition is_day (day_hours : list Z) (f : string) : bool :=
  match classify f with
  | Ret h => memZ h day_hours
  | _ => false
  end.

(** ** What [int] reads from the first two characters of a field *)

(** [c] is the decimal digit of value [d]. *)
Definition decimal (c : ascii) (d : Z) : Prop :=
  (48 <= nat_of_ascii c <= 57)%nat /\ d = Z.of_nat (nat_of_ascii c) - 48.

(** [c] is a tab, line feed, vertical tab, form feed, carriage return or
    space. *)
Definition white (c : ascii) : Prop :=
  (9 <= nat_of_ascii c <= 13)%nat \/ nat_of_ascii c = 32%nat.

(** The strings of at most two characters, without a minus sign, that
    [int] accepts, with the value it returns: one digit; two digits; a
    digit after or before one white-space character; a digit after a plus
    sign. *)
Inductive reads : string -> Z -> Prop :=
| reads_digit (c : ascii) (d : Z) :
    decimal c d -> reads (String c EmptyString) d
| reads_two_digits (c1 c2 : ascii) (a b : Z) :
    decimal c1 a -> decimal c2 b ->
    reads (String c1 (String c2 EmptyString)) (10 * a + b)
| reads_space_digit (c1 c2 : ascii) (d : Z) :
    white c1 -> decimal c2 d ->
    reads (String c1 (String c2 EmptyString)) d
| reads_digit_space (c1 c2 : ascii) (d : Z) :
    decimal c1 d -> white c2 ->
    reads (String c1 (String c2 EmptyString)) d
| reads_plus_digit (c : ascii) (d : Z) :
    decimal c d ->
    reads (String "+"%char (String c EmptyString)) d.

(** * Properties *)

(** ** Lists and dictionaries *)

Lemma mem_In (f : string) (xs : list string) : mem f xs = true <-> In f xs.
Proof.
  unfold mem. rewrite existsb_exists. split.
  - intros [x [Hx He]]. apply String.eqb_eq in He. now subst.
  - intros H. exists f. split; [assumption | apply String.eqb_refl].
Qed.

Lemma mem_false (f : string) (xs : list string) :
  mem f xs = false <-> ~ In f xs.
Proof.
  rewrite <- mem_In. destruct (mem f xs); split; congruence.
Qed.

Lemma memZ_In (h : Z) (hs : list Z) : memZ h hs = true <-> In h hs.
Proof.
  unfold memZ. rewrite existsb_exists. split.
  - intros [x [Hx He]]. apply Z.eqb_eq in He. now subst.
  - intros H. exists h. split; [assumption | apply Z.eqb_refl].
Qed.

Lemma memZ_false (h : Z) (hs : list Z) : memZ h hs = false <-> ~ In h hs.
Proof.
  rewrite <- memZ_In. destruct (memZ h hs); split; congruence.
Qed.

Lemma len_nonneg {A : Type} (xs : list A) : 0 <= len xs.
Proof. unfold len. lia. Qed.

Lemma len_app {A : Type} (xs ys : list A) : len (xs ++ ys) = len xs + len ys.
Proof. unfold len. rewrite length_app. lia. Qed.

Lemma len_nil_iff {A : Type} (xs : list A) : len xs = 0 <-> xs = [].
Proof.
  unfold len. destruct xs; simpl; split; intros H; try reflexivity;
    try discriminate; lia.
Qed.

Lemma len_pos {A : Type} (xs : list A) : xs <> [] -> 0 < len xs.
Proof. unfold len. destruct xs; [congruence | simpl; lia]. Qed.

Lemma sum_app (xs ys : list Z) : sum (xs ++ ys) = sum xs + sum ys.
Proof. unfold sum. induction xs; simpl; lia. Qed.

Lemma len_flat_map {A : Type} (f : A -> list string) (ks : list A) :
  len (flat_map f ks) = sum (map (fun k => len (f k)) ks).
Proof.
  induction ks as [|k ks IH]; simpl; [reflexivity|].
  rewrite len_app, IH. reflexivity.
Qed.

Module PyDictFacts.
Import PyDict.

Section Facts.
Context {V : Type}.
Implicit Types (d : t V) (k : Z) (v : V).

Lemma get_set_same d k v : get (set d k v) k = Some v.
Proof.
  induction d as [|[k' v'] d IH]; simpl.
  - now rewrite Z.eqb_refl.
  - destruct (k' =? k) eqn:E; simpl; rewrite E; auto.
Qed.

Lemma get_set_other d k k' v : k <> k' -> get (set d k v) k' = get d k'.
Proof.
  intros Hne. induction d as [|[k0 v0] d IH]; simpl.
  - destruct (k =? k') eqn:E; [apply Z.eqb_eq in E; contradiction | reflexivity].
  - destruct (k0 =? k) eqn:E; simpl.
    + apply Z.eqb_eq in E. subst k0.
      destruct (k =? k') eqn:E'; [apply Z.eqb_eq in E'; contradiction | reflexivity].
    + now rewrite IH.
Qed.

Lemma get_None d k : get d k = None <-> ~ In k (keys d).
Proof.
  induction d as [|[k' v'] d IH]; simpl.
  - tauto.
  - destruct (k' =? k) eqn:E.
    + apply Z.eqb_eq in E. split; [discriminate | tauto].
    + apply Z.eqb_neq in E. rewrite IH. tauto.
Qed.

Lemma get_Some_In d k v : get d k = Some v -> In k (keys d).
Proof.
  intros H. destruct (in_dec Z.eq_dec k (keys d)) as [Hi|Hn]; [assumption|].
  apply get_None in Hn. congruence.
Qed.

Lemma keys_set d k v k' : In k' (keys (set d k v)) <-> k' = k \/ In k' (keys d).
Proof.
  induction d as [|[k0 v0] d IH]; simpl.
  - intuition.
  - destruct (k0 =? k) eqn:E; simpl.
    + apply Z.eqb_eq in E. subst. intuition.
    + rewrite IH. intuition.
Qed.

Lemma set_absent d k v : ~ In k (keys d) -> set d k v = d ++ [(k, v)].
Proof.
  induction d as [|[k0 v0] d IH]; simpl; intros Hn; [reflexivity|].
  destruct (k0 =? k) eqn:E.
  - apply Z.eqb_eq in E. tauto.
  - rewrite IH; tauto.
Qed.

Lemma keys_app d d' : keys (d ++ d') = keys d ++ keys d'.
Proof. apply map_app. Qed.

End Facts.

Lemma sum_values_set (d : t Z) k v :
  sum (values (set d k v)) = sum (values d) - get_default d k 0 + v.
Proof.
  unfold get_default, values, sum.
  induction d as [|[k0 v0] d IH]; simpl.
  - lia.
  - destruct (k0 =? k) eqn:E; simpl; lia.
Qed.

Lemma get_default_set_same (d : t Z) k v dflt :
  get_default (set d k v) k dflt = v.
Proof. unfold get_default. now rewrite get_set_same. Qed.

Lemma get_default_set_other (d : t Z) k k' v dflt :
  k <> k' -> get_default (set d k v) k' dflt = get_default d k' dflt.
Proof. intros H. unfold get_default. now rewrite get_set_other. Qed.

End PyDictFacts.

Import PyDictFacts.

(** ** [hours.remove] *)

Lemma list_remove_In (x : Z) (xs : list Z) :
  In x xs -> exists ys, list_remove x xs = Some ys.
Proof.
  induction xs as [|y ys IH]; simpl; [tauto|].
  intros H. destruct (y =? x) eqn:E; [eauto|].
  apply Z.eqb_neq in E. destruct H as [H|H]; [contradiction|].
  destruct (IH H) as [ys' ->]. eauto.
Qed.

Lemma list_remove_incl (x : Z) (xs ys : list Z) :
  list_remove x xs = Some ys -> incl ys xs.
Proof.
  revert ys. induction xs as [|y xs IH]; simpl; intros ys H; [discriminate|].
  destruct (y =? x).
  - injection H as <-. apply incl_tl, incl_refl.
  - destruct (list_remove x xs) as [ys'|]; [|discriminate].
    injection H as <-. intros z [Hz|Hz]; [now left | right; now apply (IH ys')].
Qed.

Lemma list_remove_other (x z : Z) (xs ys : list Z) :
  list_remove x xs = Some ys -> z <> x -> In z xs -> In z ys.
Proof.
  revert ys. induction xs as [|y xs IH]; simpl; intros ys H Hne Hin; [tauto|].
  destruct (y =? x) eqn:E.
  - apply Z.eqb_eq in E. injection H as <-. destruct Hin; [congruence | assumption].
  - destruct (list_remove x xs) as [ys'|]; [|discriminate].
    injection H as <-. destruct Hin as [->|Hin]; [now left | right; now apply IH].
Qed.

Lemma list_remove_NoDup (x : Z) (xs ys : list Z) :
  list_remove x xs = Some ys -> NoDup xs -> NoDup ys /\ ~ In x ys.
Proof.
  revert ys. induction xs as [|y xs IH]; simpl; intros ys H Hnd; [discriminate|].
  inversion Hnd as [|? ? Hy Hnd']; subst.
  destruct (y =? x) eqn:E.
  - apply Z.eqb_eq in E. injection H as <-. subst. tauto.
  - apply Z.eqb_neq in E.
    destruct (list_remove x xs) as [ys'|] eqn:R; [|discriminate].
    injection H as <-. destruct (IH ys' eq_refl Hnd') as [Hn Hx]. split.
    + constructor; [|assumption]. intros Hc. apply Hy.
      now apply (list_remove_incl x xs ys').
    + simpl. intros [Hc|Hc]; [congruence | tauto].
Qed.

(** ** The [counts] dictionary *)

Section Counts.
Variable files_dict : files_dict_t.

Let count_of (h : Z) : Z := len (bucket files_dict h).
Let step (d : PyDict.t Z) (h : Z) : PyDict.t Z := PyDict.set d h (count_of h).

Lemma keys_set_present (d : PyDict.t Z) k v :
  In k (PyDict.keys d) -> PyDict.keys (PyDict.set d k v) = PyDict.keys d.
Proof.
  induction d as [|[k0 v0] d IH]; simpl; [tauto|].
  intros H. destruct (k0 =? k) eqn:E; simpl; [reflexivity|].
  apply Z.eqb_neq in E. f_equal. apply IH. tauto.
Qed.

Lemma In_set (d : PyDict.t Z) k v k' c :
  In (k', c) (PyDict.set d k v) -> (k' = k /\ c = v) \/ In (k', c) d.
Proof.
  induction d as [|[k0 v0] d IH]; simpl.
  - intros [H|[]]. injection H as <- <-. tauto.
  - destruct (k0 =? k) eqn:E; simpl.
    + apply Z.eqb_eq in E. subst. intros [H|H]; [injection H as <- <-|]; tauto.
    + intros [H|H]; [tauto|]. apply IH in H. tauto.
Qed.

Lemma NoDup_keys_set (d : PyDict.t Z) k v :
  NoDup (PyDict.keys d) -> NoDup (PyDict.keys (PyDict.set d k v)).
Proof.
  intros Hnd. destruct (in_dec Z.eq_dec k (PyDict.keys d)) as [Hi|Hn].
  - now rewrite keys_set_present.
  - rewrite set_absent, keys_app by assumption. simpl.
    apply NoDup_app; [assumption | repeat constructor; tauto |].
    intros x Hx [<-|[]]. tauto.
Qed.

Lemma fold_counts_keys hs d k :
  In k (PyDict.keys (fold_left step hs d)) <-> In k (PyDict.keys d) \/ In k hs.
Proof.
  revert d. induction hs as [|h hs IH]; intros d; simpl; [tauto|].
  rewrite IH. unfold step. rewrite keys_set. intuition.
Qed.

Lemma fold_counts_NoDup hs d :
  NoDup (PyDict.keys d) -> NoDup (PyDict.keys (fold_left step hs d)).
Proof.
  revert d. induction hs as [|h hs IH]; intros d Hd; simpl; [assumption|].
  apply IH, NoDup_keys_set, Hd.
Qed.

Lemma fold_counts_items hs d :
  (forall k c, In (k, c) d -> c = count_of k) ->
  forall k c, In (k, c) (fold_left step hs d) -> c = count_of k.
Proof.
  revert d. induction hs as [|h hs IH]; intros d Hd; simpl; [assumption|].
  apply IH. intros k c H. apply In_set in H. destruct H as [[-> ->]|H]; auto.
Qed.

Lemma fold_counts_fresh hs d :
  NoDup hs -> (forall h, In h hs -> ~ In h (PyDict.keys d)) ->
  fold_left step hs d = d ++ map (fun h => (h, count_of h)) hs.
Proof.
  revert d. induction hs as [|h hs IH]; intros d Hnd Hf; simpl.
  - now rewrite app_nil_r.
  - inversion Hnd as [|? ? Hh Hnd']; subst.
    unfold step at 2. rewrite set_absent by (apply Hf; now left).
    rewrite IH; [now rewrite <- app_assoc | assumption |].
    intros h' Hh'. rewrite keys_app, in_app_iff. simpl.
    intros [Hc|[<-|[]]]; [|contradiction].
    apply (Hf h'); [now right | assumption].
Qed.

Lemma items_shape (d : PyDict.t Z) :
  (forall k c, In (k, c) d -> c = count_of k) ->
  d = map (fun h => (h, count_of h)) (PyDict.keys d).
Proof.
  induction d as [|[k c] d IH]; simpl; intros H; [reflexivity|].
  rewrite (H k c) by now left. f_equal. apply IH. intros; apply H; now right.
Qed.

Lemma count_keys_In hs k : In k (count_keys files_dict hs) <-> In k hs.
Proof.
  pose proof (fold_counts_keys hs [] k) as H. simpl in H.
  unfold step, count_of in H. unfold count_keys, mk_counts. tauto.
Qed.

Lemma count_keys_NoDup hs : NoDup (count_keys files_dict hs).
Proof. apply (fold_counts_NoDup hs []). constructor. Qed.

Lemma mk_counts_shape hs :
  mk_counts files_dict hs
  = map (fun h => (h, len (bucket files_dict h))) (count_keys files_dict hs).
Proof.
  apply (items_shape (mk_counts files_dict hs)).
  apply (fold_counts_items hs []). intros k c [].
Qed.

Lemma count_keys_NoDup_hours hs : NoDup hs -> count_keys files_dict hs = hs.
Proof.
  intros Hnd. pose proof (fold_counts_fresh hs [] Hnd) as H. simpl in H.
  unfold step, count_of in H. unfold count_keys, mk_counts.
  rewrite H by auto.
  unfold PyDict.keys. rewrite map_map. simpl. apply map_id.
Qed.

Lemma count_keys_length hs :
  (List.length (count_keys files_dict hs) <= List.length hs)%nat.
Proof.
  apply NoDup_incl_length; [apply count_keys_NoDup|].
  intros k. apply count_keys_In.
Qed.

Lemma total_available_files_eq hs :
  total_available_files files_dict hs
  = len (flat_map (bucket files_dict) (count_keys files_dict hs)).
Proof.
  unfold total_available_files. rewrite mk_counts_shape at 1.
  unfold PyDict.values. rewrite map_map. simpl.
  now rewrite len_flat_map.
Qed.

End Counts.

(** ** The fairness pass *)

Section Fairness.
Variable files_dict : files_dict_t.
Variable average : Z.

Let count_of (h : Z) : Z := len (bucket files_dict h).

Lemma remove_each_incl ks hs : incl (remove_each ks hs) hs.
Proof.
  revert hs. induction ks as [|k ks IH]; intros hs; simpl; [apply incl_refl|].
  eapply incl_tran; [apply IH|]. unfold remove1.
  destruct (list_remove k hs) eqn:E; [|apply incl_refl].
  eapply list_remove_incl; eassumption.
Qed.

Lemma remove_each_keeps ks hs h :
  In h hs -> ~ In h ks -> In h (remove_each ks hs).
Proof.
  revert hs. induction ks as [|k ks IH]; intros hs Hin Hn; simpl; [assumption|].
  apply IH; [|simpl in Hn; tauto]. unfold remove1.
  destruct (list_remove k hs) eqn:E; [|assumption].
  eapply list_remove_other; try eassumption. simpl in Hn. intros ->. tauto.
Qed.

Lemma remove_each_NoDup ks hs :
  NoDup ks -> NoDup hs -> incl ks hs ->
  NoDup (remove_each ks hs) /\ forall h, In h ks -> ~ In h (remove_each ks hs).
Proof.
  revert hs. induction ks as [|k ks IH]; intros hs Hks Hnd Hi; simpl.
  - split; [assumption | intros h []].
  - inversion Hks as [|? ? Hk Hks']; subst.
    destruct (list_remove_In k hs) as [hs' E]; [apply Hi; now left|].
    unfold remove1. rewrite E.
    destruct (list_remove_NoDup k hs hs' E Hnd) as [Hnd' Hkn].
    destruct (IH hs' Hks' Hnd') as [Hn Hx].
    + intros h Hh. eapply list_remove_other; try eassumption.
      * intros ->. contradiction.
      * apply Hi. now right.
    + split; [assumption|]. intros h [<-|Hh]; [|now apply Hx].
      intros Hc. apply Hkn. eapply remove_each_incl. eassumption.
Qed.

Lemma consumed_incl ks : incl (consumed files_dict average ks) ks.
Proof. intros h Hh. unfold consumed in Hh. now apply filter_In in Hh. Qed.

Lemma consumed_NoDup ks : NoDup ks -> NoDup (consumed files_dict average ks).
Proof. apply NoDup_filter. Qed.

Lemma consumed_In ks h :
  In h (consumed files_dict average ks) <-> In h ks /\ count_of h <= average.
Proof. unfold consumed. rewrite filter_In, Z.leb_le. reflexivity. Qed.

Lemma consumed_cons k ks :
  consumed files_dict average (k :: ks)
  = if count_of k <=? average
    then k :: consumed files_dict average ks
    else consumed files_dict average ks.
Proof. reflexivity. Qed.

Lemma fairness_pass_exact ks st :
  NoDup ks -> incl ks (hours st) ->
  fairness_pass files_dict average (map (fun h => (h, count_of h)) ks) st
  = Ret {| hours := remove_each (consumed files_dict average ks) (hours st);
           total_files_required :=
             total_files_required st
             - len (flat_map (bucket files_dict) (consumed files_dict average ks));
           selected_files :=
             selected_files st
             ++ flat_map (bucket files_dict) (consumed files_dict average ks);
           selection_count_per_hour :=
             fold_left (fun d h => PyDict.set d h (count_of h))
               (consumed files_dict average ks) (selection_count_per_hour st);
           rng := rng st |}.
Proof.
  revert st. induction ks as [|k ks IH]; intros st Hnd Hi.
  - destruct st; simpl. rewrite app_nil_r. f_equal. f_equal. unfold len. simpl. lia.
  - inversion Hnd as [|? ? Hk Hnd']; subst. rewrite consumed_cons. simpl.
    fold count_of. destruct (count_of k <=? average) eqn:E.
    + destruct (list_remove_In k (hours st)) as [hs' R]; [apply Hi; now left|].
      unfold take_bucket. rewrite R. simpl bind. rewrite IH; [|assumption|].
      * simpl. unfold remove1. rewrite R. rewrite len_app.
        rewrite <- app_assoc. unfold count_of. f_equal. f_equal. lia.
      * simpl. intros h Hh. eapply list_remove_other; try eassumption.
        -- intros ->. contradiction.
        -- apply Hi. now right.
    + apply IH; [assumption|]. intros h Hh. apply Hi. now right.
Qed.

End Fairness.

Lemma fairness_phase_exact (files_dict : files_dict_t) (g : nat -> nat)
    (hs : list Z) (requested : Z) :
  hs <> [] ->
  fairness_phase files_dict g hs requested
  = Ret (fairness_with_fixed_average files_dict g hs requested).
Proof.
  intros Hne. unfold fairness_phase. destruct hs as [|h0 hs']; [congruence|].
  set (hs := h0 :: hs') in *. unfold PyDict.items.
  rewrite mk_counts_shape at 2.
  rewrite fairness_pass_exact.
  - unfold fairness_with_fixed_average, average_files, total_available_files.
    simpl. f_equal. f_equal.
    change (fold_left _ ?ks []) with (mk_counts files_dict ks).
    rewrite mk_counts_shape, count_keys_NoDup_hours; [reflexivity|].
    apply consumed_NoDup, count_keys_NoDup.
  - apply count_keys_NoDup.
  - simpl. intros k. apply count_keys_In.
Qed.

(** ** The greedy pass *)

Section Greedy.
Variable files_dict : files_dict_t.

Lemma bucket_get hour files :
  PyDict.get files_dict hour = Some files -> bucket files_dict hour = files.
Proof. intros H. unfold bucket, PyDict.get_default. now rewrite H. Qed.

Lemma bucket_nonempty_get hour :
  bucket files_dict hour <> [] -> PyDict.get files_dict hour <> None.
Proof.
  unfold bucket, PyDict.get_default.
  destruct (PyDict.get files_dict hour); congruence.
Qed.

Lemma available_In files selected f :
  In f (available_files files selected) <-> In f files /\ ~ In f selected.
Proof.
  unfold available_files. rewrite filter_In, negb_true_iff, mem_false.
  reflexivity.
Qed.

Lemma choice_In r xs : xs <> [] -> In (choice r xs) xs.
Proof.
  intros Hne. unfold choice. apply nth_In.
  apply Nat.mod_upper_bound. destruct xs; [congruence | simpl; lia].
Qed.

Lemma pick_is_step hour files x xs st :
  In hour (hours st) ->
  PyDict.get files_dict hour = Some files ->
  available_files files (selected_files st) = x :: xs ->
  0 < total_files_required st ->
  pick_step files_dict st (pick hour (x :: xs) st).
Proof.
  intros Hh Hg Ha Ht.
  assert (Hc : In (choice (rng st 0%nat) (x :: xs))
                  (available_files files (selected_files st))).
  { rewrite Ha. apply choice_In. discriminate. }
  apply available_In in Hc. destruct Hc as [Hf Hn].
  unfold pick. econstructor; eassumption.
Qed.

Lemma picks_trans st1 st2 st3 :
  picks files_dict st1 st2 -> picks files_dict st2 st3 ->
  picks files_dict st1 st3.
Proof.
  induction 1; intros H23; [assumption|].
  econstructor; [eassumption | auto].
Qed.

Lemma picks_hours st st' : picks files_dict st st' -> hours st' = hours st.
Proof.
  induction 1 as [|st st1 st2 Hs _ IH]; [reflexivity|].
  rewrite IH. now destruct Hs.
Qed.

Lemma picks_total_le st st' :
  picks files_dict st st' -> total_files_required st' <= total_files_required st.
Proof.
  induction 1 as [|st st1 st2 Hs _ IH]; [lia|].
  destruct Hs; simpl in *; lia.
Qed.

Lemma picks_invariant (P : dstate -> Prop) :
  (forall st st', P st -> pick_step files_dict st st' -> P st') ->
  forall st st', picks files_dict st st' -> P st -> P st'.
Proof.
  intros Hstep st st' H. induction H; intros HP; [assumption|].
  eauto.
Qed.

Lemma greedy_round_picks hs st st' :
  incl hs (hours st) ->
  greedy_round files_dict hs st = Ret st' -> picks files_dict st st'.
Proof.
  revert st. induction hs as [|hour hs IH]; intros st Hi H; simpl in H.
  - injection H as <-. constructor.
  - destruct (total_files_required st <=? 0) eqn:Et.
    + injection H as <-. constructor.
    + apply Z.leb_gt in Et.
      destruct (PyDict.get files_dict hour) as [files|] eqn:Eg; [|discriminate].
      destruct (available_files files (selected_files st)) as [|x xs] eqn:Ea.
      * apply IH; [|assumption]. intros h Hh. apply Hi. now right.
      * econstructor.
        -- eapply pick_is_step; try eassumption. apply Hi. now left.
        -- apply IH; [|assumption]. simpl. intros h Hh. apply Hi. now right.
Qed.

Lemma greedy_fill_picks fuel st st' :
  greedy_fill files_dict fuel st = Ret st' -> picks files_dict st st'.
Proof.
  revert st. induction fuel as [|fuel IH]; intros st H; simpl in H.
  - destruct (fill_needed st); [discriminate|]. injection H as <-. constructor.
  - destruct (fill_needed st); [|injection H as <-; constructor].
    destruct (greedy_round files_dict (hours st) st) as [st1| |] eqn:Er;
      simpl in H; try discriminate.
    eapply picks_trans; [|apply IH; eassumption].
    eapply greedy_round_picks; [apply incl_refl | eassumption].
Qed.

Lemma greedy_round_not_cut hs st : greedy_round files_dict hs st <> OutOfFuel.
Proof.
  revert st. induction hs as [|hour hs IH]; intros st; simpl; [discriminate|].
  destruct (total_files_required st <=? 0); [discriminate|].
  destruct (PyDict.get files_dict hour); [|discriminate].
  destruct (available_files l (selected_files st)); apply IH.
Qed.

Lemma greedy_round_returns hs st :
  (forall h, In h hs -> PyDict.get files_dict h <> None) ->
  exists st', greedy_round files_dict hs st = Ret st'.
Proof.
  revert st. induction hs as [|hour hs IH]; intros st Hk; simpl; [eauto|].
  destruct (total_files_required st <=? 0); [eauto|].
  destruct (PyDict.get files_dict hour) eqn:Eg.
  - destruct (available_files l (selected_files st)); apply IH;
      intros h Hh; apply Hk; now right.
  - exfalso. apply (Hk hour); [now left | assumption].
Qed.

(** A round that meets a bucket with an unselected file takes a file. *)
Lemma greedy_round_progress hs st st' :
  incl hs (hours st) ->
  greedy_round files_dict hs st = Ret st' ->
  0 < total_files_required st ->
  (exists h f, In h hs /\ In f (bucket files_dict h)
               /\ ~ In f (selected_files st)) ->
  total_files_required st' < total_files_required st.
Proof.
  revert st. induction hs as [|hour hs IH]; intros st Hi H Ht Hex.
  - destruct Hex as (h & f & [] & _).
  - simpl in H. destruct (total_files_required st <=? 0) eqn:Et;
      [apply Z.leb_le in Et; lia|].
    destruct (PyDict.get files_dict hour) as [files|] eqn:Eg; [|discriminate].
    destruct (available_files files (selected_files st)) as [|x xs] eqn:Ea.
    + apply IH; try assumption.
      * intros h Hh. apply Hi. now right.
      * destruct Hex as (h & f & [<-|Hh] & Hf & Hn); [|eauto].
        exfalso. rewrite (bucket_get _ _ Eg) in Hf.
        assert (Hc : In f (available_files files (selected_files st)))
          by (apply available_In; tauto).
        rewrite Ea in Hc. destruct Hc.
    + apply greedy_round_picks in H.
      * apply picks_total_le in H. simpl in H. lia.
      * simpl. intros h Hh. apply Hi. now right.
Qed.

End Greedy.

(** ** Invariants *)

Section Invariants.
Variable files_dict : files_dict_t.
Variable hs0 : list Z.

Lemma pick_accounted clamped st st' :
  accounted clamped st -> pick_step files_dict st st' -> accounted clamped st'.
Proof.
  intros [Hs Ht] Hp. destruct Hp. unfold accounted. simpl.
  rewrite sum_values_set, len_app. unfold len at 2 4. simpl. lia.
Qed.

Lemma pick_from_group st st' :
  from_group files_dict hs0 st -> pick_step files_dict st st' ->
  from_group files_dict hs0 st'.
Proof.
  intros [Hf Hi] Hp. destruct Hp as [st hour files f g' Hh Hg Hin _ _].
  split; simpl; [|assumption].
  intros x Hx. apply in_app_iff in Hx. destruct Hx as [Hx|[<-|[]]]; [auto|].
  exists hour. split; [now apply Hi|]. now rewrite (bucket_get _ _ _ Hg).
Qed.

Lemma pick_nonneg st st' :
  0 <= total_files_required st -> pick_step files_dict st st' ->
  0 <= total_files_required st'.
Proof. intros H Hp. destruct Hp. simpl. lia. Qed.

Lemma pick_NoDup st st' :
  NoDup (selected_files st) -> pick_step files_dict st st' ->
  NoDup (selected_files st').
Proof.
  intros H Hp. destruct Hp. simpl.
  apply NoDup_app; [assumption | repeat constructor; tauto |].
  intros x Hx [<-|[]]. contradiction.
Qed.

Lemma pick_reachable st st' :
  reachable files_dict hs0 st -> pick_step files_dict st st' ->
  reachable files_dict hs0 st'.
Proof.
  intros H Hp h Hh. destruct Hp. simpl.
  destruct (H h Hh) as [Hl|Hr]; [now left | right].
  intros x Hx. apply in_app_iff. left. now apply Hr.
Qed.

Lemma pick_tallied st st' :
  pairwise_disjoint files_dict hs0 ->
  from_group files_dict hs0 st ->
  tallied files_dict hs0 st -> pick_step files_dict st st' ->
  tallied files_dict hs0 st'.
Proof.
  intros Hd [_ Hi] H Hp h Hh.
  destruct Hp as [st hour files f g' Hhour Hg Hin _ _]. simpl.
  rewrite filter_app, len_app. simpl.
  rewrite <- (bucket_get _ _ _ Hg) in Hin.
  destruct (Z.eq_dec hour h) as [->|Hne].
  - rewrite get_default_set_same.
    assert (E : mem f (bucket files_dict h) = true) by now apply mem_In.
    rewrite E, (H h Hh). reflexivity.
  - rewrite get_default_set_other by assumption.
    assert (E : mem f (bucket files_dict h) = false).
    { apply mem_false. apply (Hd hour h f); auto. }
    rewrite E, (H h Hh). unfold len at 3. simpl. lia.
Qed.

(** *** After the fairness pass *)

Variable g : nat -> nat.
Variable requested : Z.
Hypothesis hours_nonempty : hs0 <> [].

Let average := average_files files_dict hs0 requested.
Let clamped := clamp (total_available_files files_dict hs0) requested.
Let taken := consumed files_dict average (count_keys files_dict hs0).
Let st1 := fairness_with_fixed_average files_dict g hs0 requested.

Lemma taken_in_group h : In h taken -> In h hs0.
Proof.
  intros H. apply consumed_incl in H. now apply count_keys_In in H.
Qed.

Lemma fairness_accounted : accounted clamped st1.
Proof.
  unfold accounted, st1, fairness_with_fixed_average. simpl.
  fold average. fold taken. fold clamped. split; [|lia].
  unfold PyDict.values. rewrite map_map. simpl. now rewrite len_flat_map.
Qed.

Lemma fairness_from_group : from_group files_dict hs0 st1.
Proof.
  split; simpl; fold average; fold taken.
  - intros f Hf. apply in_flat_map in Hf. destruct Hf as [h [Hh Hf]].
    exists h. split; [now apply taken_in_group | assumption].
  - apply remove_each_incl.
Qed.

Lemma fairness_reachable : reachable files_dict hs0 st1.
Proof.
  intros h Hh. simpl. fold average. fold taken.
  destruct (in_dec Z.eq_dec h taken) as [Ht|Hn].
  - right. intros f Hf. apply in_flat_map. eauto.
  - left. now apply remove_each_keeps.
Qed.

Lemma clamped_le_available : clamped <= total_available_files files_dict hs0.
Proof.
  unfold clamped, clamp.
  destruct (requested >? total_available_files files_dict hs0) eqn:E; [lia|].
  rewrite Z.gtb_ltb in E. apply Z.ltb_ge in E. assumption.
Qed.

Lemma total_available_nonneg : 0 <= total_available_files files_dict hs0.
Proof. rewrite total_available_files_eq. apply len_nonneg. Qed.

Lemma consumed_bound ks :
  0 <= average ->
  len (flat_map (bucket files_dict) (consumed files_dict average ks))
  <= average * len ks.
Proof.
  intros Ha. induction ks as [|k ks IH].
  - unfold len. simpl. lia.
  - rewrite consumed_cons. replace (len (k :: ks)) with (1 + len ks)
      by (unfold len; simpl List.length; lia).
    destruct (len (bucket files_dict k) <=? average) eqn:E.
    + apply Z.leb_le in E. simpl flat_map. rewrite len_app. lia.
    + lia.
Qed.

Lemma fairness_nonneg : 0 <= requested -> 0 <= total_files_required st1.
Proof.
  intros Hr. simpl. fold average. fold taken. fold clamped.
  pose proof (len_pos hs0 hours_nonempty) as Hn.
  pose proof total_available_nonneg as Ha.
  assert (Hc : 0 <= clamped).
  { unfold clamped, clamp.
    destruct (requested >? total_available_files files_dict hs0); lia. }
  assert (Hav : 0 <= average).
  { unfold average, average_files. fold clamped. now apply Z.div_pos. }
  assert (Hm : len hs0 * average <= clamped).
  { unfold average, average_files. fold clamped. apply Z.mul_div_le. lia. }
  pose proof (consumed_bound (count_keys files_dict hs0) Hav) as Hb.
  fold taken in Hb.
  pose proof (count_keys_length files_dict hs0) as Hl.
  assert (len (count_keys files_dict hs0) <= len hs0) by (unfold len; lia).
  nia.
Qed.

Lemma NoDup_flat_map_buckets ks :
  NoDup ks -> incl ks hs0 ->
  duplicate_free files_dict hs0 -> pairwise_disjoint files_dict hs0 ->
  NoDup (flat_map (bucket files_dict) ks).
Proof.
  intros Hnd Hi Hdf Hpd. induction ks as [|k ks IH]; simpl; [constructor|].
  inversion Hnd as [|? ? Hk Hnd']; subst.
  apply NoDup_app.
  - apply Hdf, Hi. now left.
  - apply IH; [assumption|]. intros h Hh. apply Hi. now right.
  - intros f Hf Hc. apply in_flat_map in Hc. destruct Hc as [h [Hh Hc]].
    apply (Hpd k h f); try assumption.
    + apply Hi. now left.
    + apply Hi. now right.
    + intros ->. contradiction.
Qed.

Lemma fairness_NoDup :
  duplicate_free files_dict hs0 -> pairwise_disjoint files_dict hs0 ->
  NoDup (selected_files st1).
Proof.
  intros Hdf Hpd. simpl. fold average. fold taken.
  apply NoDup_flat_map_buckets; try assumption.
  - apply consumed_NoDup, count_keys_NoDup.
  - intros h. apply taken_in_group.
Qed.

Lemma filter_own_bucket (xs : list string) :
  filter (fun f => mem f xs) xs = xs.
Proof.
  apply forallb_filter_id. apply forallb_forall. intros f Hf. now apply mem_In.
Qed.

Lemma filter_other_bucket h k :
  pairwise_disjoint files_dict hs0 -> In h hs0 -> In k hs0 -> k <> h ->
  filter (fun f => mem f (bucket files_dict h)) (bucket files_dict k) = [].
Proof.
  intros Hpd Hh Hk Hne.
  destruct (filter _ (bucket files_dict k)) as [|x xs] eqn:E; [reflexivity|].
  assert (Hx : In x (x :: xs)) by now left.
  rewrite <- E in Hx. apply filter_In in Hx. destruct Hx as [Hx Hm].
  apply mem_In in Hm. exfalso. apply (Hpd k h x); assumption.
Qed.

Lemma tally_flat_map ks h :
  pairwise_disjoint files_dict hs0 -> NoDup ks -> incl ks hs0 -> In h hs0 ->
  PyDict.get_default (map (fun k => (k, len (bucket files_dict k))) ks) h 0
  = len (filter (fun f => mem f (bucket files_dict h))
                (flat_map (bucket files_dict) ks)).
Proof.
  intros Hpd Hnd Hi Hh. induction ks as [|k ks IH].
  - reflexivity.
  - inversion Hnd as [|? ? Hk Hnd']; subst.
    simpl flat_map. rewrite filter_app, len_app.
    assert (IH' := IH Hnd' (fun x Hx => Hi x (or_intror Hx))).
    unfold PyDict.get_default in *. simpl.
    destruct (k =? h) eqn:E.
    + apply Z.eqb_eq in E. subst k. rewrite filter_own_bucket.
      assert (Hz : filter (fun f => mem f (bucket files_dict h))
                          (flat_map (bucket files_dict) ks) = []).
      { destruct (filter _ (flat_map _ ks)) as [|x xs] eqn:Ef; [reflexivity|].
        assert (Hx : In x (x :: xs)) by now left.
        rewrite <- Ef in Hx. apply filter_In in Hx. destruct Hx as [Hx Hm].
        apply mem_In in Hm. apply in_flat_map in Hx.
        destruct Hx as [k' [Hk' Hx]]. exfalso.
        apply (Hpd k' h x); try assumption.
        - apply Hi. now right.
        - intros ->. contradiction. }
      rewrite Hz. change (len (@nil string)) with 0. lia.
    + apply Z.eqb_neq in E.
      rewrite (filter_other_bucket h k Hpd Hh (Hi k (or_introl eq_refl)) E).
      rewrite IH'. change (len (@nil string)) with 0. lia.
Qed.

Lemma fairness_tallied :
  pairwise_disjoint files_dict hs0 -> tallied files_dict hs0 st1.
Proof.
  intros Hpd h Hh. simpl. fold average. fold taken.
  apply tally_flat_map; try assumption.
  - apply consumed_NoDup, count_keys_NoDup.
  - intros k. apply taken_in_group.
Qed.

End Invariants.

(** ** [distribute_files] as fairness pass followed by picks *)

Section Distribute.
Variable files_dict : files_dict_t.
Variable g : nat -> nat.
Variable hs : list Z.
Variable requested : Z.

Let clamped := clamp (total_available_files files_dict hs) requested.
Let st1 := fairness_with_fixed_average files_dict g hs requested.
Let universe := flat_map (bucket files_dict) (count_keys files_dict hs).

Lemma distribute_files_unfold fuel :
  hs <> [] ->
  distribute_files files_dict g fuel hs requested
  = greedy_fill files_dict fuel st1.
Proof.
  intros Hne. unfold distribute_files. now rewrite fairness_phase_exact.
Qed.

Lemma distribute_files_picks fuel st' :
  distribute_files files_dict g fuel hs requested = Ret st' ->
  hs <> [] /\ picks files_dict st1 st'.
Proof.
  intros H. assert (Hne : hs <> []).
  { intros ->. discriminate H. }
  split; [assumption|]. rewrite distribute_files_unfold in H by assumption.
  eapply greedy_fill_picks. eassumption.
Qed.

Lemma reached_accounted st :
  hs <> [] -> picks files_dict st1 st -> accounted clamped st.
Proof.
  intros Hne Hp.
  apply (picks_invariant files_dict (accounted clamped)
           (pick_accounted files_dict clamped) _ _ Hp).
  apply fairness_accounted.
Qed.

Lemma reached_from_group st :
  hs <> [] -> picks files_dict st1 st -> from_group files_dict hs st.
Proof.
  intros Hne Hp.
  apply (picks_invariant files_dict (from_group files_dict hs)
           (pick_from_group files_dict hs) _ _ Hp).
  apply fairness_from_group.
Qed.

Lemma reached_nonneg st :
  hs <> [] -> 0 <= requested -> picks files_dict st1 st ->
  0 <= total_files_required st.
Proof.
  intros Hne Hr Hp.
  apply (picks_invariant files_dict (fun s => 0 <= total_files_required s)
           (pick_nonneg files_dict) _ _ Hp).
  now apply fairness_nonneg.
Qed.

Lemma reached_reachable st :
  hs <> [] -> picks files_dict st1 st -> reachable files_dict hs st.
Proof.
  intros Hne Hp.
  apply (picks_invariant files_dict (reachable files_dict hs)
           (pick_reachable files_dict hs) _ _ Hp).
  apply fairness_reachable.
Qed.

Lemma reached_NoDup st :
  hs <> [] ->
  duplicate_free files_dict hs -> pairwise_disjoint files_dict hs ->
  picks files_dict st1 st -> NoDup (selected_files st).
Proof.
  intros Hne Hdf Hpd Hp.
  apply (picks_invariant files_dict (fun s => NoDup (selected_files s))
           (pick_NoDup files_dict) _ _ Hp).
  now apply fairness_NoDup.
Qed.

Lemma reached_tallied st :
  hs <> [] -> pairwise_disjoint files_dict hs ->
  picks files_dict st1 st -> tallied files_dict hs st.
Proof.
  intros Hne Hpd Hp.
  assert (H : from_group files_dict hs st /\ tallied files_dict hs st).
  { apply (picks_invariant files_dict
             (fun s => from_group files_dict hs s /\ tallied files_dict hs s))
      with (st := st1); [| assumption |].
    - intros s s' [Hf Ht] Hs. split.
      + eapply pick_from_group; eassumption.
      + eapply pick_tallied; eassumption.
    - split; [apply fairness_from_group | now apply fairness_tallied]. }
  apply H.
Qed.

Lemma selected_in_universe st :
  hs <> [] -> picks files_dict st1 st -> incl (selected_files st) universe.
Proof.
  intros Hne Hp f Hf.
  destruct (reached_from_group st Hne Hp) as [Hfg _].
  destruct (Hfg f Hf) as [h [Hh Hb]].
  apply in_flat_map. exists h. split; [now apply count_keys_In | assumption].
Qed.

Lemma universe_NoDup :
  duplicate_free files_dict hs -> pairwise_disjoint files_dict hs ->
  NoDup universe.
Proof.
  intros Hdf Hpd. apply (NoDup_flat_map_buckets files_dict hs);
    try assumption; [apply count_keys_NoDup|].
  intros k. apply count_keys_In.
Qed.

Lemma exists_unselected (xs selected : list string) :
  NoDup xs -> (List.length selected < List.length xs)%nat ->
  exists f, In f xs /\ ~ In f selected.
Proof.
  intros Hnd Hlt.
  destruct (existsb (fun f => negb (mem f selected)) xs) eqn:E.
  - apply existsb_exists in E. destruct E as [f [Hf Hm]].
    exists f. split; [assumption|]. apply mem_false.
    now apply negb_true_iff in Hm.
  - exfalso. assert (Hi : incl xs selected).
    { intros f Hf. apply mem_In.
      destruct (mem f selected) eqn:Em; [reflexivity|].
      assert (Hc : existsb (fun f => negb (mem f selected)) xs = true).
      { apply existsb_exists. exists f. now rewrite Em. }
      congruence. }
    pose proof (NoDup_incl_length Hnd Hi). lia.
Qed.

(** While the request is open, some bucket still in [hours] has a file
    that is not selected. *)
Lemma no_exhaustion st :
  hs <> [] ->
  duplicate_free files_dict hs -> pairwise_disjoint files_dict hs ->
  picks files_dict st1 st ->
  0 < total_files_required st ->
  exists h f, In h (hours st) /\ In f (bucket files_dict h)
              /\ ~ In f (selected_files st).
Proof.
  intros Hne Hdf Hpd Hp Ht.
  destruct (reached_accounted st Hne Hp) as [_ Hacc].
  pose proof (clamped_le_available files_dict hs requested) as Hc.
  pose proof (total_available_files_eq files_dict hs) as Eu.
  destruct (exists_unselected universe (selected_files st))
    as [f [Hu Hn]].
  - now apply universe_NoDup.
  - unfold universe, clamped, len in *. lia.
  - apply in_flat_map in Hu. destruct Hu as [h [Hh Hf]].
    apply count_keys_In in Hh.
    destruct (reached_reachable st Hne Hp h Hh) as [Hin|Hall].
    + exists h, f. tauto.
    + exfalso. apply Hn, Hall, Hf.
Qed.

Lemma fill_needed_true st :
  fill_needed st = true <-> 0 < total_files_required st /\ hours st <> [].
Proof.
  unfold fill_needed. rewrite andb_true_iff, Z.gtb_ltb, Z.ltb_lt.
  destruct (hours st); split; intros [H1 H2]; split;
    try assumption; try discriminate; try reflexivity; congruence.
Qed.

Lemma greedy_fill_done fuel st st' :
  greedy_fill files_dict fuel st = Ret st' -> fill_needed st' = false.
Proof.
  revert st. induction fuel as [|fuel IH]; intros st H; simpl in H.
  - destruct (fill_needed st) eqn:F; [discriminate|]. now injection H as <-.
  - destruct (fill_needed st) eqn:F; [|now injection H as <-].
    destruct (greedy_round files_dict (hours st) st) as [s| |];
      simpl in H; try discriminate. eauto.
Qed.

(** With fuel for one round per requested file the loop is not cut off,
    and it returns if no round can raise [KeyError]. *)
Lemma greedy_fill_enough_fuel fuel st :
  hs <> [] ->
  duplicate_free files_dict hs -> pairwise_disjoint files_dict hs ->
  picks files_dict st1 st ->
  (Z.to_nat (total_files_required st) <= fuel)%nat ->
  greedy_fill files_dict fuel st <> OutOfFuel
  /\ ((forall h, In h (hours st) -> PyDict.get files_dict h <> None) ->
      exists st', greedy_fill files_dict fuel st = Ret st').
Proof.
  intros Hne Hdf Hpd. revert st.
  induction fuel as [|fuel IH]; intros st Hp Hfuel.
  - simpl. destruct (fill_needed st) eqn:F.
    + apply fill_needed_true in F. lia.
    + split; [discriminate | eauto].
  - simpl. destruct (fill_needed st) eqn:F; [|split; [discriminate | eauto]].
    apply fill_needed_true in F. destruct F as [Ht _].
    destruct (greedy_round files_dict (hours st) st) as [st2|e|] eqn:R.
    + assert (Hp2 : picks files_dict st st2)
        by (eapply greedy_round_picks; [apply incl_refl | eassumption]).
      assert (Hlt : total_files_required st2 < total_files_required st).
      { eapply greedy_round_progress; try eassumption; [apply incl_refl|].
        destruct (no_exhaustion st Hne Hdf Hpd Hp Ht) as (h & f & H).
        exists h, f. assumption. }
      simpl. destruct (IH st2) as [Hcut Hret].
      * eapply picks_trans; eassumption.
      * lia.
      * split; [assumption|]. intros Hk. apply Hret.
        rewrite (picks_hours _ _ _ Hp2). assumption.
    + simpl. split; [discriminate|]. intros Hk.
      destruct (greedy_round_returns files_dict (hours st) st Hk) as [s Hs].
      congruence.
    + exfalso. eapply greedy_round_not_cut. eassumption.
Qed.

(** With distinct hours, the hours left after the fairness pass of a
    non-negative request have files. *)
Lemma fairness_hours_have_files h :
  hs <> [] -> NoDup hs -> 0 <= clamped ->
  In h (hours st1) -> PyDict.get files_dict h <> None.
Proof.
  intros Hne Hnd Hc Hh. simpl in Hh.
  set (average := average_files files_dict hs requested) in *.
  rewrite (count_keys_NoDup_hours files_dict hs Hnd) in Hh.
  destruct (remove_each_NoDup (consumed files_dict average hs) hs)
    as [_ Hout].
  - now apply consumed_NoDup.
  - assumption.
  - apply consumed_incl.
  - assert (Hin : In h hs) by (eapply remove_each_incl; eassumption).
    assert (Hnt : ~ In h (consumed files_dict average hs)).
    { intros Hc'. apply (Hout h Hc'). assumption. }
    rewrite consumed_In in Hnt.
    assert (Hav : 0 <= average).
    { unfold average, average_files. fold clamped.
      apply Z.div_pos; [assumption | now apply len_pos]. }
    apply bucket_nonempty_get. intros Hb.
    apply Hnt. split; [assumption|]. rewrite Hb. unfold len. simpl. lia.
Qed.

Lemma picks_keys st st' k :
  picks files_dict st st' ->
  In k (PyDict.keys (selection_count_per_hour st)) ->
  In k (PyDict.keys (selection_count_per_hour st')).
Proof.
  induction 1 as [|st sa sb Hs _ IH]; intros Hk; [assumption|].
  apply IH. destruct Hs. simpl. apply keys_set. now right.
Qed.

End Distribute.

(** ** What [distribute_files] returns *)

Lemma fairness_total_le_clamped files_dict g hs requested :
  total_files_required (fairness_with_fixed_average files_dict g hs requested)
  <= clamp (total_available_files files_dict hs) requested.
Proof.
  simpl.
  pose proof (len_nonneg
    (flat_map (bucket files_dict)
       (consumed files_dict (average_files files_dict hs requested)
          (count_keys files_dict hs)))).
  lia.
Qed.

Lemma distribute_files_enough_fuel files_dict g hs requested fuel :
  hs <> [] ->
  duplicate_free files_dict hs -> pairwise_disjoint files_dict hs ->
  (Z.to_nat (clamp (total_available_files files_dict hs) requested) <= fuel)%nat ->
  distribute_files files_dict g fuel hs requested <> OutOfFuel
  /\ (NoDup hs -> exists st, distribute_files files_dict g fuel hs requested = Ret st).
Proof.
  intros Hne Hdf Hpd Hfuel. rewrite distribute_files_unfold by assumption.
  set (st1 := fairness_with_fixed_average files_dict g hs requested).
  pose proof (fairness_total_le_clamped files_dict g hs requested) as Hle.
  fold st1 in Hle.
  destruct (greedy_fill_enough_fuel files_dict g hs requested fuel st1)
    as [Hcut Hret]; try assumption; [constructor | lia |].
  split; [assumption|]. intros Hnd.
  destruct (Z_lt_le_dec (clamp (total_available_files files_dict hs) requested) 0)
    as [Hneg|Hpos].
  - destruct fuel; simpl; unfold fill_needed;
      (replace (total_files_required st1 >? 0) with false
         by (symmetry; rewrite Z.gtb_ltb; apply Z.ltb_ge; lia));
      simpl; eauto.
  - apply Hret. intros h Hh.
    eapply fairness_hours_have_files; eassumption.
Qed.

Lemma distribute_files_full files_dict g hs requested fuel st :
  NoDup hs ->
  duplicate_free files_dict hs -> pairwise_disjoint files_dict hs ->
  total_available_files files_dict hs <= requested ->
  distribute_files files_dict g fuel hs requested = Ret st ->
  Permutation (selected_files st) (flat_map (bucket files_dict) hs)
  /\ forall h, In h hs ->
       PyDict.get (selection_count_per_hour st) h
       = Some (len (bucket files_dict h)).
Proof.
  intros Hnd Hdf Hpd Hreq Hrun.
  pose proof Hrun as Hrun'.
  apply distribute_files_picks in Hrun'. destruct Hrun' as [Hne Hp].
  set (st1 := fairness_with_fixed_average files_dict g hs requested) in *.
  assert (Hclamp : clamp (total_available_files files_dict hs) requested
                   = total_available_files files_dict hs).
  { unfold clamp.
    destruct (requested >? total_available_files files_dict hs) eqn:E;
      [reflexivity|]. rewrite Z.gtb_ltb in E. apply Z.ltb_ge in E. lia. }
  pose proof (total_available_nonneg files_dict hs) as Hav.
  destruct (reached_accounted files_dict g hs requested st Hne Hp) as [_ Hacc].
  rewrite Hclamp in Hacc.
  assert (Hnn : 0 <= total_files_required st).
  { apply (reached_nonneg files_dict g hs requested st Hne); [lia | assumption]. }
  assert (Hzero : total_files_required st = 0).
  { destruct (Z.eq_dec (total_files_required st) 0) as [E|E]; [assumption|].
    exfalso. assert (Hpos : 0 < total_files_required st) by lia.
    destruct (no_exhaustion files_dict g hs requested st Hne Hdf Hpd Hp Hpos)
      as (h & f & Hh & _).
    rewrite distribute_files_unfold in Hrun by assumption.
    apply greedy_fill_done in Hrun.
    assert (Hc : fill_needed st = true).
    { apply fill_needed_true. split; [assumption|]. intros E'.
      rewrite E' in Hh. destruct Hh. }
    congruence. }
  pose proof (total_available_files_eq files_dict hs) as Eu.
  rewrite (count_keys_NoDup_hours files_dict hs Hnd) in Eu.
  pose proof (reached_NoDup files_dict g hs requested st Hne Hdf Hpd Hp) as Hsel.
  pose proof (selected_in_universe files_dict g hs requested st Hne Hp) as Hincl.
  rewrite (count_keys_NoDup_hours files_dict hs Hnd) in Hincl.
  assert (Hperm : Permutation (selected_files st)
                              (flat_map (bucket files_dict) hs)).
  { apply NoDup_Permutation_bis; try assumption. unfold len in *. lia. }
  split; [assumption|]. intros h Hh.
  pose proof (reached_tallied files_dict g hs requested st Hne Hpd Hp h Hh) as Ht.
  assert (Hlen : len (filter (fun f => mem f (bucket files_dict h))
                             (selected_files st))
                 = len (bucket files_dict h)).
  { unfold len. f_equal. apply Permutation_length.
    apply NoDup_Permutation.
    - now apply NoDup_filter.
    - now apply Hdf.
    - intros f. rewrite filter_In, mem_In. split; [tauto|].
      intros Hf. split; [|assumption].
      apply (Permutation_in f (Permutation_sym Hperm)).
      apply in_flat_map. eauto. }
  rewrite Hlen in Ht. unfold PyDict.get_default in Ht.
  destruct (PyDict.get (selection_count_per_hour st) h) as [v|] eqn:Eg;
    [now subst|].
  exfalso. apply get_None in Eg. apply Eg.
  apply (picks_keys files_dict st1 st h Hp). simpl.
  unfold PyDict.keys. rewrite map_map. simpl. rewrite map_id.
  rewrite (count_keys_NoDup_hours files_dict hs Hnd).
  apply consumed_In. split; [assumption|].
  rewrite <- Ht. unfold average_files. rewrite Hclamp.
  apply Z.div_pos; [assumption | now apply len_pos].
Qed.

Lemma distribute_files_fairness_only files_dict g hs requested fuel :
  hs <> [] ->
  (forall h, In h hs ->
     len (bucket files_dict h) <= average_files files_dict hs requested) ->
  distribute_files files_dict g fuel hs requested
  = Ret {| hours := remove_each (count_keys files_dict hs) hs;
           total_files_required := 0;
           selected_files :=
             flat_map (bucket files_dict) (count_keys files_dict hs);
           selection_count_per_hour := mk_counts files_dict hs;
           rng := g |}.
Proof.
  intros Hne Hall. rewrite distribute_files_unfold by assumption.
  set (average := average_files files_dict hs requested) in *.
  assert (Hcons : consumed files_dict average (count_keys files_dict hs)
                  = count_keys files_dict hs).
  { unfold consumed. apply forallb_filter_id. apply forallb_forall.
    intros h Hh. apply Z.leb_le. apply Hall.
    apply (proj1 (count_keys_In files_dict hs h) Hh). }
  assert (Hst : fairness_with_fixed_average files_dict g hs requested
                = {| hours := remove_each (count_keys files_dict hs) hs;
                     total_files_required :=
                       clamp (total_available_files files_dict hs) requested
                       - total_available_files files_dict hs;
                     selected_files :=
                       flat_map (bucket files_dict) (count_keys files_dict hs);
                     selection_count_per_hour := mk_counts files_dict hs;
                     rng := g |}).
  { unfold fairness_with_fixed_average. fold average. rewrite Hcons.
    rewrite <- mk_counts_shape, <- total_available_files_eq. reflexivity. }
  rewrite Hst.
  assert (Hzero : clamp (total_available_files files_dict hs) requested
                  - total_available_files files_dict hs = 0).
  { pose proof (clamped_le_available files_dict hs requested) as Hle.
    pose proof (len_pos hs Hne) as Hn.
    assert (Hav : 0 <= average).
    { destruct hs as [|h0 hs']; [congruence|].
      pose proof (Hall h0 (or_introl eq_refl)).
      pose proof (len_nonneg (bucket files_dict h0)). lia. }
    pose proof (consumed_bound files_dict hs requested
                  (count_keys files_dict hs) Hav) as Hb.
    fold average in Hb. rewrite Hcons in Hb.
    rewrite <- total_available_files_eq in Hb.
    pose proof (count_keys_length files_dict hs) as Hl.
    assert (len (count_keys files_dict hs) <= len hs) by (unfold len; lia).
    assert (Hm : len hs * average
                 <= clamp (total_available_files files_dict hs) requested).
    { unfold average, average_files. apply Z.mul_div_le. lia. }
    nia. }
  rewrite Hzero. destruct fuel; reflexivity.
Qed.

(** ** Soundness of the decision procedures *)

Lemma nodupb_sound (xs : list string) : nodupb xs = true -> NoDup xs.
Proof.
  induction xs as [|x xs IH]; simpl; intros H; [constructor|].
  apply andb_true_iff in H. destruct H as [Hx Hr].
  constructor; [|auto]. apply mem_false. now apply negb_true_iff in Hx.
Qed.

Lemma duplicate_freeb_sound files_dict hs :
  duplicate_freeb files_dict hs = true -> duplicate_free files_dict hs.
Proof.
  unfold duplicate_freeb. rewrite forallb_forall. intros H h Hh.
  apply nodupb_sound. now apply H.
Qed.

Lemma pairwise_disjointb_sound files_dict hs :
  pairwise_disjointb files_dict hs = true -> pairwise_disjoint files_dict hs.
Proof.
  unfold pairwise_disjointb. rewrite forallb_forall.
  intros H h1 h2 f H1 H2 Hne Hf Hc.
  pose proof (H h1 H1) as Hrow. rewrite forallb_forall in Hrow.
  pose proof (Hrow h2 H2) as Hcell. apply orb_true_iff in Hcell.
  destruct Hcell as [E|E]; [apply Z.eqb_eq in E; contradiction|].
  rewrite forallb_forall in E. pose proof (E f Hf) as Hm.
  apply negb_true_iff, mem_false in Hm. contradiction.
Qed.

(** ** Edges of the domain *)

(** Line 97 divides by [len(hours)]: an empty group raises. *)
Example empty_hours_raise (files_dict : files_dict_t) (g : nat -> nat)
    (fuel : nat) (requested : Z) :
  distribute_files files_dict g fuel [] requested = Raise ZeroDivisionError.
Proof. reflexivity. Qed.

(** An hour listed twice is removed once by the fairness pass; line 118
    then looks its absent key up. *)
Example repeated_hour_raises (g : nat -> nat) (fuel : nat) :
  distribute_files morning_dict g (S fuel) [5; 5; 6] 3 = Raise (KeyError 5).
Proof. reflexivity. Qed.

(** A negative request is not clamped and selects nothing. *)
Example negative_request_selects_nothing (g : nat -> nat) (fuel : nat) :
  exists st,
    distribute_files sample_dict g fuel [6; 7] (-1) = Ret st
    /\ selected_files st = []
    /\ selection_count_per_hour st = []
    /\ hours st = [6; 7].
Proof. eexists. split; [destruct fuel; reflexivity|]. repeat split. Qed.

(** The average is taken from the clamped request: both buckets are within
    [6 // 2], the quotient of the request as passed, yet the clamp to the 3
    available files lowers the average to 1, the fairness pass leaves the
    bucket of 6 o'clock alone, and 3 files remain for the greedy pass. *)
Example unclamped_quotient_is_not_the_threshold (g : nat -> nat) :
  (forall h, In h [6; 7] -> len (bucket morning_dict h) <= 6 / len [6; 7])
  /\ average_files morning_dict [6; 7] 6 = 1
  /\ fairness_phase morning_dict g [6; 7] 6
     = Ret {| hours := [6]; total_files_required := 3; selected_files := [];
              selection_count_per_hour := [(7, 0)]; rng := g |}.
Proof.
  split; [|split; reflexivity].
  intros h [<-|[<-|[]]]; vm_compute; discriminate.
Qed.

(** * The claims about [distribute_files] *)

(** C1. Whenever [distribute_files(hours, target_count)] returns, for a
    non-negative [target_count]: the values of [selection_count_per_hour]
    add up to the length of [selected_files]; that length is at most the
    clamped [target_count] and at most the number of files available in the
    buckets of the group; and every selected file is listed by [files_dict]
    under an hour of the group. *)
Theorem distribute_files_result_sound
    (files_dict : files_dict_t) (g : nat -> nat) (fuel : nat)
    (hs : list Z) (requested : Z) (st : dstate) :
  0 <= requested ->
  distribute_files files_dict g fuel hs requested = Ret st ->
  sum (PyDict.values (selection_count_per_hour st)) = len (selected_files st)
  /\ len (selected_files st)
     <= clamp (total_available_files files_dict hs) requested
  /\ len (selected_files st) <= total_available_files files_dict hs
  /\ forall f, In f (selected_files st) ->
       exists h files,
         In h hs /\ PyDict.get files_dict h = Some files /\ In f files.
Proof.
  intros Hreq Hrun. apply distribute_files_picks in Hrun.
  destruct Hrun as [Hne Hp].
  destruct (reached_accounted _ _ _ _ _ Hne Hp) as [Hsum Hacc].
  pose proof (reached_nonneg _ _ _ _ _ Hne Hreq Hp) as Hnn.
  pose proof (clamped_le_available files_dict hs requested) as Hle.
  destruct (reached_from_group _ _ _ _ _ Hne Hp) as [Hfrom _].
  repeat split; try lia.
  intros f Hf. destruct (Hfrom f Hf) as [h [Hh Hb]].
  unfold bucket, PyDict.get_default in Hb.
  destruct (PyDict.get files_dict h) as [files|] eqn:Eg; [|destruct Hb].
  exists h, files. auto.
Qed.

Lemma distribute_files_result_sound_witness :
  exists st,
    distribute_files sample_dict first_choice 5 [6; 7] 3 = Ret st
    /\ sum (PyDict.values (selection_count_per_hour st)) = len (selected_files st)
    /\ len (selected_files st) = 3.
Proof.
  eexists. split; [vm_compute; reflexivity|].
  split; [|vm_compute; reflexivity].
  apply (distribute_files_result_sound sample_dict first_choice 5 [6; 7] 3);
    [lia | vm_compute; reflexivity].
Defined.

(** C2. [distribute_files] does not leave its [hours] argument alone: a
    bucket taken whole by the fairness pass is deleted from the caller's
    list by [hours.remove(hour)]. On the one-hour group [[6]] with one file
    the list is empty when the call returns. ([files_dict] is only read.) *)
Theorem distribute_files_mutates_hours :
  forall (g : nat -> nat) (fuel : nat),
  exists st,
    distribute_files [(6, ["s-2018-08-27-06-01-00.jpg"%string])] g fuel [6] 1
    = Ret st
    /\ selected_files st = ["s-2018-08-27-06-01-00.jpg"%string]
    /\ hours st = []
    /\ hours st <> [6].
Proof.
  intros g fuel. eexists. split.
  - destruct fuel; reflexivity.
  - simpl. repeat split. discriminate.
Qed.

(** With one bucket that lists a file three times, the first round takes
    the file, no later round finds an unselected one, and the request stays
    at 2: the [while] loop is cut off at every fuel. *)
Lemma repeated_file_diverges (g : nat -> nat) (fuel : nat) :
  distribute_files repeated_dict g fuel [6; 7] 3 = OutOfFuel.
Proof.
  unfold distribute_files.
  rewrite fairness_phase_exact by discriminate.
  set (f := "s-2018-08-27-06-01-00.jpg"%string).
  set (st1 := fairness_with_fixed_average repeated_dict g [6; 7] 3).
  assert (Hst1 : st1 = {| hours := [6]; total_files_required := 3;
                          selected_files := [];
                          selection_count_per_hour := [(7, 0)];
                          rng := g |}) by reflexivity.
  simpl bind. rewrite Hst1. clear Hst1 st1.
  destruct fuel as [|fuel]; [reflexivity|].
  simpl greedy_fill. unfold fill_needed. simpl.
  assert (Hc : choice (g 0%nat) [f; f; f] = f).
  { unfold choice. simpl List.length.
    pose proof (Nat.mod_upper_bound (g 0%nat) 3) as Hb.
    destruct (g 0%nat mod 3)%nat as [|[|[|n]]]; try reflexivity. lia. }
  unfold pick. simpl. fold f. rewrite Hc.
  generalize (fun k => g (S k)) as g'. intros g'.
  induction fuel as [|fuel IH]; [reflexivity|].
  simpl greedy_fill. unfold fill_needed. simpl.
  exact IH.
Qed.

(** C4 (as stated, refuted). The greedy pass does not end on every input,
    not even on every input with pairwise-disjoint buckets: it has no exit
    for exhausted buckets. *)
Lemma greedy_fill_may_not_terminate :
  ~ (forall (files_dict : files_dict_t) (g : nat -> nat) (hs : list Z)
            (requested : Z),
       pairwise_disjoint files_dict hs ->
       exists fuel,
         distribute_files files_dict g fuel hs requested <> OutOfFuel).
Proof.
  intros H.
  destruct (H repeated_dict first_choice [6; 7] 3) as [fuel Hfuel].
  - apply pairwise_disjointb_sound. reflexivity.
  - apply Hfuel. apply repeated_file_diverges.
Qed.

(** C4 (amended). When no bucket of the group lists a file twice and no
    file is in two of its buckets, the [while] loop of the greedy pass is
    not cut off once it is given one round per file of the clamped request;
    for a non-empty group of distinct hours the call returns; and in every
    state the greedy pass can reach with the request still open, some hour
    left in [hours] has a file that is not selected yet. *)
Theorem greedy_fill_terminates
    (files_dict : files_dict_t) (g : nat -> nat) (hs : list Z)
    (requested : Z) (fuel : nat) :
  duplicate_free files_dict hs ->
  pairwise_disjoint files_dict hs ->
  (Z.to_nat (clamp (total_available_files files_dict hs) requested) <= fuel)%nat ->
  distribute_files files_dict g fuel hs requested <> OutOfFuel
  /\ (hs <> [] -> NoDup hs ->
      exists st, distribute_files files_dict g fuel hs requested = Ret st)
  /\ (hs <> [] ->
      forall st,
        picks files_dict
          (fairness_with_fixed_average files_dict g hs requested) st ->
        0 < total_files_required st ->
        exists h f, In h (hours st) /\ In f (bucket files_dict h)
                    /\ ~ In f (selected_files st)).
Proof.
  intros Hdf Hpd Hfuel. split; [|split].
  - destruct hs as [|h0 hs'] eqn:E; [discriminate|]. rewrite <- E in *.
    apply distribute_files_enough_fuel; try assumption. congruence.
  - intros Hne Hnd.
    now apply (distribute_files_enough_fuel files_dict g hs requested fuel).
  - intros Hne st Hp Ht. now apply (no_exhaustion files_dict g hs requested).
Qed.

Lemma greedy_fill_terminates_witness :
  duplicate_free sample_dict [6; 7]
  /\ pairwise_disjoint sample_dict [6; 7]
  /\ distribute_files sample_dict first_choice 3 [6; 7] 3 <> OutOfFuel.
Proof.
  assert (Hdf : duplicate_free sample_dict [6; 7])
    by (apply duplicate_freeb_sound; reflexivity).
  assert (Hpd : pairwise_disjoint sample_dict [6; 7])
    by (apply pairwise_disjointb_sound; reflexivity).
  split; [assumption|]. split; [assumption|].
  apply (greedy_fill_terminates sample_dict first_choice [6; 7] 3 3 Hdf Hpd).
  vm_compute. lia.
Defined.

(** C5. For a group given as a non-empty list of distinct hours whose
    buckets are duplicate-free and pairwise disjoint: if [target_count] is
    at least the number of available files, [distribute_files] returns (one
    round of the greedy pass per available file is enough), the selected
    files are the files of all buckets of the group, each once, and every
    hour of the group has its bucket's size as count. *)
Theorem distribute_files_takes_everything
    (files_dict : files_dict_t) (g : nat -> nat) (hs : list Z)
    (requested : Z) (fuel : nat) :
  hs <> [] -> NoDup hs ->
  duplicate_free files_dict hs ->
  pairwise_disjoint files_dict hs ->
  total_available_files files_dict hs <= requested ->
  (Z.to_nat (total_available_files files_dict hs) <= fuel)%nat ->
  exists st,
    distribute_files files_dict g fuel hs requested = Ret st
    /\ Permutation (selected_files st) (flat_map (bucket files_dict) hs)
    /\ forall h, In h hs ->
         PyDict.get (selection_count_per_hour st) h
         = Some (len (bucket files_dict h)).
Proof.
  intros Hne Hnd Hdf Hpd Hreq Hfuel.
  assert (Hclamp : clamp (total_available_files files_dict hs) requested
                   = total_available_files files_dict hs).
  { unfold clamp.
    destruct (requested >? total_available_files files_dict hs) eqn:E;
      [reflexivity|]. rewrite Z.gtb_ltb in E. apply Z.ltb_ge in E. lia. }
  destruct (distribute_files_enough_fuel files_dict g hs requested fuel)
    as [_ Hret]; try assumption; [rewrite Hclamp; assumption|].
  destruct (Hret Hnd) as [st Hst]. exists st. split; [assumption|].
  eapply distribute_files_full; eassumption.
Qed.

Lemma distribute_files_takes_everything_witness :
  exists st,
    distribute_files sample_dict first_choice 4 [6; 7] 10 = Ret st
    /\ Permutation (selected_files st) (flat_map (bucket sample_dict) [6; 7])
    /\ PyDict.get (selection_count_per_hour st) 6 = Some 3.
Proof.
  destruct (distribute_files_takes_everything sample_dict first_choice [6; 7] 10 4)
    as [st [Hrun [Hperm Hcount]]].
  - discriminate.
  - repeat constructor; simpl; intuition discriminate.
  - apply duplicate_freeb_sound. reflexivity.
  - apply pairwise_disjointb_sound. reflexivity.
  - vm_compute. discriminate.
  - vm_compute. lia.
  - exists st. split; [assumption|]. split; [assumption|].
    apply (Hcount 6). now left.
Defined.

(** C6. For a non-empty group in which every bucket holds at most
    [average_files] files (the value line 97 computes: the clamped
    [target_count] divided by [len(hours)]), the fairness pass alone
    satisfies the request: whatever the generator and the fuel, the call
    returns the state the fairness pass left, the open request is 0, no
    draw was made, and the selection is all files of all buckets of the
    group, in the order of [counts]. *)
Theorem fairness_pass_alone_suffices
    (files_dict : files_dict_t) (hs : list Z) (requested : Z) :
  hs <> [] ->
  (forall h, In h hs ->
     len (bucket files_dict h) <= average_files files_dict hs requested) ->
  forall (g : nat -> nat) (fuel : nat),
  exists st,
    fairness_phase files_dict g hs requested = Ret st
    /\ distribute_files files_dict g fuel hs requested = Ret st
    /\ total_files_required st = 0
    /\ rng st = g
    /\ selected_files st
       = flat_map (bucket files_dict) (count_keys files_dict hs)
    /\ selection_count_per_hour st = mk_counts files_dict hs
    /\ forall h, In h hs -> incl (bucket files_dict h) (selected_files st).
Proof.
  intros Hne Hall g fuel.
  pose proof (distribute_files_fairness_only files_dict g hs requested
                fuel Hne Hall) as Hrun.
  pose proof (distribute_files_fairness_only files_dict g hs requested
                0%nat Hne Hall) as Hrun0.
  rewrite distribute_files_unfold in Hrun0 by assumption.
  rewrite fairness_phase_exact by assumption.
  simpl in Hrun0.
  destruct (fill_needed (fairness_with_fixed_average files_dict g hs requested));
    [discriminate|].
  rewrite Hrun0, Hrun. eexists. split; [reflexivity|]. simpl.
  repeat split.
  intros h Hh f Hf. apply in_flat_map. exists h.
  split; [now apply count_keys_In | assumption].
Qed.

Lemma fairness_pass_alone_suffices_witness :
  exists st,
    distribute_files balanced_dict first_choice 0 [6; 7] 4 = Ret st
    /\ total_files_required st = 0
    /\ selected_files st = flat_map (bucket balanced_dict) [6; 7].
Proof.
  destruct (fairness_pass_alone_suffices balanced_dict [6; 7] 4)
    with (g := first_choice) (fuel := 0%nat)
    as [st (_ & Hrun & Htot & _ & Hsel & _)].
  - discriminate.
  - intros h [<-|[<-|[]]]; vm_compute; discriminate.
  - exists st. split; [assumption|]. split; [assumption|].
    rewrite Hsel. reflexivity.
Defined.

(** C7. When no bucket of the group lists a file twice and no file is in
    two of its buckets, the list [distribute_files] returns has no file
    twice. *)
Theorem distribute_files_no_duplicates
    (files_dict : files_dict_t) (g : nat -> nat) (fuel : nat)
    (hs : list Z) (requested : Z) (st : dstate) :
  duplicate_free files_dict hs ->
  pairwise_disjoint files_dict hs ->
  distribute_files files_dict g fuel hs requested = Ret st ->
  NoDup (selected_files st).
Proof.
  intros Hdf Hpd Hrun. apply distribute_files_picks in Hrun.
  destruct Hrun as [Hne Hp]. eapply reached_NoDup; eassumption.
Qed.

Lemma distribute_files_no_duplicates_witness :
  exists st,
    distribute_files sample_dict first_choice 5 [6; 7] 3 = Ret st
    /\ NoDup (selected_files st).
Proof.
  eexists. split; [vm_compute; reflexivity|].
  apply (distribute_files_no_duplicates sample_dict first_choice 5 [6; 7] 3).
  - apply duplicate_freeb_sound. reflexivity.
  - apply pairwise_disjointb_sound. reflexivity.
  - vm_compute. reflexivity.
Defined.

(** C8. The fairness loop of the script refines the pass with one fixed
    average: for a non-empty [hours], the state after the loop is the one
    obtained by comparing every bucket with the single value
    [clamped target_count // len(hours)], where [len(hours)] is the length
    at entry; the hours recorded by the pass are exactly those of the
    group whose bucket is at or below that value, however many buckets
    were removed before them. *)
Theorem average_computed_once
    (files_dict : files_dict_t) (g : nat -> nat) (hs : list Z)
    (requested : Z) :
  hs <> [] ->
  fairness_phase files_dict g hs requested
  = Ret (fairness_with_fixed_average files_dict g hs requested)
  /\ (forall fuel,
        distribute_files files_dict g fuel hs requested
        = greedy_fill files_dict fuel
            (fairness_with_fixed_average files_dict g hs requested))
  /\ (forall h,
        In h (PyDict.keys (selection_count_per_hour
                (fairness_with_fixed_average files_dict g hs requested)))
        <-> In h hs
            /\ len (bucket files_dict h)
               <= clamp (total_available_files files_dict hs) requested
                  / len hs).
Proof.
  intros Hne. split; [now apply fairness_phase_exact|]. split.
  - intros fuel. now apply distribute_files_unfold.
  - intros h. simpl. unfold PyDict.keys. rewrite map_map. simpl. rewrite map_id.
    rewrite consumed_In, count_keys_In. reflexivity.
Qed.

Lemma average_computed_once_witness :
  fairness_phase late_dict first_choice [6; 7; 8] 3
  = Ret {| hours := [8];
           total_files_required := 2;
           selected_files := ["s-2018-08-27-07-01-00.jpg"%string];
           selection_count_per_hour := [(6, 0); (7, 1)];
           rng := first_choice |}.
Proof.
  destruct (average_computed_once late_dict first_choice [6; 7; 8] 3)
    as [Hphase _]; [discriminate|].
  rewrite Hphase. reflexivity.
Defined.

(** On the same input a pass that computed the average again after each
    removal would also take the bucket of 8 o'clock: after two removals the
    two open files over the one hour left give an average of 2. *)
Example recomputed_average_differs :
  fairness_pass_recomputing late_dict
    (PyDict.items (mk_counts late_dict [6; 7; 8]))
    {| hours := [6; 7; 8]; total_files_required := 3; selected_files := [];
       selection_count_per_hour := []; rng := first_choice |}
  = Ret {| hours := [];
           total_files_required := 0;
           selected_files :=
             ["s-2018-08-27-07-01-00.jpg"; "s-2018-08-27-08-01-00.jpg";
              "s-2018-08-27-08-02-00.jpg"]%string;
           selection_count_per_hour := [(6, 0); (7, 1); (8, 2)];
           rng := first_choice |}.
Proof. reflexivity. Qed.

(** * The claims about the classifier *)

Lemma digit_val_range (c : ascii) (d : Z) : digit_val c = Some d -> 0 <= d <= 9.
Proof.
  unfold digit_val.
  destruct ((48 <=? nat_of_ascii c) && (nat_of_ascii c <=? 57))%nat eqn:E;
    [|discriminate].
  apply andb_true_iff in E. destruct E as [E1 E2].
  apply Nat.leb_le in E1. apply Nat.leb_le in E2.
  intros H. injection H as <-. lia.
Qed.

Lemma split_dash_nonempty (s : string) : split_dash s <> [].
Proof.
  destruct s as [|c s]; simpl; [discriminate|].
  destruct (Ascii.eqb c dash); [discriminate|].
  destruct (split_dash s); discriminate.
Qed.

Lemma split_dash_no_dash (s : string) :
  forall f, In f (split_dash s) -> has_dash f = false.
Proof.
  induction s as [|c s IH]; simpl.
  - intros f [<-|[]]. reflexivity.
  - destruct (Ascii.eqb c dash) eqn:E.
    + intros f [<-|Hf]; [reflexivity | auto].
    + destruct (split_dash s) as [|f0 fs].
      * intros f [<-|[]]. simpl. now rewrite E.
      * intros f [<-|Hf].
        -- simpl. rewrite E. simpl. apply IH. now left.
        -- apply IH. now right.
Qed.

Lemma slice_to_no_dash (n : nat) (s : string) :
  has_dash s = false -> has_dash (slice_to n s) = false.
Proof.
  revert s. induction n as [|n IH]; intros s H; [reflexivity|].
  destruct s as [|c s]; [reflexivity|]. simpl in *.
  apply orb_false_iff in H. destruct H as [-> H]. simpl. auto.
Qed.

Lemma slice_to_short (s : string) :
  slice_to 2 s = EmptyString
  \/ (exists c, slice_to 2 s = String c EmptyString)
  \/ (exists c1 c2, slice_to 2 s = String c1 (String c2 EmptyString)).
Proof.
  destruct s as [|c1 [|c2 s]]; simpl; eauto.
Qed.

Ltac split_int_cases :=
  repeat match goal with
    | |- context [match digit_val ?c with _ => _ end] =>
        let E := fresh "E" in destruct (digit_val c) eqn:E
    | |- context [if ?b then _ else _] =>
        let E := fresh "E" in destruct b eqn:E
    end.

Opaque Z.mul.

(** [int] of at most two characters without a leading minus sign. *)
Lemma py_int_two_chars (s : string) (z : Z) :
  has_dash s = false ->
  (s = EmptyString
   \/ (exists c, s = String c EmptyString)
   \/ (exists c1 c2, s = String c1 (String c2 EmptyString))) ->
  py_int s = Some z -> 0 <= z <= 99.
Proof.
  intros Hd [->|[[c ->]|[c1 [c2 ->]]]]; unfold py_int; simpl in *.
  - discriminate.
  - apply orb_false_iff in Hd. destruct Hd as [Hc _]. unfold dash in Hc.
    split_int_cases; simpl; try discriminate;
      intros H; injection H as <-;
      repeat match goal with
        | E : digit_val _ = Some _ |- _ => apply digit_val_range in E
        end; lia.
  - apply orb_false_iff in Hd. destruct Hd as [Hc1 Hd].
    apply orb_false_iff in Hd. destruct Hd as [Hc2 _]. unfold dash in *.
    split_int_cases; simpl; unfold int_unsigned; simpl;
      split_int_cases; simpl; try discriminate; try congruence;
      intros H; try (injection H as <-);
      repeat match goal with
        | E : digit_val _ = Some _ |- _ => apply digit_val_range in E
        end; try lia; try discriminate.
Qed.

Transparent Z.mul.

Lemma classify_two_digits (file_name rest : string) (c1 c2 : ascii) (a b : Z) :
  nth_error (split_dash file_name) 4 = Some (String c1 (String c2 rest)) ->
  digit_val c1 = Some a -> digit_val c2 = Some b ->
  classify file_name = Ret (10 * a + b).
Proof.
  intros Hf Ha Hb. unfold classify, index. rewrite Hf. simpl.
  unfold int, py_int. simpl.
  assert (Hs : is_space c1 = false).
  { unfold is_space, digit_val in *.
    destruct ((48 <=? nat_of_ascii c1) && (nat_of_ascii c1 <=? 57))%nat eqn:E;
      [|discriminate].
    apply andb_true_iff in E. destruct E as [E1 E2].
    apply Nat.leb_le in E1. apply Nat.leb_le in E2.
    apply orb_false_iff. split.
    - apply andb_false_iff. right. apply Nat.leb_gt. lia.
    - apply Nat.eqb_neq. lia. }
  rewrite Hs.
  assert (Hp : Ascii.eqb c1 "+" = false /\ Ascii.eqb c1 "-" = false).
  { split; apply Ascii.eqb_neq; intros ->; vm_compute in Ha; discriminate. }
  destruct Hp as [-> ->]. unfold int_unsigned. rewrite Ha. simpl.
  rewrite Hb. reflexivity.
Qed.

Example classify_nuimages_name :
  classify "n013-2018-08-27-14-41-26+0800__CAM_FRONT__1535352274870176.jpg"
  = Ret 14.
Proof. reflexivity. Qed.

Example classify_07 : classify "a-b-c-d-07xxxx-e.jpg" = Ret 7.
Proof. reflexivity. Qed.

Example classify_23 : classify "a-b-c-d-23xxxx-e.jpg" = Ret 23.
Proof. reflexivity. Qed.

Example classify_too_few_fields : classify "a-b-c-d.jpg" = Raise IndexError.
Proof. reflexivity. Qed.

Example classify_not_a_number : classify "a-b-c-d-xx.jpg" = Raise ValueError.
Proof. reflexivity. Qed.

Example classify_one_digit : classify "a-b-c-d-7" = Ret 7.
Proof. reflexivity. Qed.

(** *** [int] on one and two characters *)

Lemma digit_val_decimal (c : ascii) (d : Z) :
  digit_val c = Some d <-> decimal c d.
Proof.
  unfold digit_val, decimal.
  destruct ((48 <=? nat_of_ascii c) && (nat_of_ascii c <=? 57))%nat eqn:E.
  - apply andb_true_iff in E. destruct E as [E1 E2].
    apply Nat.leb_le in E1. apply Nat.leb_le in E2. split.
    + intros H. injection H as <-. split; lia.
    + intros [_ ->]. f_equal. lia.
  - apply andb_false_iff in E. split; [discriminate|].
    intros [[H1 H2] _]. exfalso.
    destruct E as [E|E]; apply Nat.leb_gt in E; lia.
Qed.

Lemma digit_val_None (c : ascii) :
  digit_val c = None <-> ~ (48 <= nat_of_ascii c <= 57)%nat.
Proof.
  unfold digit_val.
  destruct ((48 <=? nat_of_ascii c) && (nat_of_ascii c <=? 57))%nat eqn:E.
  - apply andb_true_iff in E. destruct E as [E1 E2].
    apply Nat.leb_le in E1. apply Nat.leb_le in E2.
    split; [discriminate | lia].
  - apply andb_false_iff in E. split; [|reflexivity]. intros _ [H1 H2].
    destruct E as [E|E]; apply Nat.leb_gt in E; lia.
Qed.

Lemma is_space_white (c : ascii) : is_space c = true <-> white c.
Proof.
  unfold is_space, white. rewrite orb_true_iff, andb_true_iff.
  rewrite !Nat.leb_le, Nat.eqb_eq. tauto.
Qed.

Lemma is_space_not_white (c : ascii) : is_space c = false <-> ~ white c.
Proof.
  rewrite <- is_space_white. destruct (is_space c); split; congruence.
Qed.

Lemma eqb_code (c c0 : ascii) :
  Ascii.eqb c c0 = true <-> nat_of_ascii c = nat_of_ascii c0.
Proof.
  rewrite Ascii.eqb_eq. split; [now intros ->|].
  intros H. rewrite <- (ascii_nat_embedding c), <- (ascii_nat_embedding c0).
  now rewrite H.
Qed.

Lemma eqb_code_false (c c0 : ascii) :
  Ascii.eqb c c0 = false <-> nat_of_ascii c <> nat_of_ascii c0.
Proof.
  rewrite <- eqb_code. destruct (Ascii.eqb c c0); split; congruence.
Qed.

(** [int] of one character is the value of the digit it is. *)
Lemma py_int_one_char (c : ascii) :
  py_int (String c EmptyString) = digit_val c.
Proof.
  unfold py_int. simpl lstrip.
  destruct (is_space c) eqn:Es.
  - apply is_space_white in Es. symmetry. apply digit_val_None.
    unfold white in Es. lia.
  - destruct (Ascii.eqb c "+") eqn:Ep.
    + apply eqb_code in Ep. change (nat_of_ascii "+") with 43%nat in Ep.
      simpl. symmetry. apply digit_val_None. lia.
    + destruct (Ascii.eqb c "-") eqn:Em.
      * apply eqb_code in Em. change (nat_of_ascii "-") with 45%nat in Em.
        simpl. symmetry. apply digit_val_None. lia.
      * unfold int_unsigned. destruct (digit_val c); reflexivity.
Qed.

(** [int] of two characters of which the first is not a minus sign. *)
Lemma py_int_two_chars_cases (c1 c2 : ascii) :
  Ascii.eqb c1 dash = false ->
  py_int (String c1 (String c2 EmptyString))
  = if is_space c1 then digit_val c2
    else if Ascii.eqb c1 "+" then digit_val c2
    else match digit_val c1, digit_val c2 with
         | Some a, Some b => Some (10 * a + b)
         | Some a, None => if is_space c2 then Some a else None
         | None, _ => None
         end.
Proof.
  intros Hd. unfold py_int. simpl lstrip.
  destruct (is_space c1) eqn:Es1.
  - fold (py_int (String c2 EmptyString)). apply py_int_one_char.
  - destruct (Ascii.eqb c1 "+") eqn:Ep.
    + unfold int_unsigned. destruct (digit_val c2); reflexivity.
    + unfold dash in Hd. rewrite Hd. unfold int_unsigned.
      destruct (digit_val c1) as [a|]; [|reflexivity].
      simpl int_digits. destruct (digit_val c2) as [b|]; [reflexivity|].
      destruct (Ascii.eqb c2 "_") eqn:Eu.
      * apply eqb_code in Eu. change (nat_of_ascii "_") with 95%nat in Eu.
        destruct (is_space c2) eqn:Es2; [|reflexivity].
        apply is_space_white in Es2. unfold white in Es2. lia.
      * rewrite andb_true_r. reflexivity.
Qed.

(** On the first two characters of a field, [int] accepts exactly the
    strings of [reads], with the value given there. *)
Lemma py_int_reads (s : string) (z : Z) :
  has_dash s = false ->
  (s = EmptyString
   \/ (exists c, s = String c EmptyString)
   \/ (exists c1 c2, s = String c1 (String c2 EmptyString))) ->
  (py_int s = Some z <-> reads s z).
Proof.
  intros Hd [->|[[c ->]|[c1 [c2 ->]]]].
  - split; [discriminate|]. intros H. inversion H.
  - rewrite py_int_one_char, digit_val_decimal. split.
    + now constructor.
    + intros H. inversion H; subst. assumption.
  - simpl in Hd. apply orb_false_iff in Hd. destruct Hd as [Hd1 _].
    rewrite (py_int_two_chars_cases c1 c2 Hd1). split.
    + destruct (is_space c1) eqn:Es1.
      { intros H. apply is_space_white in Es1. apply digit_val_decimal in H.
        now apply reads_space_digit. }
      destruct (Ascii.eqb c1 "+") eqn:Ep.
      { intros H. apply Ascii.eqb_eq in Ep. subst c1.
        apply digit_val_decimal in H. now apply reads_plus_digit. }
      destruct (digit_val c1) as [a|] eqn:E1; [|discriminate].
      apply digit_val_decimal in E1.
      destruct (digit_val c2) as [b|] eqn:E2.
      { intros H. injection H as <-. apply digit_val_decimal in E2.
        now apply reads_two_digits. }
      destruct (is_space c2) eqn:Es2; [|discriminate].
      intros H. injection H as <-. apply is_space_white in Es2.
      now apply reads_digit_space.
    + intros H. inversion H; subst.
      * (* two digits *)
        match goal with
        | Ha : decimal c1 _, Hb : decimal c2 _ |- _ =>
            pose proof Ha as Hc1; destruct Hc1 as [Hr1 _];
            apply digit_val_decimal in Ha; apply digit_val_decimal in Hb;
            rewrite Ha, Hb
        end.
        assert (Es : is_space c1 = false)
          by (apply is_space_not_white; unfold white; lia).
        assert (Ep : Ascii.eqb c1 "+" = false)
          by (apply eqb_code_false;
              change (nat_of_ascii "+") with 43%nat; lia).
        now rewrite Es, Ep.
      * (* white space, digit *)
        match goal with
        | Hw : white c1, Hb : decimal c2 _ |- _ =>
            apply is_space_white in Hw; apply digit_val_decimal in Hb;
            now rewrite Hw
        end.
      * (* digit, white space *)
        match goal with
        | Ha : decimal c1 _, Hw : white c2 |- _ =>
            pose proof Ha as Hc1; destruct Hc1 as [Hr1 _];
            apply digit_val_decimal in Ha; rewrite Ha;
            assert (E2 : digit_val c2 = None)
              by (apply digit_val_None; unfold white in Hw; lia);
            apply is_space_white in Hw; rewrite E2, Hw
        end.
        assert (Es : is_space c1 = false)
          by (apply is_space_not_white; unfold white; lia).
        assert (Ep : Ascii.eqb c1 "+" = false)
          by (apply eqb_code_false;
              change (nat_of_ascii "+") with 43%nat; lia).
        now rewrite Es, Ep.
      * (* plus sign, digit *)
        match goal with
        | Hb : decimal c2 _ |- _ => apply digit_val_decimal in Hb
        end.
        simpl. assumption.
Qed.

Lemma field_prefix_reads (file_name field : string) (z : Z) :
  nth_error (split_dash file_name) 4 = Some field ->
  (py_int (slice_to 2 field) = Some z <-> reads (slice_to 2 field) z).
Proof.
  intros Hf. apply py_int_reads.
  - apply slice_to_no_dash. apply (split_dash_no_dash file_name).
    eapply nth_error_In. eassumption.
  - apply slice_to_short.
Qed.

(** C3 (amended). The classifier raises [IndexError] exactly when the name
    has fewer than 5 dash-separated fields, and [ValueError] exactly when
    it has 5 but the first two characters of field 4 are none of: one
    decimal digit (a one-character field), two decimal digits, a
    white-space character and a digit in either order, or a plus sign and
    a digit. It raises nothing else and is never cut off. Otherwise it
    returns the integer those characters read as, and only that: the
    result lies in [[0, 99]] and is not compared with 23; two decimal
    digits [a] and [b] at the start of field 4 give [10 * a + b]. *)
Theorem classify_characterization (file_name : string) :
  (classify file_name = Raise IndexError
   <-> (List.length (split_dash file_name) < 5)%nat)
  /\ (classify file_name = Raise ValueError
      <-> exists field,
            nth_error (split_dash file_name) 4 = Some field
            /\ forall h, ~ reads (slice_to 2 field) h)
  /\ (forall h,
        classify file_name = Ret h
        <-> exists field,
              nth_error (split_dash file_name) 4 = Some field
              /\ reads (slice_to 2 field) h)
  /\ (forall e, classify file_name = Raise e ->
        e = IndexError \/ e = ValueError)
  /\ classify file_name <> OutOfFuel
  /\ (forall h, classify file_name = Ret h -> 0 <= h <= 99)
  /\ (forall c1 c2 rest a b,
        nth_error (split_dash file_name) 4 = Some (String c1 (String c2 rest)) ->
        decimal c1 a -> decimal c2 b ->
        classify file_name = Ret (10 * a + b)).
Proof.
  assert (Hshape :
    (exists field, nth_error (split_dash file_name) 4 = Some field
       /\ classify file_name
          = match py_int (slice_to 2 field) with
            | Some z => Ret z
            | None => Raise ValueError
            end
       /\ (4 < List.length (split_dash file_name))%nat)
    \/ (nth_error (split_dash file_name) 4 = None
        /\ classify file_name = Raise IndexError
        /\ (List.length (split_dash file_name) <= 4)%nat)).
  { unfold classify, index, int.
    destruct (nth_error (split_dash file_name) 4) as [field|] eqn:Ef.
    - left. exists field. split; [reflexivity|]. split; [reflexivity|].
      apply nth_error_Some. congruence.
    - right. split; [reflexivity|]. split; [reflexivity|].
      now apply nth_error_None. }
  destruct Hshape as [(field & Ef & Ec & Hlen)|(Ef & Ec & Hlen)].
  - pose proof (fun z => field_prefix_reads file_name field z Ef) as Hreads.
    rewrite Ec.
    destruct (py_int (slice_to 2 field)) as [z|] eqn:Ep.
    + assert (Hz : reads (slice_to 2 field) z) by now apply Hreads.
      assert (Huniq : forall h, reads (slice_to 2 field) h -> h = z).
      { intros h Hh. apply Hreads in Hh. congruence. }
      split; [split; [discriminate | lia]|].
      split.
      { split; [discriminate|]. intros (field' & Ef' & Hno).
        rewrite Ef in Ef'. injection Ef' as <-. exfalso. exact (Hno z Hz). }
      split.
      { intros h. split.
        - intros H. injection H as <-. eauto.
        - intros (field' & Ef' & Hh). rewrite Ef in Ef'. injection Ef' as <-.
          now rewrite (Huniq h Hh). }
      split; [discriminate|]. split; [discriminate|]. split.
      { intros h H. injection H as <-.
        apply (py_int_two_chars (slice_to 2 field)); try assumption.
        - apply slice_to_no_dash. apply (split_dash_no_dash file_name).
          eapply nth_error_In. eassumption.
        - apply slice_to_short. }
      intros c1 c2 rest a b Hf Ha Hb. rewrite <- Ec.
      apply digit_val_decimal in Ha. apply digit_val_decimal in Hb.
      eapply classify_two_digits; eassumption.
    + assert (Hno : forall h, ~ reads (slice_to 2 field) h).
      { intros h Hh. apply Hreads in Hh. discriminate. }
      split; [split; [discriminate | lia]|].
      split; [split; [eauto | reflexivity]|].
      split.
      { intros h. split; [discriminate|].
        intros (field' & Ef' & Hh). rewrite Ef in Ef'. injection Ef' as <-.
        exfalso. exact (Hno h Hh). }
      split; [intros e H; injection H as <-; now right|].
      split; [discriminate|]. split; [discriminate|].
      intros c1 c2 rest a b Hf Ha Hb. exfalso.
      rewrite Ef in Hf. injection Hf as ->.
      apply (Hno (10 * a + b)). simpl. now apply reads_two_digits.
  - rewrite Ec.
    split; [split; [lia | reflexivity]|].
    split.
    { split; [discriminate|]. intros (field & Ef' & _). congruence. }
    split.
    { intros h. split; [discriminate|]. intros (field & Ef' & _). congruence. }
    split; [intros e H; injection H as <-; now left|].
    split; [discriminate|]. split; [discriminate|].
    intros c1 c2 rest a b Hf. congruence.
Qed.

(** The theorem at four names: an hour field reading 99, a one-digit
    field, a field that starts with a space and a digit, and a field
    without a digit. *)
Lemma classify_characterization_witness :
  classify "n013-2018-08-27-99-41-26+0800__CAM_FRONT__1535352274870176.jpg"
  = Ret 99
  /\ classify "a-b-c-d-7" = Ret 7
  /\ classify "a-b-c-d- 7-x" = Ret 7
  /\ classify "a-b-c-d-xx.jpg" = Raise ValueError.
Proof.
  assert (D9 : decimal "9" 9) by (split; [vm_compute; lia | reflexivity]).
  assert (D7 : decimal "7" 7) by (split; [vm_compute; lia | reflexivity]).
  split; [|split; [|split]].
  - destruct (classify_characterization
      "n013-2018-08-27-99-41-26+0800__CAM_FRONT__1535352274870176.jpg")
      as (_ & _ & _ & _ & _ & _ & Hdigits).
    apply (Hdigits "9"%char "9"%char EmptyString 9 9);
      [reflexivity | exact D9 | exact D9].
  - destruct (classify_characterization "a-b-c-d-7")
      as (_ & _ & Hret & _).
    apply Hret. exists "7"%string. split; [reflexivity|].
    simpl. now apply reads_digit.
  - destruct (classify_characterization "a-b-c-d- 7-x")
      as (_ & _ & Hret & _).
    apply Hret. exists " 7"%string. split; [reflexivity|].
    simpl. apply reads_space_digit; [|exact D7].
    right. reflexivity.
  - destruct (classify_characterization "a-b-c-d-xx.jpg")
      as (_ & Hval & _).
    apply Hval. exists "xx.jpg"%string. split; [reflexivity|].
    intros h Hh. simpl in Hh.
    inversion Hh; subst;
      repeat match goal with
        | H : decimal _ _ |- _ => destruct H as [H _]; vm_compute in H; lia
        | H : white _ |- _ => vm_compute in H; lia
        end.
Defined.

(** C3 (as stated, refuted). The classifier returns 99 for a name whose
    field 4 starts with 99: its results are not confined to [[0, 23]]. *)
Lemma classify_not_range_checked :
  ~ (forall (file_name : string) (h : Z),
       classify file_name = Ret h -> 0 <= h <= 23).
Proof.
  intros H.
  pose proof (H "n013-2018-08-27-99-41-26+0800__CAM_FRONT__1535352274870176.jpg"%string
                99 eq_refl).
  lia.
Qed.

(** * The script *)

Lemma range_In (lo hi h : Z) : In h (range lo hi) <-> lo <= h < hi.
Proof.
  unfold range. rewrite in_map_iff. split.
  - intros [i [<- Hi]]. apply in_seq in Hi. lia.
  - intros H. exists (Z.to_nat (h - lo)). split; [lia|].
    apply in_seq. lia.
Qed.

Lemma DAY_HOURS_In (h : Z) : In h DAY_HOURS <-> 6 <= h < 18.
Proof. apply range_In. Qed.

Lemma NIGHT_HOURS_In (h : Z) : In h NIGHT_HOURS <-> 0 <= h < 24 /\ ~ 6 <= h < 18.
Proof.
  unfold NIGHT_HOURS. rewrite filter_In, range_In, negb_true_iff, memZ_false.
  rewrite DAY_HOURS_In. reflexivity.
Qed.

Lemma DAY_HOURS_NoDup : NoDup DAY_HOURS.
Proof.
  unfold DAY_HOURS, range. apply Finite.Injective_map_NoDup; [|apply seq_NoDup].
  intros i j H. lia.
Qed.

Lemma NIGHT_HOURS_NoDup : NoDup NIGHT_HOURS.
Proof.
  unfold NIGHT_HOURS. apply NoDup_filter.
  unfold range. apply Finite.Injective_map_NoDup; [|apply seq_NoDup].
  intros i j H. lia.
Qed.

Lemma remove_each_cons_other (ks hs : list Z) (h : Z) :
  ~ In h ks -> remove_each ks (h :: hs) = h :: remove_each ks hs.
Proof.
  revert hs. induction ks as [|k ks IH]; intros hs Hn; [reflexivity|].
  simpl in Hn.
  assert (E : remove1 k (h :: hs) = h :: remove1 k hs).
  { unfold remove1. simpl.
    destruct (h =? k) eqn:E; [apply Z.eqb_eq in E; symmetry in E; tauto|].
    destruct (list_remove k hs); reflexivity. }
  change (remove_each ks (remove1 k (h :: hs))
          = h :: remove_each ks (remove1 k hs)).
  rewrite E. apply IH. tauto.
Qed.

Lemma remove_each_consumed (files_dict : files_dict_t) (average : Z)
    (hs : list Z) :
  NoDup hs ->
  remove_each (consumed files_dict average hs) hs
  = filter (fun h => negb (len (bucket files_dict h) <=? average)) hs.
Proof.
  induction hs as [|h hs IH]; intros Hnd; [reflexivity|].
  inversion Hnd as [|? ? Hh Hnd']; subst.
  rewrite consumed_cons. simpl filter.
  destruct (len (bucket files_dict h) <=? average) eqn:E; simpl negb; cbv iota.
  - simpl. unfold remove1. simpl. rewrite Z.eqb_refl. now apply IH.
  - rewrite remove_each_cons_other.
    + f_equal. now apply IH.
    + intros Hc. apply consumed_incl in Hc. contradiction.
Qed.

Section Categorize.

Lemma bucket_set_same (files_dict : files_dict_t) h files :
  bucket (PyDict.set files_dict h files) h = files.
Proof. unfold bucket, PyDict.get_default. now rewrite get_set_same. Qed.

Lemma bucket_set_other (files_dict : files_dict_t) h h' files :
  h <> h' -> bucket (PyDict.set files_dict h files) h' = bucket files_dict h'.
Proof.
  intros Hne. unfold bucket, PyDict.get_default. now rewrite get_set_other.
Qed.

Lemma categorize_spec all_files fd0 fd :
  categorize all_files fd0 = Ret fd ->
  forall f h,
    In f (bucket fd h)
    <-> In f (bucket fd0 h) \/ (In f all_files /\ classify f = Ret h).
Proof.
  revert fd0. induction all_files as [|f0 rest IH]; intros fd0 H f h.
  - simpl in H. injection H as <-. simpl. tauto.
  - simpl in H. destruct (classify f0) as [h0| |] eqn:Ec; try discriminate.
    simpl in H. rewrite (IH _ H f h).
    destruct (Z.eq_dec h0 h) as [->|Hne].
    + rewrite bucket_set_same, in_app_iff. simpl.
      split; [intros [[Hb|[<-|[]]]|[Hr Hc]] | intros [Hb|[[<-|Hr] Hc]]]; tauto.
    + rewrite bucket_set_other by assumption. simpl.
      split; [tauto|]. intros [Hb|[[<-|Hr] Hc]]; try tauto.
      rewrite Ec in Hc. injection Hc as Hc. contradiction.
Qed.

Lemma categorize_returns all_files fd0 :
  (forall f, In f all_files -> exists h, classify f = Ret h) ->
  exists fd, categorize all_files fd0 = Ret fd.
Proof.
  revert fd0. induction all_files as [|f0 rest IH]; intros fd0 H; simpl.
  - eauto.
  - destruct (H f0 (or_introl eq_refl)) as [h0 ->]. simpl.
    apply IH. intros f Hf. apply H. now right.
Qed.

Lemma categorize_NoDup all_files fd0 fd :
  categorize all_files fd0 = Ret fd ->
  NoDup all_files ->
  (forall h, NoDup (bucket fd0 h)) ->
  (forall f h, In f (bucket fd0 h) -> ~ In f all_files) ->
  forall h, NoDup (bucket fd h).
Proof.
  revert fd0. induction all_files as [|f0 rest IH]; intros fd0 H Hnd Hb Hfresh.
  - simpl in H. now injection H as <-.
  - simpl in H. destruct (classify f0) as [h0| |] eqn:Ec; try discriminate.
    simpl in H. inversion Hnd as [|? ? Hf0 Hnd']; subst.
    apply (IH _ H Hnd').
    + intros h. destruct (Z.eq_dec h0 h) as [->|Hne].
      * rewrite bucket_set_same. apply NoDup_app; [apply Hb | repeat constructor; tauto |].
        intros x Hx [<-|[]]. apply (Hfresh f0 h Hx). now left.
      * rewrite bucket_set_other by assumption. apply Hb.
    + intros f h Hf Hr. destruct (Z.eq_dec h0 h) as [->|Hne].
      * rewrite bucket_set_same in Hf. apply in_app_iff in Hf.
        destruct Hf as [Hf|[<-|[]]]; [|contradiction].
        apply (Hfresh f h Hf). now right.
      * rewrite bucket_set_other in Hf by assumption.
        apply (Hfresh f h Hf). now right.
Qed.

Lemma categorize_partition all_files fd hs :
  categorize all_files [] = Ret fd ->
  NoDup all_files ->
  duplicate_free fd hs /\ pairwise_disjoint fd hs.
Proof.
  intros H Hnd. split.
  - intros h _. apply (categorize_NoDup all_files [] fd H Hnd).
    + intros h'. constructor.
    + intros f h' [].
  - intros h1 h2 f _ _ Hne H1 H2.
    apply (categorize_spec _ _ _ H) in H1.
    apply (categorize_spec _ _ _ H) in H2.
    destruct H1 as [[]|[_ E1]]. destruct H2 as [[]|[_ E2]]. congruence.
Qed.

Lemma copy_daynight_spec day_hours all_files dn :
  copy_daynight day_hours all_files = Ret dn ->
  forall f,
    (In f (fst dn)
     <-> In f all_files
         /\ exists h, classify f = Ret h /\ memZ h day_hours = true)
    /\ (In f (snd dn)
        <-> In f all_files
            /\ exists h, classify f = Ret h /\ memZ h day_hours = false).
Proof.
  revert dn. induction all_files as [|f0 rest IH]; intros dn H f.
  - simpl in H. injection H as <-. simpl. tauto.
  - simpl in H. destruct (classify f0) as [h0| |] eqn:Ec; try discriminate.
    simpl in H.
    destruct (copy_daynight day_hours rest) as [dn'| |]; try discriminate.
    simpl in H. destruct (IH dn' eq_refl f) as [IHd IHn].
    destruct (memZ h0 day_hours) eqn:Em; injection H as <-; simpl;
      rewrite ?IHd, ?IHn; split; split;
      try (intros [<-|[Hr Hx]]; [split; [now left | eauto] | tauto]);
      try (intros [Hr Hx]; split; [now right | assumption]);
      try (intros [[<-|Hr] [h [Hc Hm]]];
           [ rewrite Ec in Hc; injection Hc as <-; first [now left | congruence]
           | try right; eauto ]).
Qed.

Lemma copy_daynight_returns day_hours all_files :
  (forall f, In f all_files -> exists h, classify f = Ret h) ->
  exists dn, copy_daynight day_hours all_files = Ret dn.
Proof.
  induction all_files as [|f0 rest IH]; intros H; simpl; [eauto|].
  destruct (H f0 (or_introl eq_refl)) as [h0 ->]. simpl.
  destruct IH as [dn ->]; [intros f Hf; apply H; now right|]. simpl.
  destruct (memZ h0 day_hours); eauto.
Qed.

End Categorize.

(** ** Runs of the script *)

Lemma clamp_le_requested (available requested : Z) :
  clamp available requested <= requested.
Proof.
  unfold clamp. destruct (requested >? available) eqn:E; [|lia].
  rewrite Z.gtb_ltb in E. apply Z.ltb_lt in E. lia.
Qed.

Lemma distribute_files_hours_after files_dict g fuel hs requested st :
  NoDup hs ->
  distribute_files files_dict g fuel hs requested = Ret st ->
  hours st
  = filter (fun h => negb (len (bucket files_dict h)
                           <=? average_files files_dict hs requested)) hs.
Proof.
  intros Hnd Hrun. apply distribute_files_picks in Hrun.
  destruct Hrun as [Hne Hp]. rewrite (picks_hours _ _ _ Hp). simpl.
  rewrite (count_keys_NoDup_hours files_dict hs Hnd).
  now apply remove_each_consumed.
Qed.

Lemma distribute_files_selected_from files_dict g fuel hs requested st f :
  distribute_files files_dict g fuel hs requested = Ret st ->
  In f (selected_files st) ->
  exists h, In h hs /\ In f (bucket files_dict h).
Proof.
  intros Hrun Hf. apply distribute_files_picks in Hrun.
  destruct Hrun as [Hne Hp].
  destruct (reached_from_group _ _ _ _ _ Hne Hp) as [Hfrom _]. auto.
Qed.

Lemma main_inv all_files g fuel res :
  main all_files g fuel = Ret res ->
  exists fd day night dn,
    categorize all_files [] = Ret fd
    /\ distribute_files fd g fuel DAY_HOURS IMAGE_SELECTION_COUNT_DAY = Ret day
    /\ distribute_files fd (rng day) fuel NIGHT_HOURS IMAGE_SELECTION_COUNT_NIGHT
       = Ret night
    /\ copy_daynight (hours day) all_files = Ret dn
    /\ r_files_dict res = fd
    /\ r_DAY_HOURS res = hours day
    /\ day_files res = selected_files day
    /\ night_files res = selected_files night
    /\ full_daytime res = fst dn
    /\ full_nighttime res = snd dn
    /\ total_daytime_images res
       = sum (map (fun hour => len (bucket fd hour)) (hours day)).
Proof.
  unfold main, run, COPY_TO_FULL. intros H.
  destruct (categorize all_files []) as [fd| |] eqn:Hfd; try discriminate.
  cbn [bind] in H.
  destruct (distribute_files fd g fuel DAY_HOURS IMAGE_SELECTION_COUNT_DAY)
    as [day| |] eqn:Hday; try discriminate.
  cbn [bind] in H.
  destruct (distribute_files fd (rng day) fuel NIGHT_HOURS
              IMAGE_SELECTION_COUNT_NIGHT) as [night| |] eqn:Hnight;
    try discriminate.
  cbn [bind] in H.
  destruct (copy_daynight (hours day) all_files) as [dn| |] eqn:Hdn;
    try discriminate.
  cbn [bind] in H. injection H as <-.
  exists fd, day, night, dn.
  cbn [r_files_dict r_DAY_HOURS day_files night_files full_daytime
       full_nighttime total_daytime_images].
  repeat split; first [assumption | reflexivity].
Qed.

Lemma main_returns all_files g fuel :
  NoDup all_files ->
  (forall f, In f all_files -> exists h, classify f = Ret h) ->
  (50 <= fuel)%nat ->
  exists res, main all_files g fuel = Ret res.
Proof.
  intros Hnd Hok Hfuel. unfold main, run, COPY_TO_FULL.
  destruct (categorize_returns all_files [] Hok) as [fd Hfd]. rewrite Hfd.
  cbn [bind].
  destruct (categorize_partition all_files fd DAY_HOURS Hfd Hnd) as [Hdf Hpd].
  destruct (categorize_partition all_files fd NIGHT_HOURS Hfd Hnd) as [Hdf' Hpd'].
  destruct (distribute_files_enough_fuel fd g DAY_HOURS
              IMAGE_SELECTION_COUNT_DAY fuel) as [_ Hday]; try assumption.
  { discriminate. }
  { pose proof (clamp_le_requested (total_available_files fd DAY_HOURS)
                  IMAGE_SELECTION_COUNT_DAY).
    unfold IMAGE_SELECTION_COUNT_DAY in *. lia. }
  destruct (Hday DAY_HOURS_NoDup) as [day ->]. cbn [bind].
  destruct (distribute_files_enough_fuel fd (rng day) NIGHT_HOURS
              IMAGE_SELECTION_COUNT_NIGHT fuel) as [_ Hnight]; try assumption.
  { discriminate. }
  { pose proof (clamp_le_requested (total_available_files fd NIGHT_HOURS)
                  IMAGE_SELECTION_COUNT_NIGHT).
    unfold IMAGE_SELECTION_COUNT_NIGHT in *. lia. }
  destruct (Hnight NIGHT_HOURS_NoDup) as [night ->]. cbn [bind].
  destruct (copy_daynight_returns (hours day) all_files Hok) as [dn ->].
  cbn [bind]. eauto.
Qed.

(** C9. In every run of the script on a listing of distinct, well-formed
    names: [DAY_HOURS] is afterwards the list of the day hours whose bucket
    exceeds the average of the day call, because [distribute_files]
    removes the others from that very list; so for a day hour whose bucket
    the fairness pass takes whole (its size is at most the average), the
    hour is no longer in [DAY_HOURS], every file of that hour is copied to
    [full/nighttime] and none to [full/daytime], and the daytime total of
    the report, a sum over the list that is left, does not count that
    bucket. *)
Theorem consumed_day_hour_is_misfiled
    (all_files : list string) (g : nat -> nat) (fuel : nat) :
  NoDup all_files ->
  (forall f, In f all_files -> exists h, classify f = Ret h) ->
  (50 <= fuel)%nat ->
  exists res,
    main all_files g fuel = Ret res
    /\ categorize all_files [] = Ret (r_files_dict res)
    /\ r_DAY_HOURS res
       = filter (fun h =>
           negb (len (bucket (r_files_dict res) h)
                 <=? average_files (r_files_dict res) DAY_HOURS
                       IMAGE_SELECTION_COUNT_DAY)) DAY_HOURS
    /\ total_daytime_images res
       = sum (map (fun h => len (bucket (r_files_dict res) h))
                  (r_DAY_HOURS res))
    /\ forall h,
         In h DAY_HOURS ->
         len (bucket (r_files_dict res) h)
         <= average_files (r_files_dict res) DAY_HOURS IMAGE_SELECTION_COUNT_DAY ->
         ~ In h (r_DAY_HOURS res)
         /\ forall f, In f all_files -> classify f = Ret h ->
              In f (bucket (r_files_dict res) h)
              /\ In f (full_nighttime res)
              /\ ~ In f (full_daytime res).
Proof.
  intros Hnd Hok Hfuel.
  destruct (main_returns all_files g fuel Hnd Hok Hfuel) as [res Hres].
  exists res. split; [assumption|].
  destruct (main_inv _ _ _ _ Hres)
    as (fd & day & night & dn & Hfd & Hday & _ & Hdn
        & -> & Ehours & _ & _ & Efd & Efn & Etot).
  pose proof (distribute_files_hours_after _ _ _ _ _ _ DAY_HOURS_NoDup Hday)
    as Hh.
  rewrite Ehours, Efd, Efn, Etot, Hh.
  split; [assumption|]. split; [reflexivity|]. split; [reflexivity|].
  intros h Hin Hle.
  assert (Hout : ~ In h (hours day)).
  { rewrite Hh, filter_In, negb_true_iff, Z.leb_gt. lia. }
  rewrite <- Hh. split; [assumption|].
  intros f Hf Hc.
  destruct (copy_daynight_spec _ _ _ Hdn f) as [Hd Hn].
  split; [|split].
  - apply (categorize_spec _ _ _ Hfd). right. tauto.
  - apply Hn. split; [assumption|]. exists h. split; [assumption|].
    now apply memZ_false.
  - intros Hc'. apply Hd in Hc'. destruct Hc' as [_ [h' [Hc' Hm]]].
    rewrite Hc in Hc'. injection Hc' as <-. apply memZ_In in Hm. contradiction.
Qed.

(** C10. A name whose field 4 starts with two digits reading a number
    above 23 is accepted by the classifier, which returns that number; the
    number is in neither [DAY_HOURS] nor [NIGHT_HOURS]; and in every run of
    the script on a listing of distinct, well-formed names that contains
    it, the file is put in the bucket of that number, is selected for
    neither subset, and the "daynight" copy puts it in [full/nighttime] and
    not in [full/daytime]. *)
Theorem out_of_range_hour_is_night
    (all_files : list string) (g : nat -> nat) (fuel : nat)
    (file_name : string) (c1 c2 : ascii) (rest : string) (a b : Z) :
  NoDup all_files ->
  (forall f, In f all_files -> exists h, classify f = Ret h) ->
  (50 <= fuel)%nat ->
  In file_name all_files ->
  nth_error (split_dash file_name) 4 = Some (String c1 (String c2 rest)) ->
  digit_val c1 = Some a -> digit_val c2 = Some b ->
  23 < 10 * a + b ->
  classify file_name = Ret (10 * a + b)
  /\ ~ In (10 * a + b) DAY_HOURS
  /\ ~ In (10 * a + b) NIGHT_HOURS
  /\ exists res,
       main all_files g fuel = Ret res
       /\ In file_name (bucket (r_files_dict res) (10 * a + b))
       /\ ~ In file_name (day_files res)
       /\ ~ In file_name (night_files res)
       /\ In file_name (full_nighttime res)
       /\ ~ In file_name (full_daytime res).
Proof.
  intros Hnd Hok Hfuel Hin Hfield Ha Hb Hbig.
  pose proof (classify_two_digits _ _ _ _ _ _ Hfield Ha Hb) as Hc.
  set (hour := 10 * a + b) in *.
  assert (Hday : ~ In hour DAY_HOURS) by (rewrite DAY_HOURS_In; lia).
  assert (Hnight : ~ In hour NIGHT_HOURS) by (rewrite NIGHT_HOURS_In; lia).
  split; [assumption|]. split; [assumption|]. split; [assumption|].
  destruct (main_returns all_files g fuel Hnd Hok Hfuel) as [res Hres].
  exists res. split; [assumption|].
  destruct (main_inv _ _ _ _ Hres)
    as (fd & day & night & dn & Hfd & Hrunday & Hrunnight & Hdn
        & -> & Ehours & -> & -> & -> & -> & _).
  destruct (copy_daynight_spec _ _ _ Hdn file_name) as [Hd Hn].
  assert (Hsub : incl (hours day) DAY_HOURS).
  { apply distribute_files_picks in Hrunday. destruct Hrunday as [Hne Hp].
    apply (reached_from_group _ _ _ _ _ Hne Hp). }
  assert (Hmem : memZ hour (hours day) = false).
  { apply memZ_false. intros Hx. apply Hday, Hsub, Hx. }
  assert (Hnot : forall st hs requested g' ,
            distribute_files fd g' fuel hs requested = Ret st ->
            ~ In hour hs -> ~ In file_name (selected_files st)).
  { intros st hs requested g' Hrun Hhs Hsel.
    destruct (distribute_files_selected_from _ _ _ _ _ _ _ Hrun Hsel)
      as [h [Hh Hb']].
    apply (categorize_spec _ _ _ Hfd) in Hb'. destruct Hb' as [[]|[_ Hc']].
    rewrite Hc in Hc'. injection Hc' as <-. contradiction. }
  repeat split.
  - apply (categorize_spec _ _ _ Hfd). right. tauto.
  - eapply Hnot; eassumption.
  - eapply Hnot; eassumption.
  - apply Hn. split; [assumption|]. eauto.
  - intros Hx. apply Hd in Hx. destruct Hx as [_ [h [Hc' Hm]]].
    rewrite Hc in Hc'. injection Hc' as <-. congruence.
Qed.

Lemma well_formedb_sound (all_files : list string) :
  well_formedb all_files = true ->
  forall f, In f all_files -> exists h, classify f = Ret h.
Proof.
  unfold well_formedb. rewrite forallb_forall. intros H f Hf.
  specialize (H f Hf). destruct (classify f); [eauto | discriminate..].
Qed.

Lemma consumed_day_hour_is_misfiled_witness :
  exists res,
    main sample_listing first_choice 50 = Ret res
    /\ ~ In 7 (r_DAY_HOURS res)
    /\ In "n013-2018-08-27-07-41-26+0800__CAM_FRONT__1535327274870176.jpg"%string
          (full_nighttime res).
Proof.
  destruct (consumed_day_hour_is_misfiled sample_listing first_choice 50)
    as [res (Hres & Hcat & _ & _ & Hh)].
  - apply nodupb_sound. vm_compute. reflexivity.
  - apply well_formedb_sound. vm_compute. reflexivity.
  - lia.
  - exists res. split; [assumption|].
    destruct (Hh 7) as [Hout Hfiles].
    + apply DAY_HOURS_In. lia.
    + remember (r_files_dict res) as fd eqn:Efd.
      vm_compute in Hcat. injection Hcat as <-.
      vm_compute. discriminate.
    + split; [assumption|].
      apply Hfiles; [|reflexivity]. vm_compute. tauto.
Defined.

Lemma out_of_range_hour_is_night_witness :
  exists res,
    main sample_listing first_choice 50 = Ret res
    /\ In "n013-2018-08-27-99-41-26+0800__CAM_FRONT__1535352274870176.jpg"%string
          (bucket (r_files_dict res) 99)
    /\ In "n013-2018-08-27-99-41-26+0800__CAM_FRONT__1535352274870176.jpg"%string
          (full_nighttime res).
Proof.
  destruct (out_of_range_hour_is_night sample_listing first_choice 50
              "n013-2018-08-27-99-41-26+0800__CAM_FRONT__1535352274870176.jpg"
              "9"%char "9"%char EmptyString 9 9)
    as (_ & _ & _ & res & Hres & Hb & _ & _ & Hn & _).
  - apply nodupb_sound. vm_compute. reflexivity.
  - apply well_formedb_sound. vm_compute. reflexivity.
  - lia.
  - vm_compute. tauto.
  - reflexivity.
  - reflexivity.
  - reflexivity.
  - lia.
  - exists res. auto.
Defined.

(** The run on the sample listing, computed: after it [DAY_HOURS] is
    [[14]], the image of 7 o'clock is among the night copies, and the
    report counts 12 daytime images although 13 were taken between 6 and
    18 o'clock. *)
Example sample_run :
  exists res,
    main sample_listing first_choice 50 = Ret res
    /\ r_DAY_HOURS res = [14]
    /\ r_NIGHT_HOURS res = [22]
    /\ total_daytime_images res = 12
    /\ len (full_daytime res) = 12
    /\ len (full_nighttime res) = 3.
Proof. eexists. split; [vm_compute; reflexivity|]. repeat split. Qed.


(** * Further properties of the script *)

(** ** The categorisation loop *)

Lemma NoDup_keys_set_any {V : Type} (d : PyDict.t V) (k : Z) (v : V) :
  NoDup (PyDict.keys d) -> NoDup (PyDict.keys (PyDict.set d k v)).
Proof.
  intros Hnd. destruct (in_dec Z.eq_dec k (PyDict.keys d)) as [Hi|Hn].
  - assert (E : PyDict.keys (PyDict.set d k v) = PyDict.keys d).
    { clear Hnd. induction d as [|[k0 v0] d IH]; simpl in *; [tauto|].
      destruct (k0 =? k) eqn:E; simpl; [reflexivity|].
      apply Z.eqb_neq in E. f_equal. apply IH. tauto. }
    now rewrite E.
  - rewrite set_absent, keys_app by assumption. simpl.
    apply NoDup_app; [assumption | repeat constructor; tauto |].
    intros x Hx [<-|[]]. tauto.
Qed.

Lemma hour_is_true (h : Z) (f : string) :
  hour_is h f = true <-> classify f = Ret h.
Proof.
  unfold hour_is. destruct (classify f) as [h'| |].
  - rewrite Z.eqb_eq. split; congruence.
  - split; discriminate.
  - split; discriminate.
Qed.

Lemma categorize_buckets_from all_files fd0 fd h :
  categorize all_files fd0 = Ret fd ->
  bucket fd h = bucket fd0 h ++ filter (hour_is h) all_files.
Proof.
  revert fd0. induction all_files as [|f0 rest IH]; intros fd0 H.
  - simpl in H. injection H as <-. simpl. now rewrite app_nil_r.
  - simpl in H. destruct (classify f0) as [h0| |] eqn:Ec; try discriminate.
    cbn [bind] in H. rewrite (IH _ H). simpl filter. unfold hour_is at 2.
    rewrite Ec. destruct (h0 =? h) eqn:E.
    + apply Z.eqb_eq in E. subst h0. rewrite bucket_set_same.
      now rewrite <- app_assoc.
    + apply Z.eqb_neq in E. now rewrite bucket_set_other.
Qed.

Lemma categorize_keys_from all_files fd0 fd :
  categorize all_files fd0 = Ret fd ->
  NoDup (PyDict.keys fd0) ->
  NoDup (PyDict.keys fd)
  /\ forall h, In h (PyDict.keys fd)
       <-> In h (PyDict.keys fd0)
           \/ exists f, In f all_files /\ classify f = Ret h.
Proof.
  revert fd0. induction all_files as [|f0 rest IH]; intros fd0 H Hnd.
  - simpl in H. injection H as <-. split; [assumption|].
    intros h. split; [tauto|]. intros [Hk|[f [[] _]]]. assumption.
  - simpl in H. destruct (classify f0) as [h0| |] eqn:Ec; try discriminate.
    cbn [bind] in H.
    destruct (IH _ H (NoDup_keys_set_any _ _ _ Hnd)) as [Hn Hk].
    split; [assumption|]. intros h. rewrite Hk, keys_set. split.
    + intros [[->|Hin]|[f [Hf Hc]]]; [right | now left | right].
      * exists f0. split; [now left | assumption].
      * exists f. split; [now right | assumption].
    + intros [Hin|[f [[<-|Hf] Hc]]]; [tauto | | right; eauto].
      rewrite Ec in Hc. injection Hc as ->. tauto.
Qed.

(** X1. After the categorisation loop the bucket of every hour lists, in
    the order of the directory listing and with the same repetitions,
    exactly the names the classifier maps to that hour. *)
Theorem categorize_buckets (all_files : list string) (fd : files_dict_t) :
  categorize all_files [] = Ret fd ->
  forall h, bucket fd h = filter (hour_is h) all_files.
Proof.
  intros H h. now rewrite (categorize_buckets_from _ _ _ h H).
Qed.

Lemma categorize_buckets_witness :
  exists fd,
    categorize sample_listing [] = Ret fd
    /\ bucket fd 7 = filter (hour_is 7) sample_listing.
Proof.
  eexists. split; [vm_compute; reflexivity|].
  apply (categorize_buckets sample_listing). vm_compute. reflexivity.
Defined.

(** X2. [files_dict] has a key exactly for the hours that occur in the
    listing, each key once, and never stores an empty list: a look-up
    [files_dict[hour]] raises [KeyError] exactly for the hours no file
    has. *)
Theorem categorize_keys (all_files : list string) (fd : files_dict_t) :
  categorize all_files [] = Ret fd ->
  NoDup (PyDict.keys fd)
  /\ forall h,
       (PyDict.get fd h = None
        <-> forall f, In f all_files -> classify f <> Ret h)
       /\ (forall files, PyDict.get fd h = Some files -> files <> []).
Proof.
  intros H.
  destruct (categorize_keys_from _ _ _ H (NoDup_nil Z)) as [Hnd Hk].
  split; [assumption|]. intros h. split.
  - rewrite get_None, Hk. simpl. split.
    + intros Hn f Hf Hc. apply Hn. right. eauto.
    + intros Hall [[]|[f [Hf Hc]]]. exact (Hall f Hf Hc).
  - intros files Hg ->.
    assert (Hin : In h (PyDict.keys fd)) by (eapply get_Some_In; eassumption).
    apply Hk in Hin. destruct Hin as [[]|[f [Hf Hc]]].
    pose proof (categorize_buckets_from _ _ _ h H) as Hb.
    rewrite (bucket_get _ _ _ Hg) in Hb. simpl in Hb.
    assert (Hx : In f (filter (hour_is h) all_files)).
    { apply filter_In. split; [assumption | now apply hour_is_true]. }
    rewrite <- Hb in Hx. destruct Hx.
Qed.

Lemma categorize_keys_witness :
  match categorize sample_listing [] with
  | Ret fd => NoDup (PyDict.keys fd) /\ PyDict.get fd 6 = None
  | _ => False
  end.
Proof.
  destruct (categorize sample_listing []) as [fd| |] eqn:E;
    [| vm_compute in E; discriminate..].
  destruct (categorize_keys sample_listing fd E) as [Hnd Hh].
  split; [assumption|].
  apply (Hh 6). intros f Hf.
  assert (Hall : forallb (fun x => negb (hour_is 6 x)) sample_listing = true)
    by (vm_compute; reflexivity).
  rewrite forallb_forall in Hall. specialize (Hall f Hf).
  apply negb_true_iff in Hall. intros Hc. apply hour_is_true in Hc. congruence.
Defined.

Lemma classify_not_cut (f : string) : classify f <> OutOfFuel.
Proof.
  unfold classify, index, int.
  destruct (nth_error (split_dash f) 4); cbn [bind]; [|discriminate].
  destruct (py_int (slice_to 2 s)); discriminate.
Qed.

(** X3. The categorisation loop stops at the first name the classifier
    rejects and raises that name's exception: it raises [e] exactly when
    the listing is some accepted names followed by a name on which the
    classifier raises [e]; it is never cut off, and no name is skipped. *)
Theorem categorize_raises_at_first_failure
    (all_files : list string) (fd0 : files_dict_t) (e : exn) :
  (categorize all_files fd0 = Raise e
   <-> exists accepted f rest,
         all_files = accepted ++ f :: rest
         /\ (forall x, In x accepted -> exists h, classify x = Ret h)
         /\ classify f = Raise e)
  /\ categorize all_files fd0 <> OutOfFuel.
Proof.
  revert fd0. induction all_files as [|f0 rest IH]; intros fd0.
  - simpl. split; [|discriminate]. split; [discriminate|].
    intros (acc & f & r & E & _). destruct acc; discriminate.
  - simpl. destruct (classify f0) as [h0| |] eqn:Ec; cbn [bind].
    + destruct (IH (PyDict.set fd0 h0 (bucket fd0 h0 ++ [f0]))) as [Hiff Hcut].
      split; [|assumption]. rewrite Hiff. split.
      * intros (acc & f & r & -> & Hacc & Hf).
        exists (f0 :: acc), f, r. split; [reflexivity|]. split; [|assumption].
        intros x [<-|Hx]; eauto.
      * intros (acc & f & r & E & Hacc & Hf).
        destruct acc as [|a acc]; simpl in E; injection E as <- ->.
        -- congruence.
        -- exists acc, f, r. split; [reflexivity|]. split; [|assumption].
           intros x Hx. apply Hacc. now right.
    + split; [|discriminate]. split.
      * intros H. injection H as <-. exists [], f0, rest. simpl. tauto.
      * intros (acc & f & r & E & Hacc & Hf).
        destruct acc as [|a acc]; simpl in E; injection E as <- ->.
        -- congruence.
        -- destruct (Hacc f0 (or_introl eq_refl)) as [h Hh]. congruence.
    + exfalso. eapply classify_not_cut. eassumption.
Qed.

(** ** The copy loops *)

Lemma flat_map_values_set (d : files_dict_t) (h : Z) (x : string) :
  Permutation (flat_map snd (PyDict.set d h (bucket d h ++ [x])))
              (flat_map snd d ++ [x]).
Proof.
  unfold bucket, PyDict.get_default.
  induction d as [|[k v] d IH]; simpl.
  - apply Permutation_refl.
  - destruct (k =? h) eqn:E; simpl.
    + rewrite <- !app_assoc. apply Permutation_app_head.
      apply Permutation_app_comm.
    + rewrite <- app_assoc. apply Permutation_app_head. exact IH.
Qed.

Lemma categorize_values_from all_files fd0 fd :
  categorize all_files fd0 = Ret fd ->
  Permutation (flat_map snd fd) (flat_map snd fd0 ++ all_files).
Proof.
  revert fd0. induction all_files as [|f0 rest IH]; intros fd0 H.
  - simpl in H. injection H as <-. now rewrite app_nil_r.
  - simpl in H. destruct (classify f0) as [h0| |]; try discriminate.
    cbn [bind] in H. eapply Permutation_trans; [apply (IH _ H)|].
    eapply Permutation_trans;
      [apply Permutation_app_tail, flat_map_values_set|].
    rewrite <- app_assoc. apply Permutation_refl.
Qed.

Lemma flat_map_buckets_keys (d : files_dict_t) :
  NoDup (PyDict.keys d) ->
  flat_map (bucket d) (PyDict.keys d) = flat_map snd d.
Proof.
  induction d as [|[k v] d IH]; intros Hnd; [reflexivity|].
  simpl in Hnd. inversion Hnd as [|? ? Hk Hnd']; subst. simpl.
  f_equal.
  - unfold bucket, PyDict.get_default. simpl. now rewrite Z.eqb_refl.
  - rewrite <- (IH Hnd'). rewrite !flat_map_concat_map. f_equal.
    apply map_ext_in. intros k' Hk'.
    unfold bucket, PyDict.get_default. simpl.
    destruct (k =? k') eqn:E; [|reflexivity].
    apply Z.eqb_eq in E. subst. contradiction.
Qed.

Lemma copy_timeslots_files (d : files_dict_t) :
  map snd (copy_timeslots d) = flat_map (bucket d) (PyDict.keys d).
Proof.
  unfold copy_timeslots. induction (PyDict.keys d) as [|k ks IH]; simpl;
    [reflexivity|].
  rewrite map_app, IH, map_map. simpl. now rewrite map_id.
Qed.

(** X4. The "timeslots" copy loop copies every file of the listing exactly
    once (the copies are a rearrangement of the listing), each into the
    directory of the hour the classifier gives it. *)
Theorem copy_timeslots_covers_listing
    (all_files : list string) (fd : files_dict_t) :
  categorize all_files [] = Ret fd ->
  Permutation (map snd (copy_timeslots fd)) all_files
  /\ forall h f, In (h, f) (copy_timeslots fd)
                 <-> In f all_files /\ classify f = Ret h.
Proof.
  intros H.
  destruct (categorize_keys_from _ _ _ H (NoDup_nil Z)) as [Hnd Hk].
  split.
  - rewrite copy_timeslots_files, flat_map_buckets_keys by assumption.
    apply (categorize_values_from _ _ _ H).
  - intros h f. unfold copy_timeslots. rewrite in_flat_map. split.
    + intros [k [Hin Hp]]. apply in_map_iff in Hp.
      destruct Hp as [x [E Hx]]. injection E as <- <-.
      rewrite (categorize_buckets_from _ _ _ k H) in Hx. simpl in Hx.
      apply filter_In in Hx. now rewrite hour_is_true in Hx.
    + intros [Hf Hc]. exists h. split.
      * apply Hk. right. eauto.
      * apply in_map. rewrite (categorize_buckets_from _ _ _ h H). simpl.
        apply filter_In. split; [assumption | now apply hour_is_true].
Qed.

Lemma copy_timeslots_covers_listing_witness :
  match categorize sample_listing [] with
  | Ret fd => Permutation (map snd (copy_timeslots fd)) sample_listing
  | _ => False
  end.
Proof.
  destruct (categorize sample_listing []) as [fd| |] eqn:E;
    [| vm_compute in E; discriminate..].
  apply (copy_timeslots_covers_listing sample_listing fd E).
Defined.

Lemma filter_partition {A : Type} (p : A -> bool) (xs : list A) :
  Permutation (filter p xs ++ filter (fun x => negb (p x)) xs) xs.
Proof.
  induction xs as [|x xs IH]; simpl; [constructor|].
  destruct (p x); simpl.
  - now constructor.
  - apply Permutation_sym, Permutation_cons_app, Permutation_sym, IH.
Qed.

Lemma copy_daynight_exact day_hours all_files dn :
  copy_daynight day_hours all_files = Ret dn ->
  fst dn = filter (is_day day_hours) all_files
  /\ snd dn = filter (fun f => negb (is_day day_hours f)) all_files.
Proof.
  revert dn. induction all_files as [|f0 rest IH]; intros dn H.
  - simpl in H. injection H as <-. split; reflexivity.
  - simpl in H.
    destruct (classify f0) as [h0| |] eqn:Ec; try discriminate.
    cbn [bind] in H.
    destruct (copy_daynight day_hours rest) as [dn'| |]; try discriminate.
    cbn [bind] in H. destruct (IH dn' eq_refl) as [Ed En].
    assert (E0 : is_day day_hours f0 = memZ h0 day_hours)
      by (unfold is_day; now rewrite Ec).
    simpl filter. rewrite E0.
    destruct (memZ h0 day_hours); injection H as <-; simpl;
      rewrite Ed, En; split; reflexivity.
Qed.

Lemma main_inv_full all_files g fuel res :
  main all_files g fuel = Ret res ->
  exists fd day night dn,
    categorize all_files [] = Ret fd
    /\ distribute_files fd g fuel DAY_HOURS IMAGE_SELECTION_COUNT_DAY = Ret day
    /\ distribute_files fd (rng day) fuel NIGHT_HOURS IMAGE_SELECTION_COUNT_NIGHT
       = Ret night
    /\ copy_daynight (hours day) all_files = Ret dn
    /\ res = {| r_files_dict := fd;
                r_DAY_HOURS := hours day;
                r_NIGHT_HOURS := hours night;
                day_files := selected_files day;
                day_counts := selection_count_per_hour day;
                night_files := selected_files night;
                night_counts := selection_count_per_hour night;
                subset_daytime := selected_files day;
                subset_nighttime := selected_files night;
                full_timeslots := [];
                full_daytime := fst dn;
                full_nighttime := snd dn;
                total_daytime_selected :=
                  total_selected (selection_count_per_hour day);
                total_daytime_images :=
                  sum (map (fun hour => len (bucket fd hour)) (hours day));
                total_nighttime_selected :=
                  total_selected (selection_count_per_hour night);
                total_nighttime_images :=
                  sum (map (fun hour => len (bucket fd hour)) (hours night)) |}.
Proof.
  unfold main, run, COPY_TO_FULL. intros H.
  destruct (categorize all_files []) as [fd| |] eqn:Hfd; try discriminate.
  cbn [bind] in H.
  destruct (distribute_files fd g fuel DAY_HOURS IMAGE_SELECTION_COUNT_DAY)
    as [day| |] eqn:Hday; try discriminate.
  cbn [bind] in H.
  destruct (distribute_files fd (rng day) fuel NIGHT_HOURS
              IMAGE_SELECTION_COUNT_NIGHT) as [night| |] eqn:Hnight;
    try discriminate.
  cbn [bind] in H.
  destruct (copy_daynight (hours day) all_files) as [dn| |] eqn:Hdn;
    try discriminate.
  cbn [bind] in H. injection H as <-.
  exists fd, day, night, dn. repeat split; assumption.
Qed.

(** X5. In a run that reaches the "daynight" copy loop, every file of the
    listing is copied to exactly one of [full/daytime] and
    [full/nighttime], in listing order: the day copies are the names whose
    hour is in [DAY_HOURS] as the sampler left it, the night copies are all
    the others. *)
Theorem copy_daynight_partitions_listing
    (all_files : list string) (g : nat -> nat) (fuel : nat) (res : run_result) :
  main all_files g fuel = Ret res ->
  full_daytime res = filter (is_day (r_DAY_HOURS res)) all_files
  /\ full_nighttime res
     = filter (fun f => negb (is_day (r_DAY_HOURS res) f)) all_files
  /\ Permutation (full_daytime res ++ full_nighttime res) all_files.
Proof.
  intros H.
  destruct (main_inv_full _ _ _ _ H)
    as (fd & day & night & dn & _ & _ & _ & Hdn & ->).
  cbn [full_daytime full_nighttime r_DAY_HOURS].
  destruct (copy_daynight_exact _ _ _ Hdn) as [-> ->].
  split; [reflexivity|]. split; [reflexivity|]. apply filter_partition.
Qed.

Lemma copy_daynight_partitions_listing_witness :
  match main sample_listing first_choice 50 with
  | Ret res =>
      Permutation (full_daytime res ++ full_nighttime res) sample_listing
  | _ => False
  end.
Proof.
  destruct (main sample_listing first_choice 50) as [res| |] eqn:E;
    [| vm_compute in E; discriminate..].
  apply (copy_daynight_partitions_listing sample_listing first_choice 50 res E).
Defined.

(** X6. The two subsets of a run never share a file: every file selected
    for [subset/daytime] is a name of the listing with an hour from 6 to
    17, every file selected for [subset/nighttime] one with an hour from 0
    to 5 or 18 to 23. *)
Theorem subsets_are_day_and_night
    (all_files : list string) (g : nat -> nat) (fuel : nat) (res : run_result) :
  main all_files g fuel = Ret res ->
  (forall f, In f (subset_daytime res) ->
     In f all_files /\ exists h, classify f = Ret h /\ 6 <= h < 18)
  /\ (forall f, In f (subset_nighttime res) ->
       In f all_files
       /\ exists h, classify f = Ret h /\ (0 <= h < 6 \/ 18 <= h < 24))
  /\ (forall f, In f (subset_daytime res) -> ~ In f (subset_nighttime res)).
Proof.
  intros H.
  destruct (main_inv_full _ _ _ _ H)
    as (fd & day & night & dn & Hfd & Hday & Hnight & _ & ->).
  cbn [subset_daytime subset_nighttime].
  assert (Hd : forall f, In f (selected_files day) ->
            In f all_files /\ exists h, classify f = Ret h /\ 6 <= h < 18).
  { intros f Hf.
    destruct (distribute_files_selected_from _ _ _ _ _ _ _ Hday Hf)
      as [h [Hh Hb]].
    apply (categorize_spec _ _ _ Hfd) in Hb. destruct Hb as [[]|[Hin Hc]].
    apply DAY_HOURS_In in Hh. eauto. }
  assert (Hn : forall f, In f (selected_files night) ->
            In f all_files
            /\ exists h, classify f = Ret h /\ (0 <= h < 6 \/ 18 <= h < 24)).
  { intros f Hf.
    destruct (distribute_files_selected_from _ _ _ _ _ _ _ Hnight Hf)
      as [h [Hh Hb]].
    apply (categorize_spec _ _ _ Hfd) in Hb. destruct Hb as [[]|[Hin Hc]].
    apply NIGHT_HOURS_In in Hh. split; [assumption|]. exists h.
    split; [assumption | lia]. }
  split; [assumption|]. split; [assumption|].
  intros f Hf Hf'.
  destruct (Hd f Hf) as [_ [h [Hc Hr]]].
  destruct (Hn f Hf') as [_ [h' [Hc' Hr']]].
  rewrite Hc in Hc'. injection Hc' as <-. lia.
Qed.

Lemma subsets_are_day_and_night_witness :
  match main sample_listing first_choice 50 with
  | Ret res =>
      forall f, In f (subset_daytime res) -> ~ In f (subset_nighttime res)
  | _ => False
  end.
Proof.
  destruct (main sample_listing first_choice 50) as [res| |] eqn:E;
    [| vm_compute in E; discriminate..].
  apply (subsets_are_day_and_night sample_listing first_choice 50 res E).
Defined.

(** ** Further properties of [distribute_files] *)

Lemma clamp_min (available requested : Z) :
  clamp available requested = Z.min requested available.
Proof.
  unfold clamp. destruct (requested >? available) eqn:E.
  - rewrite Z.gtb_ltb in E. apply Z.ltb_lt in E. lia.
  - rewrite Z.gtb_ltb in E. apply Z.ltb_ge in E. lia.
Qed.

Lemma final_request_closed files_dict g fuel hs requested st :
  duplicate_free files_dict hs -> pairwise_disjoint files_dict hs ->
  0 <= requested ->
  distribute_files files_dict g fuel hs requested = Ret st ->
  total_files_required st = 0.
Proof.
  intros Hdf Hpd Hreq Hrun. pose proof Hrun as Hrun'.
  apply distribute_files_picks in Hrun'. destruct Hrun' as [Hne Hp].
  pose proof (reached_nonneg _ _ _ _ _ Hne Hreq Hp) as Hnn.
  destruct (Z.eq_dec (total_files_required st) 0) as [E|E]; [assumption|].
  exfalso. assert (Hpos : 0 < total_files_required st) by lia.
  destruct (no_exhaustion files_dict g hs requested st Hne Hdf Hpd Hp Hpos)
    as (h & f & Hh & _).
  rewrite distribute_files_unfold in Hrun by assumption.
  apply greedy_fill_done in Hrun.
  assert (Hc : fill_needed st = true).
  { apply fill_needed_true. split; [assumption|]. intros E'.
    rewrite E' in Hh. destruct Hh. }
  congruence.
Qed.

(** X7. On a non-empty group of distinct hours with duplicate-free,
    pairwise-disjoint buckets and a non-negative request, a call with one
    round of fuel per requested file returns, and it selects exactly
    [min(request, available)] files: the request is met in full whenever
    the group has enough files. *)
Theorem distribute_files_exact_count
    (files_dict : files_dict_t) (g : nat -> nat) (hs : list Z)
    (requested : Z) (fuel : nat) :
  hs <> [] -> NoDup hs ->
  duplicate_free files_dict hs -> pairwise_disjoint files_dict hs ->
  0 <= requested ->
  (Z.to_nat requested <= fuel)%nat ->
  exists st,
    distribute_files files_dict g fuel hs requested = Ret st
    /\ len (selected_files st)
       = Z.min requested (total_available_files files_dict hs)
    /\ total_files_required st = 0.
Proof.
  intros Hne Hnd Hdf Hpd Hreq Hfuel.
  pose proof (clamp_le_requested (total_available_files files_dict hs)
                requested) as Hle.
  destruct (distribute_files_enough_fuel files_dict g hs requested fuel)
    as [_ Hret]; try assumption; [lia|].
  destruct (Hret Hnd) as [st Hst]. exists st. split; [assumption|].
  pose proof (final_request_closed _ _ _ _ _ _ Hdf Hpd Hreq Hst) as Hz.
  split; [|assumption].
  apply distribute_files_picks in Hst. destruct Hst as [_ Hp].
  destruct (reached_accounted _ _ _ _ _ Hne Hp) as [_ Hacc].
  rewrite <- clamp_min. lia.
Qed.

Lemma distribute_files_exact_count_witness :
  exists st,
    distribute_files sample_dict first_choice 3 [6; 7] 3 = Ret st
    /\ len (selected_files st) = 3.
Proof.
  destruct (distribute_files_exact_count sample_dict first_choice [6; 7] 3 3)
    as [st [Hrun [Hlen _]]].
  - discriminate.
  - repeat constructor; simpl; intuition discriminate.
  - apply duplicate_freeb_sound. reflexivity.
  - apply pairwise_disjointb_sound. reflexivity.
  - lia.
  - vm_compute. lia.
  - exists st. split; [assumption|]. rewrite Hlen. reflexivity.
Defined.

Lemma pick_keys_in_group files_dict hs0 st st' :
  from_group files_dict hs0 st ->
  (forall k, In k (PyDict.keys (selection_count_per_hour st)) -> In k hs0) ->
  pick_step files_dict st st' ->
  forall k, In k (PyDict.keys (selection_count_per_hour st')) -> In k hs0.
Proof.
  intros [_ Hi] Hk Hp k. destruct Hp. simpl. rewrite keys_set.
  intros [->|Hin]; auto.
Qed.

Lemma reached_keys files_dict g hs requested st :
  hs <> [] ->
  picks files_dict (fairness_with_fixed_average files_dict g hs requested) st ->
  NoDup (PyDict.keys (selection_count_per_hour st))
  /\ forall k, In k (PyDict.keys (selection_count_per_hour st)) -> In k hs.
Proof.
  intros Hne Hp.
  set (st1 := fairness_with_fixed_average files_dict g hs requested) in *.
  assert (H : from_group files_dict hs st
              /\ NoDup (PyDict.keys (selection_count_per_hour st))
              /\ forall k, In k (PyDict.keys (selection_count_per_hour st))
                           -> In k hs).
  { apply (picks_invariant files_dict
             (fun s => from_group files_dict hs s
                       /\ NoDup (PyDict.keys (selection_count_per_hour s))
                       /\ forall k, In k (PyDict.keys (selection_count_per_hour s))
                                    -> In k hs))
      with (st := st1); [| assumption |].
    - intros s s' (Hf & Hn & Hk) Hs. split; [|split].
      + eapply pick_from_group; eassumption.
      + destruct Hs. simpl. now apply NoDup_keys_set.
      + eapply pick_keys_in_group; eassumption.
    - split; [now apply fairness_from_group|].
      simpl. unfold PyDict.keys. rewrite map_map. simpl. rewrite map_id. split.
      + apply consumed_NoDup, count_keys_NoDup.
      + intros k Hk. apply consumed_incl in Hk. now apply count_keys_In in Hk. }
  tauto.
Qed.

(** X8. With duplicate-free, pairwise-disjoint buckets, the count returned
    for an hour of the group is the number of selected files that its
    bucket lists, and so never exceeds the size of the bucket; only hours
    of the group get a count, each one entry. *)
Theorem counts_are_tallies
    (files_dict : files_dict_t) (g : nat -> nat) (fuel : nat)
    (hs : list Z) (requested : Z) (st : dstate) :
  duplicate_free files_dict hs -> pairwise_disjoint files_dict hs ->
  distribute_files files_dict g fuel hs requested = Ret st ->
  NoDup (PyDict.keys (selection_count_per_hour st))
  /\ (forall k, In k (PyDict.keys (selection_count_per_hour st)) -> In k hs)
  /\ forall h, In h hs ->
       PyDict.get_default (selection_count_per_hour st) h 0
       = selected_from files_dict h (selected_files st)
       /\ PyDict.get_default (selection_count_per_hour st) h 0
          <= len (bucket files_dict h).
Proof.
  intros Hdf Hpd Hrun. apply distribute_files_picks in Hrun.
  destruct Hrun as [Hne Hp].
  destruct (reached_keys _ _ _ _ _ Hne Hp) as [Hnd Hk].
  split; [assumption|]. split; [assumption|]. intros h Hh.
  pose proof (reached_tallied _ _ _ _ _ Hne Hpd Hp h Hh) as Ht.
  pose proof (reached_NoDup _ _ _ _ _ Hne Hdf Hpd Hp) as Hsel.
  split; [exact Ht|]. rewrite Ht. unfold len.
  apply inj_le. apply NoDup_incl_length; [now apply NoDup_filter|].
  intros f Hf. apply filter_In in Hf. now apply mem_In.
Qed.

Lemma counts_are_tallies_witness :
  match distribute_files sample_dict first_choice 5 [6; 7] 3 with
  | Ret st =>
      PyDict.get_default (selection_count_per_hour st) 6 0
      = selected_from sample_dict 6 (selected_files st)
  | _ => False
  end.
Proof.
  destruct (distribute_files sample_dict first_choice 5 [6; 7] 3)
    as [st| |] eqn:E; [| vm_compute in E; discriminate..].
  destruct (counts_are_tallies sample_dict first_choice 5 [6; 7] 3 st)
    as (_ & _ & Hh).
  - apply duplicate_freeb_sound. reflexivity.
  - apply pairwise_disjointb_sound. reflexivity.
  - assumption.
  - apply (Hh 6). now left.
Defined.

Lemma get_map_counts (c : Z -> Z) (ks : list Z) (h : Z) :
  In h ks -> PyDict.get (map (fun k => (k, c k)) ks) h = Some (c h).
Proof.
  induction ks as [|k ks IH]; simpl; [tauto|].
  intros Hin. destruct (k =? h) eqn:E.
  - apply Z.eqb_eq in E. now subst.
  - apply Z.eqb_neq in E. apply IH. tauto.
Qed.

Lemma small_buckets_taken
    (files_dict : files_dict_t) (g : nat -> nat) (fuel : nat)
    (hs : list Z) (requested : Z) (st : dstate) :
  distribute_files files_dict g fuel hs requested = Ret st ->
  forall h, In h hs ->
    len (bucket files_dict h) <= average_files files_dict hs requested ->
    incl (bucket files_dict h) (selected_files st)
    /\ PyDict.get (selection_count_per_hour st) h
       = Some (len (bucket files_dict h)).
Proof.
  intros Hrun h Hh Hle. apply distribute_files_picks in Hrun.
  destruct Hrun as [Hne Hp].
  set (st1 := fairness_with_fixed_average files_dict g hs requested) in *.
  assert (Htaken : In h (consumed files_dict
                           (average_files files_dict hs requested)
                           (count_keys files_dict hs))).
  { apply consumed_In. split; [now apply count_keys_In | assumption]. }
  apply (picks_invariant files_dict
           (fun s => incl (bucket files_dict h) (selected_files s)
                     /\ PyDict.get (selection_count_per_hour s) h
                        = Some (len (bucket files_dict h))))
    with (st := st1); [| assumption |].
  - intros s s' [Hi Hg] Hs.
    destruct Hs as [s hour files f g' Hhour Hget Hin Hnot _]. simpl. split.
    + intros x Hx. apply in_app_iff. left. now apply Hi.
    + destruct (Z.eq_dec hour h) as [->|Hneq].
      * exfalso. apply Hnot, Hi. now rewrite (bucket_get _ _ _ Hget).
      * now rewrite get_set_other.
  - simpl. split.
    + intros x Hx. apply in_flat_map. eauto.
    + now apply (get_map_counts (fun k => len (bucket files_dict k))).
Qed.

(** X9. Scarce buckets are never under-represented: whenever the call
    returns, every hour of the group whose bucket holds at most
    [average_files] files has its whole bucket in the selection and its
    bucket size as count (no assumption on the buckets or on duplicates
    in [hours]). *)
Theorem small_buckets_are_taken_whole
    (files_dict : files_dict_t) (g : nat -> nat) (fuel : nat)
    (hs : list Z) (requested : Z) (st : dstate) :
  distribute_files files_dict g fuel hs requested = Ret st ->
  forall h, In h hs ->
    len (bucket files_dict h) <= average_files files_dict hs requested ->
    incl (bucket files_dict h) (selected_files st)
    /\ PyDict.get (selection_count_per_hour st) h
       = Some (len (bucket files_dict h)).
Proof.
  apply small_buckets_taken.
Qed.

Lemma small_buckets_are_taken_whole_witness :
  match distribute_files sample_dict first_choice 5 [6; 7] 3 with
  | Ret st =>
      incl (bucket sample_dict 7) (selected_files st)
      /\ PyDict.get (selection_count_per_hour st) 7 = Some 1
  | _ => False
  end.
Proof.
  destruct (distribute_files sample_dict first_choice 5 [6; 7] 3)
    as [st| |] eqn:E; [| vm_compute in E; discriminate..].
  apply (small_buckets_are_taken_whole sample_dict first_choice 5 [6; 7] 3 st E 7).
  - right. now left.
  - vm_compute. discriminate.
Defined.

(** X10. What a call leaves in the caller's list: the greedy pass never
    changes [hours], the list only loses elements, an hour whose bucket
    exceeds the average stays, and for distinct hours the list is exactly
    the hours whose bucket exceeds the average, in their order. *)
Theorem hours_after_the_call
    (files_dict : files_dict_t) (g : nat -> nat) (fuel : nat)
    (hs : list Z) (requested : Z) (st : dstate) :
  distribute_files files_dict g fuel hs requested = Ret st ->
  hours st = hours (fairness_with_fixed_average files_dict g hs requested)
  /\ incl (hours st) hs
  /\ (forall h, In h hs ->
        average_files files_dict hs requested < len (bucket files_dict h) ->
        In h (hours st))
  /\ (NoDup hs ->
      hours st
      = filter (fun h => negb (len (bucket files_dict h)
                               <=? average_files files_dict hs requested)) hs).
Proof.
  intros Hrun. pose proof Hrun as Hrun'.
  apply distribute_files_picks in Hrun'. destruct Hrun' as [Hne Hp].
  pose proof (picks_hours _ _ _ Hp) as Eh.
  split; [assumption|]. split; [|split].
  - apply (reached_from_group _ _ _ _ _ Hne Hp).
  - intros h Hh Hgt. rewrite Eh. simpl.
    apply (remove_each_keeps files_dict 0); [assumption|].
    rewrite consumed_In. lia.
  - intros Hnd. now apply (distribute_files_hours_after _ g fuel _ requested).
Qed.

Lemma hours_after_the_call_witness :
  match distribute_files sample_dict first_choice 5 [6; 7] 3 with
  | Ret st => hours st = [6]
  | _ => False
  end.
Proof.
  destruct (distribute_files sample_dict first_choice 5 [6; 7] 3)
    as [st| |] eqn:E; [| vm_compute in E; discriminate..].
  destruct (hours_after_the_call sample_dict first_choice 5 [6; 7] 3 st E)
    as (_ & _ & _ & Hf).
  rewrite Hf; [reflexivity|].
  repeat constructor; simpl; intuition discriminate.
Defined.

(** ** The fair share of the greedy pass *)

Lemma available_nonempty files_dict h files selected :
  PyDict.get files_dict h = Some files ->
  NoDup files ->
  selected_from files_dict h selected < len files ->
  available_files files selected <> [].
Proof.
  intros Hg Hnd Hlt Hnil. unfold selected_from in Hlt.
  rewrite (bucket_get _ _ _ Hg) in Hlt.
  assert (Hi : incl files (filter (fun f => mem f files) selected)).
  { intros f Hf. apply filter_In. split; [|now apply mem_In].
    destruct (mem f selected) eqn:E; [now apply mem_In|].
    apply mem_false in E.
    assert (Hc : In f (available_files files selected))
      by (apply available_In; tauto).
    rewrite Hnil in Hc. destruct Hc. }
  pose proof (NoDup_incl_length Hnd Hi). unfold len in Hlt. lia.
Qed.

Lemma picks_count_mono files_dict st st' h :
  picks files_dict st st' ->
  PyDict.get_default (selection_count_per_hour st) h 0
  <= PyDict.get_default (selection_count_per_hour st') h 0.
Proof.
  induction 1 as [|st sa sb Hs _ IH]; [lia|].
  eapply Z.le_trans; [|exact IH]. destruct Hs as [s hour files f g' _ _ _ _ _].
  simpl. destruct (Z.eq_dec hour h) as [->|Hne].
  - rewrite get_default_set_same. lia.
  - rewrite get_default_set_other by assumption. lia.
Qed.

Lemma consumed_bound_tight files_dict average ks :
  0 <= average ->
  len (flat_map (bucket files_dict) (consumed files_dict average ks))
  <= average * len (consumed files_dict average ks).
Proof.
  intros Ha. induction ks as [|k ks IH].
  - unfold len. simpl. lia.
  - rewrite consumed_cons.
    destruct (len (bucket files_dict k) <=? average) eqn:E; [|exact IH].
    apply Z.leb_le in E. simpl flat_map. rewrite len_app.
    replace (len (k :: consumed files_dict average ks))
      with (1 + len (consumed files_dict average ks))
      by (unfold len; simpl List.length; lia).
    lia.
Qed.

Lemma consumed_and_left files_dict average ks :
  len (consumed files_dict average ks)
  + len (filter (fun h => negb (len (bucket files_dict h) <=? average)) ks)
  = len ks.
Proof.
  induction ks as [|k ks IH]; [reflexivity|].
  rewrite consumed_cons. simpl filter.
  destruct (len (bucket files_dict k) <=? average); simpl negb; cbv iota;
    unfold len in *; simpl List.length; lia.
Qed.

Section FairShare.
Variable files_dict : files_dict_t.
Variable g : nat -> nat.
Variable hs : list Z.
Variable requested : Z.
Hypothesis hours_nonempty : hs <> [].
Hypothesis hours_distinct : NoDup hs.
Hypothesis buckets_duplicate_free : duplicate_free files_dict hs.
Hypothesis buckets_disjoint : pairwise_disjoint files_dict hs.
Hypothesis request_nonneg : 0 <= requested.

Let average := average_files files_dict hs requested.
Let st1 := fairness_with_fixed_average files_dict g hs requested.
Let count_at (st : dstate) (h : Z) : Z :=
  PyDict.get_default (selection_count_per_hour st) h 0.

Lemma left_hours :
  hours st1
  = filter (fun h => negb (len (bucket files_dict h) <=? average)) hs.
Proof.
  simpl. rewrite (count_keys_NoDup_hours files_dict hs hours_distinct).
  now apply remove_each_consumed.
Qed.

Lemma left_hours_facts h :
  In h (hours st1) -> In h hs /\ average < len (bucket files_dict h).
Proof.
  rewrite left_hours, filter_In, negb_true_iff, Z.leb_gt. tauto.
Qed.

Lemma average_nonneg : 0 <= average.
Proof.
  unfold average, average_files. apply Z.div_pos; [|now apply len_pos].
  unfold clamp. pose proof (total_available_nonneg files_dict hs).
  destruct (requested >? total_available_files files_dict hs); lia.
Qed.

(** One whole round: every hour of the rest [t] of the round, all at count
    [r] below their bucket size, gets one more file. *)
Lemma full_round (r : Z) (t : list Z) :
  forall st,
    picks files_dict st1 st ->
    NoDup t -> incl t (hours st) ->
    (forall h, In h t -> count_at st h = r /\ r < len (bucket files_dict h)) ->
    len t <= total_files_required st ->
    exists st',
      greedy_round files_dict t st = Ret st'
      /\ picks files_dict st st'
      /\ (forall h, In h t -> count_at st' h = r + 1)
      /\ (forall h, ~ In h t -> count_at st' h = count_at st h)
      /\ total_files_required st' = total_files_required st - len t.
Proof.
  induction t as [|h0 t IH]; intros st Hp Hnd Hi Hall Htot.
  - exists st. simpl. repeat split; try constructor; try tauto.
    unfold len. simpl. lia.
  - inversion Hnd as [|? ? Hh0 Hnd']; subst.
    assert (Hlen : len (h0 :: t) = 1 + len t)
      by (unfold len; simpl List.length; lia).
    pose proof (len_nonneg t) as Hlt.
    simpl greedy_round.
    destruct (total_files_required st <=? 0) eqn:Et;
      [apply Z.leb_le in Et; lia|]. apply Z.leb_gt in Et.
    destruct (Hall h0 (or_introl eq_refl)) as [Hc0 Hr0].
    assert (Hin0 : In h0 hs).
    { apply (reached_from_group _ _ _ _ _ hours_nonempty Hp).
      apply Hi. now left. }
    pose proof (reached_tallied _ _ _ _ _ hours_nonempty buckets_disjoint
                  Hp h0 Hin0) as Htal.
    fold (count_at st h0) in Htal.
    fold (selected_from files_dict h0 (selected_files st)) in Htal.
    destruct (PyDict.get files_dict h0) as [files|] eqn:Eg.
    2:{ exfalso. unfold bucket, PyDict.get_default in Hr0. rewrite Eg in Hr0.
        unfold selected_from in Htal.
        pose proof (len_nonneg (filter (fun f => mem f (bucket files_dict h0))
                                       (selected_files st))).
        change (len (@nil string)) with 0 in Hr0. lia. }
    pose proof (bucket_get _ _ _ Eg) as Eb.
    destruct (available_files files (selected_files st)) as [|x xs] eqn:Ea.
    { exfalso. apply (available_nonempty files_dict h0 files (selected_files st));
        try assumption.
      - rewrite <- Eb. now apply buckets_duplicate_free.
      - rewrite <- Eb. lia. }
    assert (Hstep : pick_step files_dict st (pick h0 (x :: xs) st)).
    { eapply pick_is_step; try eassumption. apply Hi. now left. }
    set (st2 := pick h0 (x :: xs) st) in *.
    assert (Hc2 : forall h, count_at st2 h
                            = if Z.eq_dec h0 h then count_at st h + 1
                              else count_at st h).
    { intros h. unfold count_at, st2, pick. simpl.
      destruct (Z.eq_dec h0 h) as [->|Hne].
      - now rewrite get_default_set_same.
      - now rewrite get_default_set_other. }
    destruct (IH st2) as (st' & Hrun & Hp' & Hin' & Hout' & Htot').
    + eapply picks_trans; [eassumption|].
      econstructor; [eassumption | constructor].
    + assumption.
    + simpl. intros h Hh. apply Hi. now right.
    + intros h Hh. rewrite Hc2.
      destruct (Z.eq_dec h0 h) as [->|Hne]; [contradiction|].
      apply Hall. now right.
    + simpl. lia.
    + exists st'. split; [assumption|]. split.
      { econstructor; eassumption. }
      split; [|split].
      * intros h [<-|Hh]; [|auto]. rewrite (Hout' h0 Hh0), Hc2.
        destruct (Z.eq_dec h0 h0); [lia | congruence].
      * intros h Hh. simpl in Hh. rewrite Hout' by tauto. rewrite Hc2.
        destruct (Z.eq_dec h0 h) as [->|Hne]; [tauto | reflexivity].
      * rewrite Htot'. simpl. lia.
Qed.

Lemma fair_rounds (fuel : nat) :
  forall (r : Z) (st st_f : dstate),
    0 <= r <= average ->
    picks files_dict st1 st ->
    (forall h, In h (hours st1) -> count_at st h = r) ->
    len (hours st1) * (average - r) <= total_files_required st ->
    greedy_fill files_dict fuel st = Ret st_f ->
    forall h, In h (hours st1) -> average <= count_at st_f h.
Proof.
  induction fuel as [|fuel IH]; intros r st st_f Hr Hp Hc Htot Hrun h Hh.
  - destruct (Z.eq_dec r average) as [->|Hne].
    + rewrite <- (Hc h Hh). apply (picks_count_mono files_dict).
      eapply greedy_fill_picks. eassumption.
    + exfalso. simpl in Hrun.
      assert (Hf : fill_needed st = true).
      { apply fill_needed_true. rewrite (picks_hours _ _ _ Hp).
        assert (0 < len (hours st1)).
        { apply len_pos. intros E. rewrite E in Hh. destruct Hh. }
        split; [nia|]. intros E. rewrite E in Hh. destruct Hh. }
      rewrite Hf in Hrun. discriminate.
  - destruct (Z.eq_dec r average) as [->|Hne].
    + rewrite <- (Hc h Hh). apply (picks_count_mono files_dict).
      eapply greedy_fill_picks. eassumption.
    + assert (Hpos : 0 < len (hours st1)).
      { apply len_pos. intros E. rewrite E in Hh. destruct Hh. }
      assert (Hf : fill_needed st = true).
      { apply fill_needed_true. rewrite (picks_hours _ _ _ Hp).
        split; [nia|]. intros E. rewrite E in Hh. destruct Hh. }
      simpl in Hrun. rewrite Hf in Hrun.
      destruct (full_round r (hours st) st) as (st' & Hround & Hp' & Hin' & _ & Htot').
      * assumption.
      * rewrite (picks_hours _ _ _ Hp), left_hours. apply NoDup_filter.
        assumption.
      * apply incl_refl.
      * intros k Hk. rewrite (picks_hours _ _ _ Hp) in Hk.
        split; [now apply Hc|]. destruct (left_hours_facts k Hk). lia.
      * rewrite (picks_hours _ _ _ Hp). nia.
      * rewrite Hround in Hrun. cbn [bind] in Hrun.
        apply (IH (r + 1) st' st_f); try assumption.
        -- lia.
        -- eapply picks_trans; eassumption.
        -- intros k Hk. apply Hin'. now rewrite (picks_hours _ _ _ Hp).
        -- rewrite Htot', (picks_hours _ _ _ Hp). nia.
Qed.

Lemma fair_share_left (fuel : nat) (st : dstate) :
  distribute_files files_dict g fuel hs requested = Ret st ->
  forall h, In h (hours st1) -> average <= count_at st h.
Proof.
  intros Hrun. rewrite distribute_files_unfold in Hrun by assumption.
  fold st1 in Hrun.
  apply (fair_rounds fuel 0 st1 st); try assumption.
  - pose proof average_nonneg. lia.
  - constructor.
  - intros h Hh. unfold count_at, PyDict.get_default.
    assert (Hn : PyDict.get (selection_count_per_hour st1) h = None).
    { apply get_None. simpl. unfold PyDict.keys. rewrite map_map. simpl.
      rewrite map_id, (count_keys_NoDup_hours files_dict hs hours_distinct).
      fold average. rewrite consumed_In.
      destruct (left_hours_facts h Hh). lia. }
    now rewrite Hn.
  - rewrite Z.sub_0_r, left_hours. simpl.
    rewrite (count_keys_NoDup_hours files_dict hs hours_distinct).
    fold average.
    pose proof (consumed_bound_tight files_dict average hs average_nonneg).
    pose proof (consumed_and_left files_dict average hs).
    assert (len hs * average
            <= clamp (total_available_files files_dict hs) requested).
    { unfold average, average_files. apply Z.mul_div_le. now apply len_pos. }
    nia.
Qed.

End FairShare.

(** X11. No bucket is starved: on a non-empty group of distinct hours
    with duplicate-free, pairwise-disjoint buckets and a non-negative
    request, every hour of the group ends with a count of at least
    [min(bucket size, average_files)]; the hours the fairness pass left
    each get at least [average_files] files from the greedy pass. *)
Theorem every_hour_gets_its_fair_share
    (files_dict : files_dict_t) (g : nat -> nat) (fuel : nat)
    (hs : list Z) (requested : Z) (st : dstate) :
  hs <> [] -> NoDup hs ->
  duplicate_free files_dict hs -> pairwise_disjoint files_dict hs ->
  0 <= requested ->
  distribute_files files_dict g fuel hs requested = Ret st ->
  forall h, In h hs ->
    Z.min (len (bucket files_dict h)) (average_files files_dict hs requested)
    <= PyDict.get_default (selection_count_per_hour st) h 0.
Proof.
  intros Hne Hnd Hdf Hpd Hreq Hrun h Hh.
  destruct (Z_le_gt_dec (len (bucket files_dict h))
              (average_files files_dict hs requested)) as [Hle|Hgt].
  - destruct (small_buckets_taken _ _ _ _ _ _ Hrun h Hh Hle) as [_ Hg].
    unfold PyDict.get_default. rewrite Hg. lia.
  - pose proof (fair_share_left files_dict g hs requested Hne Hnd Hdf Hpd Hreq
                  fuel st Hrun h) as Hfair.
    assert (Hin : In h (hours (fairness_with_fixed_average files_dict g hs
                                 requested))).
    { rewrite (left_hours files_dict g hs requested Hnd).
      apply filter_In. split; [assumption|].
      apply negb_true_iff, Z.leb_gt. lia. }
    specialize (Hfair Hin). cbv beta zeta in Hfair. lia.
Qed.

Lemma every_hour_gets_its_fair_share_witness :
  match distribute_files sample_dict first_choice 5 [6; 7] 3 with
  | Ret st =>
      Z.min (len (bucket sample_dict 6)) (average_files sample_dict [6; 7] 3)
      <= PyDict.get_default (selection_count_per_hour st) 6 0
  | _ => False
  end.
Proof.
  destruct (distribute_files sample_dict first_choice 5 [6; 7] 3)
    as [st| |] eqn:E; [| vm_compute in E; discriminate..].
  apply (every_hour_gets_its_fair_share sample_dict first_choice 5 [6; 7] 3 st);
    try assumption.
  - discriminate.
  - repeat constructor; simpl; intuition discriminate.
  - apply duplicate_freeb_sound. reflexivity.
  - apply pairwise_disjointb_sound. reflexivity.
  - lia.
  - now left.
Defined.

(** ** The numbers of the report *)

Lemma total_selected_sum (d : PyDict.t Z) :
  NoDup (PyDict.keys d) -> total_selected d = sum (PyDict.values d).
Proof.
  unfold total_selected, PyDict.values, PyDict.get_default.
  induction d as [|[k v] d IH]; intros Hnd; [reflexivity|].
  simpl in Hnd. inversion Hnd as [|? ? Hk Hnd']; subst.
  simpl. rewrite Z.eqb_refl. unfold sum in *. simpl. f_equal.
  rewrite <- (IH Hnd'). f_equal. apply map_ext_in. intros k' Hk'.
  destruct (k =? k') eqn:E; [|reflexivity].
  apply Z.eqb_eq in E. subst. contradiction.
Qed.

Lemma sum_map_add {A : Type} (a b : A -> Z) (xs : list A) :
  sum (map (fun x => a x + b x) xs) = sum (map a xs) + sum (map b xs).
Proof. unfold sum. induction xs as [|x xs IH]; simpl; lia. Qed.

Lemma hour_indicator (hs : list Z) (f : string) :
  NoDup hs ->
  sum (map (fun h => if hour_is h f then 1 else 0) hs)
  = if is_day hs f then 1 else 0.
Proof.
  unfold hour_is, is_day. destruct (classify f) as [h'| |].
  - induction hs as [|h hs IH]; intros Hnd; [reflexivity|].
    inversion Hnd as [|? ? Hh Hnd']; subst.
    unfold sum in *. simpl. rewrite (IH Hnd').
    destruct (h' =? h) eqn:E; simpl.
    + apply Z.eqb_eq in E. subst.
      assert (Hm : memZ h hs = false) by now apply memZ_false.
      now rewrite Hm.
    + destruct (memZ h' hs); reflexivity.
  - intros _. unfold sum. induction hs; simpl; lia.
  - intros _. unfold sum. induction hs; simpl; lia.
Qed.

(** The files of the buckets of distinct hours, counted. *)
Lemma buckets_count all_files fd hs :
  categorize all_files [] = Ret fd ->
  NoDup hs ->
  sum (map (fun h => len (bucket fd h)) hs)
  = len (filter (is_day hs) all_files).
Proof.
  intros H Hnd.
  rewrite (map_ext _ (fun h => len (filter (hour_is h) all_files)))
    by (intros h; now rewrite (categorize_buckets_from _ _ _ h H)).
  clear H. induction all_files as [|f0 rest IH].
  - simpl. unfold sum. induction hs; simpl; [reflexivity|].
    inversion Hnd; subst. unfold len in *. simpl in *. auto.
  - rewrite (map_ext _ (fun h => (if hour_is h f0 then 1 else 0)
                                 + len (filter (hour_is h) rest))).
    + rewrite sum_map_add, IH, hour_indicator by assumption.
      simpl filter. destruct (is_day hs f0); unfold len; simpl List.length; lia.
    + intros h. simpl filter. destruct (hour_is h f0);
        unfold len; simpl List.length; lia.
Qed.

(** X12. The report agrees with the copies: the selected total it prints
    for a group is the number of files copied into that subset directory
    and is at most 50, and the daytime total it prints is the number of
    files copied to [full/daytime]. *)
Theorem report_totals_match_copies
    (all_files : list string) (g : nat -> nat) (fuel : nat) (res : run_result) :
  main all_files g fuel = Ret res ->
  total_daytime_selected res = len (subset_daytime res)
  /\ total_nighttime_selected res = len (subset_nighttime res)
  /\ total_daytime_selected res <= 50
  /\ total_nighttime_selected res <= 50
  /\ total_daytime_images res = len (full_daytime res).
Proof.
  intros H.
  destruct (main_inv_full _ _ _ _ H)
    as (fd & day & night & dn & Hfd & Hday & Hnight & Hdn & ->).
  cbn [total_daytime_selected total_nighttime_selected subset_daytime
       subset_nighttime total_daytime_images full_daytime].
  assert (Hgroup : forall g' hs requested st,
            0 <= requested ->
            distribute_files fd g' fuel hs requested = Ret st ->
            total_selected (selection_count_per_hour st)
            = len (selected_files st)
            /\ len (selected_files st) <= requested).
  { intros g' hs requested st Hreq Hrun.
    apply distribute_files_picks in Hrun. destruct Hrun as [Hne Hp].
    destruct (reached_keys _ _ _ _ _ Hne Hp) as [Hnd _].
    destruct (reached_accounted _ _ _ _ _ Hne Hp) as [Hsum Hacc].
    pose proof (reached_nonneg _ _ _ _ _ Hne Hreq Hp).
    pose proof (clamp_le_requested (total_available_files fd hs) requested).
    rewrite total_selected_sum by assumption. split; [assumption | lia]. }
  assert (H50 : 0 <= 50) by lia.
  destruct (Hgroup g DAY_HOURS IMAGE_SELECTION_COUNT_DAY day H50 Hday)
    as [Ed Hd].
  destruct (Hgroup (rng day) NIGHT_HOURS IMAGE_SELECTION_COUNT_NIGHT night
              H50 Hnight) as [En Hn].
  unfold IMAGE_SELECTION_COUNT_DAY, IMAGE_SELECTION_COUNT_NIGHT in *.
  rewrite Ed, En. repeat split; try lia.
  destruct (copy_daynight_exact _ _ _ Hdn) as [-> _].
  apply (buckets_count _ _ _ Hfd).
  rewrite (distribute_files_hours_after _ _ _ _ _ _ DAY_HOURS_NoDup Hday).
  apply NoDup_filter, DAY_HOURS_NoDup.
Qed.

Lemma report_totals_match_copies_witness :
  match main sample_listing first_choice 50 with
  | Ret res =>
      total_daytime_selected res = len (subset_daytime res)
      /\ total_daytime_images res = len (full_daytime res)
  | _ => False
  end.
Proof.
  destruct (main sample_listing first_choice 50) as [res| |] eqn:E;
    [| vm_compute in E; discriminate..].
  destruct (report_totals_match_copies sample_listing first_choice 50 res E)
    as (H1 & _ & _ & _ & H5).
  split; assumption.
Defined.

(** X13. A run on a listing of distinct, well-formed names, with fuel for
    50 rounds, returns, and each subset holds exactly 50 files when the
    listing has at least 50 names of that group, and all of them
    otherwise. *)
Theorem subsets_have_the_requested_size
    (all_files : list string) (g : nat -> nat) (fuel : nat) :
  NoDup all_files ->
  (forall f, In f all_files -> exists h, classify f = Ret h) ->
  (50 <= fuel)%nat ->
  exists res,
    main all_files g fuel = Ret res
    /\ len (subset_daytime res)
       = Z.min 50 (len (filter (is_day DAY_HOURS) all_files))
    /\ len (subset_nighttime res)
       = Z.min 50 (len (filter (is_day NIGHT_HOURS) all_files)).
Proof.
  intros Hnd Hok Hfuel.
  destruct (main_returns all_files g fuel Hnd Hok Hfuel) as [res Hres].
  exists res. split; [assumption|].
  destruct (main_inv_full _ _ _ _ Hres)
    as (fd & day & night & dn & Hfd & Hday & Hnight & _ & ->).
  cbn [subset_daytime subset_nighttime].
  assert (Hgroup : forall g' hs st,
            NoDup hs ->
            distribute_files fd g' fuel hs 50 = Ret st ->
            len (selected_files st)
            = Z.min 50 (len (filter (is_day hs) all_files))).
  { intros g' hs st Hhs Hrun.
    destruct (categorize_partition all_files fd hs Hfd Hnd) as [Hdf Hpd].
    assert (H50 : 0 <= 50) by lia.
    pose proof (final_request_closed _ _ _ _ _ _ Hdf Hpd H50 Hrun) as Hz.
    apply distribute_files_picks in Hrun. destruct Hrun as [Hne Hp].
    destruct (reached_accounted _ _ _ _ _ Hne Hp) as [_ Hacc].
    rewrite clamp_min in Hacc.
    rewrite <- (buckets_count _ _ _ Hfd Hhs).
    unfold total_available_files in Hacc.
    rewrite mk_counts_shape, (count_keys_NoDup_hours fd hs Hhs) in Hacc.
    unfold PyDict.values in Hacc. rewrite map_map in Hacc. simpl in Hacc.
    lia. }
  split.
  - apply (Hgroup g DAY_HOURS); [apply DAY_HOURS_NoDup | assumption].
  - apply (Hgroup (rng day) NIGHT_HOURS); [apply NIGHT_HOURS_NoDup | assumption].
Qed.

Lemma subsets_have_the_requested_size_witness :
  exists res,
    main sample_listing first_choice 50 = Ret res
    /\ len (subset_daytime res) = 13
    /\ len (subset_nighttime res) = 1.
Proof.
  destruct (subsets_have_the_requested_size sample_listing first_choice 50)
    as [res (Hres & Hd & Hn)].
  - apply nodupb_sound. vm_compute. reflexivity.
  - apply well_formedb_sound. vm_compute. reflexivity.
  - lia.
  - exists res. split; [assumption|]. rewrite Hd, Hn. split; reflexivity.
Defined.

(** ** The fields of a name and the two groups *)

Lemma split_dash_length (s : string) :
  List.length (split_dash s) = S (count_dash s).
Proof.
  induction s as [|c s IH]; simpl; [reflexivity|].
  destruct (Ascii.eqb c dash); simpl; [now rewrite IH|].
  destruct (split_dash s); simpl in *; lia.
Qed.

(** X14. The classifier raises [IndexError] exactly for the names with
    fewer than four dashes (a name with [k] dashes has [k + 1] fields);
    the only other exception it raises is [ValueError]. *)
Theorem classify_index_error (file_name : string) :
  List.length (split_dash file_name) = S (count_dash file_name)
  /\ (classify file_name = Raise IndexError
      <-> (count_dash file_name < 4)%nat)
  /\ (forall e, classify file_name = Raise e ->
        e = IndexError \/ e = ValueError).
Proof.
  pose proof (split_dash_length file_name) as Hl.
  split; [assumption|].
  unfold classify, index, int.
  destruct (nth_error (split_dash file_name) 4) as [field|] eqn:Ef; cbn [bind].
  - assert (Hlen : (4 < List.length (split_dash file_name))%nat).
    { apply nth_error_Some. congruence. }
    split.
    + split; [|lia]. destruct (py_int (slice_to 2 field)); discriminate.
    + intros e He. right.
      destruct (py_int (slice_to 2 field)); [discriminate|]. congruence.
  - apply nth_error_None in Ef. split.
    + split; [lia | reflexivity].
    + intros e He. left. congruence.
Qed.

(** X15. [DAY_HOURS] and [NIGHT_HOURS] split the 24 hours: every hour from
    0 to 23 is in exactly one of the two lists, no other number is in
    either, and neither list repeats an hour. *)
Theorem day_and_night_split_the_hours :
  NoDup DAY_HOURS /\ NoDup NIGHT_HOURS
  /\ (forall h, In h DAY_HOURS \/ In h NIGHT_HOURS <-> 0 <= h < 24)
  /\ (forall h, In h DAY_HOURS -> ~ In h NIGHT_HOURS)
  /\ len DAY_HOURS = 12 /\ len NIGHT_HOURS = 12.
Proof.
  split; [apply DAY_HOURS_NoDup|]. split; [apply NIGHT_HOURS_NoDup|].
  split; [|split; [|split; reflexivity]].
  - intros h. rewrite DAY_HOURS_In, NIGHT_HOURS_In. lia.
  - intros h. rewrite DAY_HOURS_In, NIGHT_HOURS_In. lia.
Qed.
